(** * dscKeybusInterface example sketches: OpenHAB-MQTT (esp32) and Twilio (esp8266)

    A shallow embedding of the two sketches' status processing, message
    encoding, inbound command handling, connection supervision and HTTP
    notification exchange, followed by the properties established for them.

    Conventions.  The global [dsc] object of the library is a record whose
    fields carry the library's member names; per-partition members are
    lists indexed by the zero-based partition, zone members are lists of
    bytes indexed by the zone group.  Every call that leaves the sketch
    (MQTT publish and subscribe, Keybus write, SMS push) is appended to a
    trace, together with a marker for each per-fact status flag the sketch
    resets.  The network, the clock and the library's own [loop()] are
    inputs of the model. *)

From Stdlib Require Import ZArith List String Ascii Bool Lia.
From stdpp Require Import base list.
Import ListNotations.

Open Scope Z_scope.

(** ** Arduino and C library primitives *)

(** Truncation of a C integer to [uint8_t] (Arduino [byte]). *)
Definition to_byte (v : Z) : Z := v mod 2 ^ 8.

(** Truncation to a 32-bit [unsigned long] / [size_t]. *)
Definition to_ulong (v : Z) : Z := v mod 2 ^ 32.

(** [bitRead(value, bit)] is [(((value) >> (bit)) & 0x01)]. *)
Definition bitRead (value : Z) (bit : nat) : Z :=
  Z.land (Z.shiftr value (Z.of_nat bit)) 1.

(** [bitClear(value, bit)] is [((value) &= ~(1UL << (bit)))], stored back
    into a [byte]. *)
Definition bitClear (value : Z) (bit : nat) : Z :=
  to_byte (Z.land value (to_ulong (Z.lnot (to_ulong (Z.shiftl 1 (Z.of_nat bit)))))).

(** [bitSet(value, bit)] is [((value) |= (1UL << (bit)))]. *)
Definition bitSet (value : Z) (bit : nat) : Z :=
  to_byte (Z.lor value (to_ulong (Z.shiftl 1 (Z.of_nat bit)))).

(** [bitWrite(value, bit, bitvalue)] selects [bitSet] or [bitClear]. *)
Definition bitWrite (value : Z) (bit : nat) (bitvalue : Z) : Z :=
  if bitvalue =? 0 then bitClear value bit else bitSet value bit.

(** A C condition is true when its integer value is not zero. *)
Definition truthy (v : Z) : bool := negb (v =? 0).

(** The decimal digit character of [n] (for [0 <= n < 10]). *)
Definition digit_char (n : Z) : ascii := ascii_of_nat (Z.to_nat (48 + n)).

(** Digits of a non-negative number, least significant produced first and
    pushed in front of [acc], as the do-while loop of [itoa] does before it
    reverses its buffer. *)
Fixpoint itoa_digits (fuel : nat) (n : Z) (acc : string) : string :=
  let acc' := String (digit_char (n mod 10)) acc in
  match fuel with
  | O => acc'
  | S fuel' => if n / 10 =? 0 then acc' else itoa_digits fuel' (n / 10) acc'
  end.

(** [itoa(value, buffer, 10)]: the decimal text of a C [int]; ten digits
    cover every 32-bit value. *)
Definition itoa (value : Z) : string :=
  if value <? 0 then String "-" (itoa_digits 9 (- value) "")
  else itoa_digits 9 value "".

Arguments itoa : simpl never.

(** [strlen]. *)
Definition strlen (s : string) : Z := Z.of_nat (String.length s).

(** [strcpy(dst, src)] and [strcat(dst, src)] on the text held by [dst];
    the capacity of [dst] is tracked separately by the [Buffers] module. *)
Definition strcpy (src : string) : string := src.
Definition strcat (dst src : string) : string := (dst ++ src)%string.

(** Carriage return and line feed, the line end written by [println]. *)
Definition CRLF : string :=
  String (ascii_of_nat 13) (String (ascii_of_nat 10) EmptyString).

(** ** The library object *)

(** Modelled from the spec: the library header that declares the array
    sizes is not part of the sketches; the panel has partitions 1..8. *)
Definition dscPartitions : nat := 8.

(** Modelled from the spec: 64 zones "physically grouped as 8 groups of 8
    bits". *)
Definition dscZones : nat := 8.

(** The public members of [dscKeybusInterface] that the sketches use.
    [panelBuffer] stands for the captured Keybus data the library has not
    yet processed; only the library's [loop()] looks at it. *)
Record dscKeybusInterface : Type := mkDsc {
  statusChanged : bool;
  pauseStatus : bool;
  bufferOverflow : bool;
  accessCodePrompt : bool;
  keybusConnected : bool;
  keybusChanged : bool;
  powerTrouble : bool;
  powerChanged : bool;
  keypadFireAlarm : bool;
  keypadAuxAlarm : bool;
  keypadPanicAlarm : bool;
  writePartition : Z;
  disabled : list bool;
  armed : list bool;
  armedAway : list bool;
  armedStay : list bool;
  armedChanged : list bool;
  exitDelay : list bool;
  exitDelayChanged : list bool;
  alarm : list bool;
  alarmChanged : list bool;
  fire : list bool;
  fireChanged : list bool;
  openZonesStatusChanged : bool;
  openZones : list Z;
  openZonesChanged : list Z;
  alarmZonesStatusChanged : bool;
  alarmZones : list Z;
  alarmZonesChanged : list Z;
  panelBuffer : list (list Z)
}.

(** Assignments to single members of the object. *)
Definition set_statusChanged (v : bool) (d : dscKeybusInterface) : dscKeybusInterface :=
  mkDsc v (pauseStatus d) (bufferOverflow d) (accessCodePrompt d) (keybusConnected d)
    (keybusChanged d) (powerTrouble d) (powerChanged d) (keypadFireAlarm d) (keypadAuxAlarm d)
    (keypadPanicAlarm d) (writePartition d) (disabled d) (armed d) (armedAway d) (armedStay d)
    (armedChanged d) (exitDelay d) (exitDelayChanged d) (alarm d) (alarmChanged d) (fire d)
    (fireChanged d) (openZonesStatusChanged d) (openZones d) (openZonesChanged d)
    (alarmZonesStatusChanged d) (alarmZones d) (alarmZonesChanged d) (panelBuffer d).

Definition set_pauseStatus (v : bool) (d : dscKeybusInterface) : dscKeybusInterface :=
  mkDsc (statusChanged d) v (bufferOverflow d) (accessCodePrompt d) (keybusConnected d)
    (keybusChanged d) (powerTrouble d) (powerChanged d) (keypadFireAlarm d) (keypadAuxAlarm d)
    (keypadPanicAlarm d) (writePartition d) (disabled d) (armed d) (armedAway d) (armedStay d)
    (armedChanged d) (exitDelay d) (exitDelayChanged d) (alarm d) (alarmChanged d) (fire d)
    (fireChanged d) (openZonesStatusChanged d) (openZones d) (openZonesChanged d)
    (alarmZonesStatusChanged d) (alarmZones d) (alarmZonesChanged d) (panelBuffer d).

Definition set_bufferOverflow (v : bool) (d : dscKeybusInterface) : dscKeybusInterface :=
  mkDsc (statusChanged d) (pauseStatus d) v (accessCodePrompt d) (keybusConnected d)
    (keybusChanged d) (powerTrouble d) (powerChanged d) (keypadFireAlarm d) (keypadAuxAlarm d)
    (keypadPanicAlarm d) (writePartition d) (disabled d) (armed d) (armedAway d) (armedStay d)
    (armedChanged d) (exitDelay d) (exitDelayChanged d) (alarm d) (alarmChanged d) (fire d)
    (fireChanged d) (openZonesStatusChanged d) (openZones d) (openZonesChanged d)
    (alarmZonesStatusChanged d) (alarmZones d) (alarmZonesChanged d) (panelBuffer d).

Definition set_accessCodePrompt (v : bool) (d : dscKeybusInterface) : dscKeybusInterface :=
  mkDsc (statusChanged d) (pauseStatus d) (bufferOverflow d) v (keybusConnected d)
    (keybusChanged d) (powerTrouble d) (powerChanged d) (keypadFireAlarm d) (keypadAuxAlarm d)
    (keypadPanicAlarm d) (writePartition d) (disabled d) (armed d) (armedAway d) (armedStay d)
    (armedChanged d) (exitDelay d) (exitDelayChanged d) (alarm d) (alarmChanged d) (fire d)
    (fireChanged d) (openZonesStatusChanged d) (openZones d) (openZonesChanged d)
    (alarmZonesStatusChanged d) (alarmZones d) (alarmZonesChanged d) (panelBuffer d).

Definition set_keybusChanged (v : bool) (d : dscKeybusInterface) : dscKeybusInterface :=
  mkDsc (statusChanged d) (pauseStatus d) (bufferOverflow d) (accessCodePrompt d)
    (keybusConnected d) v (powerTrouble d) (powerChanged d) (keypadFireAlarm d)
    (keypadAuxAlarm d) (keypadPanicAlarm d) (writePartition d) (disabled d) (armed d)
    (armedAway d) (armedStay d) (armedChanged d) (exitDelay d) (exitDelayChanged d) (alarm d)
    (alarmChanged d) (fire d) (fireChanged d) (openZonesStatusChanged d) (openZones d)
    (openZonesChanged d) (alarmZonesStatusChanged d) (alarmZones d) (alarmZonesChanged d)
    (panelBuffer d).

Definition set_powerChanged (v : bool) (d : dscKeybusInterface) : dscKeybusInterface :=
  mkDsc (statusChanged d) (pauseStatus d) (bufferOverflow d) (accessCodePrompt d)
    (keybusConnected d) (keybusChanged d) (powerTrouble d) v (keypadFireAlarm d)
    (keypadAuxAlarm d) (keypadPanicAlarm d) (writePartition d) (disabled d) (armed d)
    (armedAway d) (armedStay d) (armedChanged d) (exitDelay d) (exitDelayChanged d) (alarm d)
    (alarmChanged d) (fire d) (fireChanged d) (openZonesStatusChanged d) (openZones d)
    (openZonesChanged d) (alarmZonesStatusChanged d) (alarmZones d) (alarmZonesChanged d)
    (panelBuffer d).

Definition set_keypadFireAlarm (v : bool) (d : dscKeybusInterface) : dscKeybusInterface :=
  mkDsc (statusChanged d) (pauseStatus d) (bufferOverflow d) (accessCodePrompt d)
    (keybusConnected d) (keybusChanged d) (powerTrouble d) (powerChanged d) v (keypadAuxAlarm d)
    (keypadPanicAlarm d) (writePartition d) (disabled d) (armed d) (armedAway d) (armedStay d)
    (armedChanged d) (exitDelay d) (exitDelayChanged d) (alarm d) (alarmChanged d) (fire d)
    (fireChanged d) (openZonesStatusChanged d) (openZones d) (openZonesChanged d)
    (alarmZonesStatusChanged d) (alarmZones d) (alarmZonesChanged d) (panelBuffer d).

Definition set_keypadAuxAlarm (v : bool) (d : dscKeybusInterface) : dscKeybusInterface :=
  mkDsc (statusChanged d) (pauseStatus d) (bufferOverflow d) (accessCodePrompt d)
    (keybusConnected d) (keybusChanged d) (powerTrouble d) (powerChanged d) (keypadFireAlarm d)
    v (keypadPanicAlarm d) (writePartition d) (disabled d) (armed d) (armedAway d) (armedStay d)
    (armedChanged d) (exitDelay d) (exitDelayChanged d) (alarm d) (alarmChanged d) (fire d)
    (fireChanged d) (openZonesStatusChanged d) (openZones d) (openZonesChanged d)
    (alarmZonesStatusChanged d) (alarmZones d) (alarmZonesChanged d) (panelBuffer d).

Definition set_keypadPanicAlarm (v : bool) (d : dscKeybusInterface) : dscKeybusInterface :=
  mkDsc (statusChanged d) (pauseStatus d) (bufferOverflow d) (accessCodePrompt d)
    (keybusConnected d) (keybusChanged d) (powerTrouble d) (powerChanged d) (keypadFireAlarm d)
    (keypadAuxAlarm d) v (writePartition d) (disabled d) (armed d) (armedAway d) (armedStay d)
    (armedChanged d) (exitDelay d) (exitDelayChanged d) (alarm d) (alarmChanged d) (fire d)
    (fireChanged d) (openZonesStatusChanged d) (openZones d) (openZonesChanged d)
    (alarmZonesStatusChanged d) (alarmZones d) (alarmZonesChanged d) (panelBuffer d).

Definition set_writePartition (v : Z) (d : dscKeybusInterface) : dscKeybusInterface :=
  mkDsc (statusChanged d) (pauseStatus d) (bufferOverflow d) (accessCodePrompt d)
    (keybusConnected d) (keybusChanged d) (powerTrouble d) (powerChanged d) (keypadFireAlarm d)
    (keypadAuxAlarm d) (keypadPanicAlarm d) v (disabled d) (armed d) (armedAway d) (armedStay d)
    (armedChanged d) (exitDelay d) (exitDelayChanged d) (alarm d) (alarmChanged d) (fire d)
    (fireChanged d) (openZonesStatusChanged d) (openZones d) (openZonesChanged d)
    (alarmZonesStatusChanged d) (alarmZones d) (alarmZonesChanged d) (panelBuffer d).

Definition set_armedChanged (v : list bool) (d : dscKeybusInterface) : dscKeybusInterface :=
  mkDsc (statusChanged d) (pauseStatus d) (bufferOverflow d) (accessCodePrompt d)
    (keybusConnected d) (keybusChanged d) (powerTrouble d) (powerChanged d) (keypadFireAlarm d)
    (keypadAuxAlarm d) (keypadPanicAlarm d) (writePartition d) (disabled d) (armed d)
    (armedAway d) (armedStay d) v (exitDelay d) (exitDelayChanged d) (alarm d) (alarmChanged d)
    (fire d) (fireChanged d) (openZonesStatusChanged d) (openZones d) (openZonesChanged d)
    (alarmZonesStatusChanged d) (alarmZones d) (alarmZonesChanged d) (panelBuffer d).

Definition set_exitDelayChanged (v : list bool) (d : dscKeybusInterface) : dscKeybusInterface :=
  mkDsc (statusChanged d) (pauseStatus d) (bufferOverflow d) (accessCodePrompt d)
    (keybusConnected d) (keybusChanged d) (powerTrouble d) (powerChanged d) (keypadFireAlarm d)
    (keypadAuxAlarm d) (keypadPanicAlarm d) (writePartition d) (disabled d) (armed d)
    (armedAway d) (armedStay d) (armedChanged d) (exitDelay d) v (alarm d) (alarmChanged d)
    (fire d) (fireChanged d) (openZonesStatusChanged d) (openZones d) (openZonesChanged d)
    (alarmZonesStatusChanged d) (alarmZones d) (alarmZonesChanged d) (panelBuffer d).

Definition set_alarmChanged (v : list bool) (d : dscKeybusInterface) : dscKeybusInterface :=
  mkDsc (statusChanged d) (pauseStatus d) (bufferOverflow d) (accessCodePrompt d)
    (keybusConnected d) (keybusChanged d) (powerTrouble d) (powerChanged d) (keypadFireAlarm d)
    (keypadAuxAlarm d) (keypadPanicAlarm d) (writePartition d) (disabled d) (armed d)
    (armedAway d) (armedStay d) (armedChanged d) (exitDelay d) (exitDelayChanged d) (alarm d) v
    (fire d) (fireChanged d) (openZonesStatusChanged d) (openZones d) (openZonesChanged d)
    (alarmZonesStatusChanged d) (alarmZones d) (alarmZonesChanged d) (panelBuffer d).

Definition set_fireChanged (v : list bool) (d : dscKeybusInterface) : dscKeybusInterface :=
  mkDsc (statusChanged d) (pauseStatus d) (bufferOverflow d) (accessCodePrompt d)
    (keybusConnected d) (keybusChanged d) (powerTrouble d) (powerChanged d) (keypadFireAlarm d)
    (keypadAuxAlarm d) (keypadPanicAlarm d) (writePartition d) (disabled d) (armed d)
    (armedAway d) (armedStay d) (armedChanged d) (exitDelay d) (exitDelayChanged d) (alarm d)
    (alarmChanged d) (fire d) v (openZonesStatusChanged d) (openZones d) (openZonesChanged d)
    (alarmZonesStatusChanged d) (alarmZones d) (alarmZonesChanged d) (panelBuffer d).

Definition set_openZonesStatusChanged (v : bool) (d : dscKeybusInterface) : dscKeybusInterface :=
  mkDsc (statusChanged d) (pauseStatus d) (bufferOverflow d) (accessCodePrompt d)
    (keybusConnected d) (keybusChanged d) (powerTrouble d) (powerChanged d) (keypadFireAlarm d)
    (keypadAuxAlarm d) (keypadPanicAlarm d) (writePartition d) (disabled d) (armed d)
    (armedAway d) (armedStay d) (armedChanged d) (exitDelay d) (exitDelayChanged d) (alarm d)
    (alarmChanged d) (fire d) (fireChanged d) v (openZones d) (openZonesChanged d)
    (alarmZonesStatusChanged d) (alarmZones d) (alarmZonesChanged d) (panelBuffer d).

Definition set_openZonesChanged (v : list Z) (d : dscKeybusInterface) : dscKeybusInterface :=
  mkDsc (statusChanged d) (pauseStatus d) (bufferOverflow d) (accessCodePrompt d)
    (keybusConnected d) (keybusChanged d) (powerTrouble d) (powerChanged d) (keypadFireAlarm d)
    (keypadAuxAlarm d) (keypadPanicAlarm d) (writePartition d) (disabled d) (armed d)
    (armedAway d) (armedStay d) (armedChanged d) (exitDelay d) (exitDelayChanged d) (alarm d)
    (alarmChanged d) (fire d) (fireChanged d) (openZonesStatusChanged d) (openZones d) v
    (alarmZonesStatusChanged d) (alarmZones d) (alarmZonesChanged d) (panelBuffer d).

Definition set_alarmZonesStatusChanged (v : bool) (d : dscKeybusInterface) : dscKeybusInterface :=
  mkDsc (statusChanged d) (pauseStatus d) (bufferOverflow d) (accessCodePrompt d)
    (keybusConnected d) (keybusChanged d) (powerTrouble d) (powerChanged d) (keypadFireAlarm d)
    (keypadAuxAlarm d) (keypadPanicAlarm d) (writePartition d) (disabled d) (armed d)
    (armedAway d) (armedStay d) (armedChanged d) (exitDelay d) (exitDelayChanged d) (alarm d)
    (alarmChanged d) (fire d) (fireChanged d) (openZonesStatusChanged d) (openZones d)
    (openZonesChanged d) v (alarmZones d) (alarmZonesChanged d) (panelBuffer d).

Definition set_alarmZonesChanged (v : list Z) (d : dscKeybusInterface) : dscKeybusInterface :=
  mkDsc (statusChanged d) (pauseStatus d) (bufferOverflow d) (accessCodePrompt d)
    (keybusConnected d) (keybusChanged d) (powerTrouble d) (powerChanged d) (keypadFireAlarm d)
    (keypadAuxAlarm d) (keypadPanicAlarm d) (writePartition d) (disabled d) (armed d)
    (armedAway d) (armedStay d) (armedChanged d) (exitDelay d) (exitDelayChanged d) (alarm d)
    (alarmChanged d) (fire d) (fireChanged d) (openZonesStatusChanged d) (openZones d)
    (openZonesChanged d) (alarmZonesStatusChanged d) (alarmZones d) v (panelBuffer d).

(** Array sizes fixed by the library header. *)
Definition wf_dsc (d : dscKeybusInterface) : Prop :=
  length (disabled d) = dscPartitions /\
  length (armed d) = dscPartitions /\
  length (armedAway d) = dscPartitions /\
  length (armedStay d) = dscPartitions /\
  length (armedChanged d) = dscPartitions /\
  length (exitDelay d) = dscPartitions /\
  length (exitDelayChanged d) = dscPartitions /\
  length (alarm d) = dscPartitions /\
  length (alarmChanged d) = dscPartitions /\
  length (fire d) = dscPartitions /\
  length (fireChanged d) = dscPartitions /\
  length (openZones d) = dscZones /\
  length (openZonesChanged d) = dscZones /\
  length (alarmZones d) = dscZones /\
  length (alarmZonesChanged d) = dscZones.

(** Modelled from the spec: [dsc.resetStatus()] is defined in the library,
    not in the sketches.  "Every tracked fact's changed-flag is set true":
    the summary flags, the Keybus and power flags, the per-partition flags
    and all 64 bits of both zone change arrays.  The keypad alarm buttons
    are one-shot events without a separate flag and are left alone. *)
Definition resetStatus (d : dscKeybusInterface) : dscKeybusInterface :=
  set_statusChanged true
    (set_keybusChanged true
    (set_powerChanged true
    (set_armedChanged (replicate dscPartitions true)
    (set_exitDelayChanged (replicate dscPartitions true)
    (set_alarmChanged (replicate dscPartitions true)
    (set_fireChanged (replicate dscPartitions true)
    (set_openZonesStatusChanged true
    (set_openZonesChanged (replicate dscZones 0xFF)
    (set_alarmZonesStatusChanged true
    (set_alarmZonesChanged (replicate dscZones 0xFF) d)))))))))).

(** ** Tracked facts, their status flags, and the trace *)

(** One constructor per status flag that stands for a single fact. *)
Inductive Fact : Type :=
| FKeybus
| FPower
| FKeypadFire
| FKeypadAux
| FKeypadPanic
| FArmed (partition : nat)
| FExitDelay (partition : nat)
| FAlarm (partition : nat)
| FFire (partition : nat)
| FOpenZone (zoneGroup zoneBit : nat)
| FAlarmZone (zoneGroup zoneBit : nat).

(** The partition a fact belongs to, if it is a partition fact. *)
Definition fact_partition (f : Fact) : option nat :=
  match f with
  | FArmed p | FExitDelay p | FAlarm p | FFire p => Some p
  | _ => None
  end.

(** Reading the status flag of a fact: [dsc.armedChanged[partition]],
    [bitRead(dsc.openZonesChanged[zoneGroup], zoneBit)], ... *)
Definition changed (f : Fact) (d : dscKeybusInterface) : bool :=
  match f with
  | FKeybus => keybusChanged d
  | FPower => powerChanged d
  | FKeypadFire => keypadFireAlarm d
  | FKeypadAux => keypadAuxAlarm d
  | FKeypadPanic => keypadPanicAlarm d
  | FArmed p => armedChanged d !!! p
  | FExitDelay p => exitDelayChanged d !!! p
  | FAlarm p => alarmChanged d !!! p
  | FFire p => fireChanged d !!! p
  | FOpenZone g b => truthy (bitRead (openZonesChanged d !!! g) b)
  | FAlarmZone g b => truthy (bitRead (alarmZonesChanged d !!! g) b)
  end.

(** Resetting the status flag of a fact: [dsc.armedChanged[partition] =
    false], [bitWrite(dsc.openZonesChanged[zoneGroup], zoneBit, 0)], ... *)
Definition clearFlag (f : Fact) (d : dscKeybusInterface) : dscKeybusInterface :=
  match f with
  | FKeybus => set_keybusChanged false d
  | FPower => set_powerChanged false d
  | FKeypadFire => set_keypadFireAlarm false d
  | FKeypadAux => set_keypadAuxAlarm false d
  | FKeypadPanic => set_keypadPanicAlarm false d
  | FArmed p => set_armedChanged (<[p := false]> (armedChanged d)) d
  | FExitDelay p => set_exitDelayChanged (<[p := false]> (exitDelayChanged d)) d
  | FAlarm p => set_alarmChanged (<[p := false]> (alarmChanged d)) d
  | FFire p => set_fireChanged (<[p := false]> (fireChanged d)) d
  | FOpenZone g b =>
      set_openZonesChanged
        (<[g := bitWrite (openZonesChanged d !!! g) b 0]> (openZonesChanged d)) d
  | FAlarmZone g b =>
      set_alarmZonesChanged
        (<[g := bitWrite (alarmZonesChanged d !!! g) b 0]> (alarmZonesChanged d)) d
  end.

(** What the sketches do to the outside, in program order. *)
Inductive Ev : Type :=
| EvClear (f : Fact)
| EvPublish (topic payload : string) (retained : bool)
| EvSubscribe (topic : string)
| EvWriteKey (key : ascii)
| EvWrite (keys : string)
| EvPush (prefix pushMessage : string).

(** Outbound messages are the MQTT publishes and the SMS pushes. *)
Definition is_send (e : Ev) : bool :=
  match e with
  | EvPublish _ _ _ | EvPush _ _ => true
  | _ => false
  end.

(** The sketch's view of the world: the [dsc] object, the trace so far
    (oldest event first) and the number of [sendPush] calls made, which
    selects the network behaviour met by the next call. *)
Record World : Type := mkWorld {
  dsc : dscKeybusInterface;
  trace : list Ev;
  pushCalls : nat
}.

Definition store (f : dscKeybusInterface -> dscKeybusInterface) (w : World) : World :=
  mkWorld (f (dsc w)) (trace w) (pushCalls w).

Definition emit (e : Ev) (w : World) : World :=
  mkWorld (dsc w) (trace w ++ [e]) (pushCalls w).

(** Statement sequencing, conditionals and counted loops. *)
Definition andThen (s1 s2 : World -> World) : World -> World :=
  fun w => s2 (s1 w).

Notation "s1 >>> s2" := (andThen s1 s2) (at level 60, right associativity).

Definition skip : World -> World := fun w => w.

Definition ifelse (c : dscKeybusInterface -> bool) (s1 s2 : World -> World) : World -> World :=
  fun w => if c (dsc w) then s1 w else s2 w.

Definition when (c : dscKeybusInterface -> bool) (s : World -> World) : World -> World :=
  ifelse c s skip.

(** [for (byte i = 0; i < n; i++) body(i)]. *)
Definition forRange (n : nat) (body : nat -> World -> World) : World -> World :=
  fun w => fold_left (fun w' i => body i w') (seq 0 n) w.

(** Resetting a fact's flag, recorded in the trace. *)
Definition reset (f : Fact) : World -> World :=
  store (clearFlag f) >>> emit (EvClear f).

(** ** OpenHAB-MQTT (esp32) *)

Module OpenHAB.

Definition mqttPartitionTopic : string := "dsc/Get/Partition".
Definition mqttZoneTopic : string := "dsc/Get/Zone".
Definition mqttFireTopic : string := "dsc/Get/Fire".
Definition mqttSubscribeTopic : string := "dsc/Set".

(** [mqtt.publish(topic, payload, retained)]. *)
Definition publish (topic payload : string) (retained : bool) : World -> World :=
  emit (EvPublish topic payload retained).

(** [publishState]: the topic is the source topic followed by the decimal
    partition number, the payload is that number followed by the suffix. *)
Definition publishState (sourceTopic : string) (partition : nat) (sourceSuffix : string)
  : World -> World :=
  let partitionNumber := itoa (Z.of_nat partition + 1) in
  let publishTopic := strcat (strcpy sourceTopic) partitionNumber in
  let currentState := strcat (strcpy partitionNumber) sourceSuffix in
  publish publishTopic currentState true.

(** Body of the partition loop of [loop()]. *)
Definition armedStatus (partition : nat) : World -> World :=
  when (changed (FArmed partition))
    (reset (FArmed partition) >>>
     ifelse (fun d => armed d !!! partition)
       (ifelse (fun d => armedAway d !!! partition)
          (publishState mqttPartitionTopic partition "A")
          (when (fun d => armedStay d !!! partition)
             (publishState mqttPartitionTopic partition "S")))
       (publishState mqttPartitionTopic partition "D")).

Definition exitDelayStatus (partition : nat) : World -> World :=
  when (changed (FExitDelay partition))
    (reset (FExitDelay partition) >>>
     ifelse (fun d => exitDelay d !!! partition)
       (publishState mqttPartitionTopic partition "P")
       (when (fun d => negb (armed d !!! partition))
          (publishState mqttPartitionTopic partition "D"))).

Definition alarmStatus (partition : nat) : World -> World :=
  when (changed (FAlarm partition))
    (reset (FAlarm partition) >>>
     when (fun d => alarm d !!! partition)
       (publishState mqttPartitionTopic partition "T")).

Definition fireStatus (partition : nat) : World -> World :=
  when (changed (FFire partition))
    (reset (FFire partition) >>>
     ifelse (fun d => fire d !!! partition)
       (publishState mqttFireTopic partition "1")
       (publishState mqttFireTopic partition "0")).

Definition partitionStatus (partition : nat) : World -> World :=
  armedStatus partition >>> exitDelayStatus partition >>>
  alarmStatus partition >>> fireStatus partition.

(** Body of the inner zone loop. *)
Definition zoneStatus (zoneGroup zoneBit : nat) : World -> World :=
  when (changed (FOpenZone zoneGroup zoneBit))
    (reset (FOpenZone zoneGroup zoneBit) >>>
     let zone := itoa (Z.of_nat zoneBit + 1 + Z.of_nat zoneGroup * 8) in
     let zonePublishTopic := strcat (strcpy mqttZoneTopic) zone in
     ifelse (fun d => truthy (bitRead (openZones d !!! zoneGroup) zoneBit))
       (publish zonePublishTopic "1" true)
       (publish zonePublishTopic "0" true)).

(** The two nested zone loops. *)
Definition zoneScan : World -> World :=
  forRange dscZones (fun zoneGroup => forRange 8 (fun zoneBit => zoneStatus zoneGroup zoneBit)).

(** [if (dsc.openZonesStatusChanged) { ... }]. *)
Definition openZonesStatus : World -> World :=
  when openZonesStatusChanged
    (store (set_openZonesStatusChanged false) >>> zoneScan).

Section Sketch.

(** The access code configured in the sketch's settings. *)
Variable accessCode : string.

(** The body of [if (dsc.statusChanged) { ... }], after the flag is reset. *)
Definition processStatus : World -> World :=
  when bufferOverflow (store (set_bufferOverflow false)) >>>
  when accessCodePrompt
    (store (set_accessCodePrompt false) >>> emit (EvWrite accessCode)) >>>
  forRange dscPartitions partitionStatus >>>
  openZonesStatus >>>
  emit (EvSubscribe mqttSubscribeTopic).

(** The status part of [loop()]. *)
Definition loopStatus : World -> World :=
  when statusChanged (store (set_statusChanged false) >>> processStatus).

(** [mqttCallback]: [payload] is the receive buffer from the first payload
    byte on (the callback ignores [length]); a read past the end of the
    list yields 0. *)
Definition mqttCallback (payload : list Z) : World -> World :=
  fun w =>
  let d := dsc w in
  let '(partition, payloadIndex) :=
    if (0x31 <=? nth 0 payload 0) && (nth 0 payload 0 <=? 0x38)
    then (Z.to_nat (to_byte (nth 0 payload 0 - 49)), 1%nat)
    else (0%nat, 0%nat) in
  if (nth payloadIndex payload 0 =? 83 (* 'S' *))
     && negb (armed d !!! partition) && negb (exitDelay d !!! partition)
  then emit (EvWriteKey "s"%char) (store (set_writePartition (to_byte (Z.of_nat partition + 1))) w)
  else
  if (nth payloadIndex payload 0 =? 65 (* 'A' *))
     && negb (armed d !!! partition) && negb (exitDelay d !!! partition)
  then emit (EvWriteKey "w"%char) (store (set_writePartition (to_byte (Z.of_nat partition + 1))) w)
  else
  if (nth payloadIndex payload 0 =? 68 (* 'D' *))
     && ((armed d !!! partition) || (exitDelay d !!! partition))
  then emit (EvWrite accessCode) (store (set_writePartition (to_byte (Z.of_nat partition + 1))) w)
  else w.

(** What the MQTT client reports during one [mqttConnect()]: the result of
    [mqtt.connect(...)] and of the [mqtt.connected()] that is returned. *)
Record MqttLink : Type := mkLink {
  connectResult : bool;
  connectedAfter : bool
}.

(** [mqttConnect]. *)
Definition mqttConnect (link : MqttLink) (w : World) : bool * World :=
  if connectResult link
  then (connectedAfter link, store resetStatus w)
  else (connectedAfter link, w).

(** The MQTT part of [setup()]: [millis] is the clock reading stored in
    [mqttPreviousTime] when the first connection succeeds. *)
Definition setup (link : MqttLink) (millis : Z) (w : World) : Z * World :=
  let '(ok, w') := mqttConnect link w in
  if ok then (millis, w') else (0, w').

(** What [mqttHandle()] meets: [mqtt.connected()], [millis()], the link
    behaviour of a reconnection attempt, and the messages that
    [mqtt.loop()] hands to the callback. *)
Record MqttEnv : Type := mkMqttEnv {
  isConnected : bool;
  now : Z;
  link : MqttLink;
  inbox : list (list Z)
}.

(** [mqttHandle], threading the global [mqttPreviousTime]. *)
Definition mqttHandle (env : MqttEnv) (mqttPreviousTime : Z) (w : World) : Z * World :=
  if negb (isConnected env) then
    let mqttCurrentTime := now env in
    if 5000 <? to_ulong (mqttCurrentTime - mqttPreviousTime) then
      let '(ok, w') := mqttConnect (link env) w in
      if ok then (0, w') else (mqttCurrentTime, w')
    else (mqttPreviousTime, w)
  else (mqttPreviousTime, fold_left (fun w' payload => mqttCallback payload w') (inbox env) w).

(** [loop()]: [dscLoop] is the library's [dsc.loop()]. *)
Definition loop (env : MqttEnv) (dscLoop : dscKeybusInterface -> dscKeybusInterface)
    (mqttPreviousTime : Z) (w : World) : Z * World :=
  let '(t, w1) := mqttHandle env mqttPreviousTime w in
  (t, loopStatus (store dscLoop w1)).

End Sketch.

(** *** Destination buffers of the topic and payload strings *)

(** The character arrays of [publishState] and of the zone loop, with
    their declared sizes: a write that does not fit yields [None]. *)
Module Buffers.

Record cbuf : Type := mkBuf {
  capacity : Z;
  text : string
}.

(** [char name[capacity];] *)
Definition alloc (capacity : Z) : cbuf := mkBuf capacity "".

(** Bytes taken by a text and its terminating NUL. *)
Definition footprint (s : string) : Z := strlen s + 1.

Definition fill (dst : cbuf) (s : string) : option cbuf :=
  if footprint s <=? capacity dst then Some (mkBuf (capacity dst) s) else None.

Definition strcpy_into (dst : cbuf) (src : string) : option cbuf :=
  fill dst (strcpy src).

Definition strcat_into (dst : cbuf) (src : string) : option cbuf :=
  fill dst (strcat (text dst) src).

Definition itoa_into (value : Z) (dst : cbuf) : option cbuf :=
  fill dst (itoa value).

(** The string assembly of [publishState]: topic and payload. *)
Definition publishState (sourceTopic : string) (partition : nat) (sourceSuffix : string)
  : option (string * string) :=
  let publishTopic := alloc (strlen sourceTopic + 1) in
  let partitionNumber := alloc 2 in
  partitionNumber ← itoa_into (Z.of_nat partition + 1) partitionNumber;
  publishTopic ← strcpy_into publishTopic sourceTopic;
  publishTopic ← strcat_into publishTopic (text partitionNumber);
  let currentState := alloc (strlen sourceSuffix + 1) in
  currentState ← strcpy_into currentState (text partitionNumber);
  currentState ← strcat_into currentState sourceSuffix;
  Some (text publishTopic, text currentState).

(** The string assembly of the zone loop: the topic. *)
Definition zoneTopic (zoneGroup zoneBit : nat) : option string :=
  let zonePublishTopic := alloc (strlen mqttZoneTopic + 2) in
  let zone := alloc 3 in
  zonePublishTopic ← strcpy_into zonePublishTopic mqttZoneTopic;
  zone ← itoa_into (Z.of_nat zoneBit + 1 + Z.of_nat zoneGroup * 8) zone;
  zonePublishTopic ← strcat_into zonePublishTopic (text zone);
  Some (text zonePublishTopic).

End Buffers.

End OpenHAB.

(** ** Twilio SMS notification (esp8266) *)

Module Twilio.

Definition PushMessagePrefix : string := "Security system ".

(** The integer value of a character, as [pushClient.read()] returns it. *)
Definition int_of_char (c : ascii) : Z := Z.of_nat (nat_of_ascii c).

(** What one [sendPush] call meets on the network and the clock:
    the result of [pushClient.connect], the [millis()] stored in
    [previousMillis], the [millis()] read in each turn of the wait loop
    (a turn is entered while [pushClient.available()] is 0), and the client
    buffer once [available()] is not 0, which then holds at least one byte. *)
Record PushEnv : Type := mkPushEnv {
  connects : bool;
  started : Z;
  waits : list Z;
  firstByte : ascii;
  moreBytes : string
}.

Definition response (env : PushEnv) : string := String (firstByte env) (moreBytes env).

(** [pushClient.read()]: the next byte, or -1 when none is buffered. *)
Definition client_read (buffer : string) : Z * string :=
  match buffer with
  | EmptyString => (-1, EmptyString)
  | String c rest => (int_of_char c, rest)
  end.

(** [while (pushClient.available()) { if (pushClient.read() == ' ') break; }]
    returns the buffer left after the loop. *)
Fixpoint readToSpace (buffer : string) : string :=
  match buffer with
  | EmptyString => EmptyString
  | String c rest => if int_of_char c =? 32 then rest else readToSpace rest
  end.

(** The response handling of [sendPush]: [char statusCode =
    pushClient.read(); if (statusCode == '2') ... return true; else ...
    return false;]. *)
Definition statusIsSuccess (buffer : string) : bool :=
  let statusCode := to_byte (fst (client_read (readToSpace buffer))) in
  statusCode =? 50.

Section Sketch.

(** The settings of [Secrets.h]. *)
Variables AccountSID Base64EncodedAuth From To : string.

(** The library's [dsc.loop()] (1.2) or [dsc.handlePanel()] (1.0), which
    [sendPush] keeps calling while it waits. *)
Variable dscLoop : dscKeybusInterface -> dscKeybusInterface.

(** The network and clock behaviour met by the n-th [sendPush] call. *)
Variable net : nat -> PushEnv.

(** What the unset [char pushMessage[24]] holds, read as a C string (the
    bytes up to the first zero byte), when the message of the n-th
    [sendPush] call is assembled in it: the array is a local of the loop
    body, so what it holds differs from call to call. *)
Variable uninitialised : nat -> string.

(** [pushClient.print] and [pushClient.println] on the bytes sent so far. *)
Definition print (s : string) (sent : string) : string := (sent ++ s)%string.
Definition println (s : string) (sent : string) : string := (sent ++ s ++ CRLF)%string.

(** The number printed after [Content-Length: ]. *)
Definition contentLength (prefix pushMessage : string) : Z :=
  to_ulong (strlen To + strlen From + strlen prefix + strlen pushMessage + 18).

(** The request line and header lines, through the empty line. *)
Definition requestHead (prefix pushMessage : string) (sent : string) : string :=
  let sent := print "POST https://api.twilio.com/2010-04-01/Accounts/" sent in
  let sent := print AccountSID sent in
  let sent := println "/Messages.json HTTP/1.1" sent in
  let sent := print "Authorization: Basic " sent in
  let sent := println Base64EncodedAuth sent in
  let sent := println "Host: api.twilio.com" sent in
  let sent := println "User-Agent: ESP8266" sent in
  let sent := println "Accept: */*" sent in
  let sent := println "Content-Type: application/x-www-form-urlencoded" sent in
  let sent := print "Content-Length: " sent in
  let sent := println (itoa (contentLength prefix pushMessage)) sent in
  let sent := println "Connection: Close" sent in
  println "" sent.

(** What is printed after the empty line. *)
Definition requestBody (prefix pushMessage : string) (sent : string) : string :=
  let sent := print "To=+" sent in
  let sent := print To sent in
  let sent := print "&From=+" sent in
  let sent := print From sent in
  let sent := print "&Body=" sent in
  let sent := print prefix sent in
  println pushMessage sent.

(** All bytes [sendPush] writes to the connection. *)
Definition request (prefix pushMessage : string) : string :=
  requestBody prefix pushMessage (requestHead prefix pushMessage "").

(** The wait loop: each turn services the panel, then reads the clock. *)
Fixpoint waitResponse (previousMillis : Z) (waits : list Z) (d : dscKeybusInterface)
  : bool * dscKeybusInterface :=
  match waits with
  | [] => (true, d)
  | currentMillis :: later =>
      let d' := dscLoop d in
      if 3000 <? to_ulong (currentMillis - previousMillis) then (false, d')
      else waitResponse previousMillis later d'
  end.

(** [sendPush]. *)
Definition sendPush (prefix pushMessage : string) (w : World) : bool * World :=
  let env := net (pushCalls w) in
  let w := mkWorld (dsc w) (trace w ++ [EvPush prefix pushMessage]) (S (pushCalls w)) in
  if negb (connects env) then (false, w)
  else
    let '(arrived, d) := waitResponse (started env) (waits env) (dsc w) in
    let w := store (fun _ => d) w in
    if negb arrived then (false, w)
    else (statusIsSuccess (response env), w).

(** A [sendPush] call whose result is not looked at. *)
Definition push (prefix pushMessage : string) : World -> World :=
  fun w => snd (sendPush prefix pushMessage w).

(** [appendPartition]. *)
Definition appendPartition (sourceNumber : nat) (pushMessage : string) : string :=
  let partitionNumber := itoa (Z.of_nat sourceNumber + 1) in
  strcat pushMessage partitionNumber.

Definition keybusStatus : World -> World :=
  when (changed FKeybus)
    (reset FKeybus >>>
     ifelse keybusConnected
       (push PushMessagePrefix "connected")
       (push PushMessagePrefix "disconnected")).

Definition armedStatus (partition : nat) : World -> World :=
  when (changed (FArmed partition))
    (reset (FArmed partition) >>>
     ifelse (fun d => armed d !!! partition)
       (fun w : World =>
          let pushMessage :=
            if (armedAway (dsc w) !!! partition : bool) then strcpy "armed away: partition "
            else if (armedStay (dsc w) !!! partition : bool) then strcpy "armed stay: partition "
            else uninitialised (pushCalls w) in
          push PushMessagePrefix (appendPartition partition pushMessage) w)
       (push PushMessagePrefix (appendPartition partition "disarmed: partition "))).

Definition alarmStatus (partition : nat) : World -> World :=
  when (changed (FAlarm partition))
    (reset (FAlarm partition) >>>
     ifelse (fun d => alarm d !!! partition)
       (push PushMessagePrefix (appendPartition partition "in alarm: Partition "))
       (push PushMessagePrefix "disarmed after alarm")).

Definition fireStatus (partition : nat) : World -> World :=
  when (changed (FFire partition))
    (reset (FFire partition) >>>
     ifelse (fun d => fire d !!! partition)
       (push PushMessagePrefix (appendPartition partition "fire alarm: Partition "))
       (push PushMessagePrefix "fire alarm restored")).

(** Body of the partition loop: [if (dsc.disabled[partition]) continue;]
    comes first. *)
Definition partitionStatus (partition : nat) : World -> World :=
  ifelse (fun d => disabled d !!! partition)
    skip
    (armedStatus partition >>> alarmStatus partition >>> fireStatus partition).

Definition zoneStatus (zoneGroup zoneBit : nat) : World -> World :=
  when (changed (FAlarmZone zoneGroup zoneBit))
    (reset (FAlarmZone zoneGroup zoneBit) >>>
     let zoneNumber := itoa (Z.of_nat zoneBit + 1 + Z.of_nat zoneGroup * 8) in
     ifelse (fun d => truthy (bitRead (alarmZones d !!! zoneGroup) zoneBit))
       (push "" (strcat "Security zone alarm: " zoneNumber))
       (push "" (strcat "Security zone alarm restored: " zoneNumber))).

Definition zoneScan : World -> World :=
  forRange dscZones (fun zoneGroup => forRange 8 (fun zoneBit => zoneStatus zoneGroup zoneBit)).

Definition alarmZonesStatus : World -> World :=
  when alarmZonesStatusChanged
    (store (set_alarmZonesStatusChanged false) >>> zoneScan).

Definition powerStatus : World -> World :=
  when (changed FPower)
    (reset FPower >>>
     ifelse powerTrouble
       (push PushMessagePrefix "AC power trouble")
       (push PushMessagePrefix "AC power restored")).

Definition keypadFireStatus : World -> World :=
  when (changed FKeypadFire)
    (reset FKeypadFire >>> push PushMessagePrefix "fire alarm button pressed").

Definition keypadAuxStatus : World -> World :=
  when (changed FKeypadAux)
    (reset FKeypadAux >>> push PushMessagePrefix "aux alarm button pressed").

Definition keypadPanicStatus : World -> World :=
  when (changed FKeypadPanic)
    (reset FKeypadPanic >>> push PushMessagePrefix "panic alarm button pressed").

(** The body of [if (dsc.statusChanged) { ... }] of sketch 1.2, after the
    flag is reset (serial printing left out). *)
Definition processStatus : World -> World :=
  when bufferOverflow (store (set_bufferOverflow false)) >>>
  keybusStatus >>>
  forRange dscPartitions partitionStatus >>>
  alarmZonesStatus >>>
  powerStatus >>>
  keypadFireStatus >>> keypadAuxStatus >>> keypadPanicStatus.

Definition loopStatus : World -> World :=
  when statusChanged (store (set_statusChanged false) >>> processStatus).

(** The WiFi supervision at the top of [loop()]: [status1] and [status2]
    are the two readings of [WiFi.status() == WL_CONNECTED]; the global
    [wifiConnected] is threaded. *)
Definition wifiSupervise (status1 status2 : bool) (wifiConnected : bool) (w : World)
  : bool * World :=
  if negb wifiConnected && status1 then
    (true, store (fun d => set_statusChanged true (set_pauseStatus false d)) w)
  else if negb status2 && wifiConnected then
    (false, store (set_pauseStatus true) w)
  else (wifiConnected, w).

(** [loop()] of sketch 1.2 without the serial console and the OTA server. *)
Definition loop (status1 status2 : bool) (wifiConnected : bool) (w : World) : bool * World :=
  let '(c, w1) := wifiSupervise status1 status2 wifiConnected w in
  (c, loopStatus (store dscLoop w1)).

End Sketch.

End Twilio.

(** ** Status blocks and their denotation *)

(** Facts inside the arrays of the library object. *)
Definition fact_in_range (f : Fact) : Prop :=
  match f with
  | FArmed p | FExitDelay p | FAlarm p | FFire p => (p < dscPartitions)%nat
  | FOpenZone g b | FAlarmZone g b => (g < dscZones)%nat /\ (b < 8)%nat
  | _ => True
  end.

#[global] Instance Fact_eq_dec : EqDecision Fact.
Proof. solve_decision. Defined.

(** The status values the sketches read but never write. *)
Definition values (d : dscKeybusInterface) :=
  (armed d, armedAway d, armedStay d, exitDelay d, alarm d, fire d, openZones d).

(** Appending several events at once. *)
Definition emitAll (evs : list Ev) (w : World) : World :=
  mkWorld (dsc w) (trace w ++ evs) (pushCalls w).

(** A status block pairs a fact with the messages sent for it; the block
    runs when the fact's flag is set: it resets the flag, then sends. *)
Definition Block : Type := Fact * (dscKeybusInterface -> list Ev).

Definition runBlock (b : Block) : World -> World :=
  when (changed (fst b))
    (reset (fst b) >>> fun w => emitAll (snd b (dsc w)) w).

Definition runBlocks (bs : list Block) : World -> World :=
  fun w => fold_left (fun w' b => runBlock b w') bs w.

(** The events of a block in state [d]. *)
Definition block_events (d : dscKeybusInterface) (b : Block) : list Ev :=
  if changed (fst b) d then EvClear (fst b) :: snd b d else [].

(** Resetting a list of flags in order. *)
Definition clearAll (fs : list Fact) (d : dscKeybusInterface) : dscKeybusInterface :=
  fold_left (fun d' f => clearFlag f d') fs d.

(** The facts of [bs] whose flag is set in [d]. *)
Definition pending (d : dscKeybusInterface) (bs : list Block) : list Fact :=
  List.filter (fun f => changed f d) (map fst bs).

(** The messages of a block depend on the status values only. *)
Definition reads_values (b : Block) : Prop :=
  forall d d', values d = values d' -> snd b d = snd b d'.

Module OpenHABBlocks.
Import OpenHAB.

(** The event of a [publishState] call. *)
Definition published (sourceTopic : string) (partition : nat) (sourceSuffix : string) : Ev :=
  EvPublish (sourceTopic ++ itoa (Z.of_nat partition + 1))%string
            (itoa (Z.of_nat partition + 1) ++ sourceSuffix)%string true.

Definition armed_msg (p : nat) (d : dscKeybusInterface) : list Ev :=
  if (armed d !!! p : bool) then
    if (armedAway d !!! p : bool) then [published mqttPartitionTopic p "A"]
    else if (armedStay d !!! p : bool) then [published mqttPartitionTopic p "S"]
    else []
  else [published mqttPartitionTopic p "D"].

Definition exitDelay_msg (p : nat) (d : dscKeybusInterface) : list Ev :=
  if (exitDelay d !!! p : bool) then [published mqttPartitionTopic p "P"]
  else if negb ((armed d !!! p : bool)) then [published mqttPartitionTopic p "D"]
  else [].

Definition alarm_msg (p : nat) (d : dscKeybusInterface) : list Ev :=
  if (alarm d !!! p : bool) then [published mqttPartitionTopic p "T"] else [].

Definition fire_msg (p : nat) (d : dscKeybusInterface) : list Ev :=
  if (fire d !!! p : bool) then [published mqttFireTopic p "1"]
  else [published mqttFireTopic p "0"].

Definition zone_msg (g b : nat) (d : dscKeybusInterface) : list Ev :=
  [EvPublish (mqttZoneTopic ++ itoa (Z.of_nat g * 8 + Z.of_nat b + 1))%string
             (if Z.testbit (openZones d !!! g) (Z.of_nat b) then "1" else "0") true].

Definition partition_blocks (p : nat) : list Block :=
  [(FArmed p, armed_msg p); (FExitDelay p, exitDelay_msg p);
   (FAlarm p, alarm_msg p); (FFire p, fire_msg p)].

Definition zone_blocks (g : nat) : list Block :=
  map (fun b => (FOpenZone g b, zone_msg g b)) (seq 0 8).

Definition all_partition_blocks : list Block :=
  flat_map partition_blocks (seq 0 dscPartitions).

Definition all_zone_blocks : list Block :=
  flat_map zone_blocks (seq 0 dscZones).

(** The events of one status pass that starts in state [d]. *)
Definition status_events (accessCode : string) (d : dscKeybusInterface) : list Ev :=
  (if accessCodePrompt d then [EvWrite accessCode] else []) ++
  flat_map (block_events d) all_partition_blocks ++
  (if openZonesStatusChanged d then flat_map (block_events d) all_zone_blocks else []) ++
  [EvSubscribe mqttSubscribeTopic].

(** The state of the library object after one status pass from [d]. *)
Definition status_final (d : dscKeybusInterface) : dscKeybusInterface :=
  let d1 := set_accessCodePrompt false (set_bufferOverflow false d) in
  let d2 := clearAll (pending d all_partition_blocks) d1 in
  if openZonesStatusChanged d
  then clearAll (pending d all_zone_blocks) (set_openZonesStatusChanged false d2)
  else d2.

End OpenHABBlocks.

(** [occurs evs tr]: the events [evs] appear next to each other, in this
    order, somewhere in the trace [tr]. *)
Definition occurs (evs tr : list Ev) : Prop :=
  exists pre post, tr = pre ++ evs ++ post.

(** ** The flag discipline of a trace *)

(** [disciplined must evs]: every outbound message directly follows the
    reset of a flag, at most one message follows each reset, and a reset of
    a fact with [must f = true] is always followed by a message. *)
Fixpoint disciplined (must : Fact -> bool) (evs : list Ev) : bool :=
  match evs with
  | [] => true
  | EvClear f :: rest =>
      match rest with
      | e :: rest' =>
          if is_send e then disciplined must rest'
          else negb (must f) && disciplined must rest
      | [] => negb (must f)
      end
  | e :: rest => negb (is_send e) && disciplined must rest
  end.

(** [accounted msg must evs]: as [disciplined], and the message that
    follows the reset of the flag of fact [f] is a message of that fact:
    [msg f e] holds of it. *)
Fixpoint accounted (msg : Fact -> Ev -> Prop) (must : Fact -> bool) (evs : list Ev) : Prop :=
  match evs with
  | [] => True
  | EvClear f :: rest =>
      match rest with
      | e :: rest' =>
          if is_send e then msg f e /\ accounted msg must rest'
          else must f = false /\ accounted msg must rest
      | [] => must f = false
      end
  | e :: rest => is_send e = false /\ accounted msg must rest
  end.

(** ** The messages that belong to a fact *)

(** The decimal number of the partition with index [p], and of the zone
    with group [g] and bit [b]. *)
Definition partition_number (p : nat) : string := itoa (Z.of_nat p + 1).
Definition zone_number (g b : nat) : string := itoa (Z.of_nat g * 8 + Z.of_nat b + 1).

(** The topic on which the OpenHAB sketch reports a fact. *)
Definition openhab_topic (f : Fact) : string :=
  match f with
  | FArmed p | FExitDelay p | FAlarm p =>
      (OpenHAB.mqttPartitionTopic ++ partition_number p)%string
  | FFire p => (OpenHAB.mqttFireTopic ++ partition_number p)%string
  | FOpenZone g b => (OpenHAB.mqttZoneTopic ++ zone_number g b)%string
  | _ => ""%string
  end.

(** The payloads that report a fact, as [publishState] and the zone loop
    encode them: the partition number and the letter or digit of the state
    for a partition (the fire state too), the digit alone for a zone. *)
Definition openhab_payloads (f : Fact) : list string :=
  match f with
  | FArmed p => map (String.append (partition_number p)) ["A"; "S"; "D"]%string
  | FExitDelay p => map (String.append (partition_number p)) ["P"; "D"]%string
  | FAlarm p => map (String.append (partition_number p)) ["T"]%string
  | FFire p => map (String.append (partition_number p)) ["1"; "0"]%string
  | FOpenZone _ _ => ["1"; "0"]%string
  | _ => []
  end.

(** [e] is an OpenHAB message of fact [f]: a retained publish on the topic
    of the fact with one of its payloads. *)
Definition openhab_message (f : Fact) (e : Ev) : bool :=
  match e with
  | EvPublish topic payload retained =>
      retained && String.eqb topic (openhab_topic f)
      && existsb (String.eqb payload) (openhab_payloads f)
  | _ => false
  end.

(** The prefix and the texts of the SMS messages (sketch 1.2) of a fact. *)
Definition twilio_prefix (f : Fact) : string :=
  match f with
  | FAlarmZone _ _ => ""%string
  | _ => Twilio.PushMessagePrefix
  end.

Definition twilio_texts (f : Fact) : list string :=
  match f with
  | FKeybus => ["connected"; "disconnected"]%string
  | FArmed p =>
      map (fun s => (s ++ partition_number p)%string)
        ["armed away: partition "; "armed stay: partition "; "disarmed: partition "]%string
  | FAlarm p =>
      [("in alarm: Partition " ++ partition_number p)%string; "disarmed after alarm"%string]
  | FFire p =>
      [("fire alarm: Partition " ++ partition_number p)%string; "fire alarm restored"%string]
  | FAlarmZone g b =>
      map (fun s => (s ++ zone_number g b)%string)
        ["Security zone alarm: "; "Security zone alarm restored: "]%string
  | FPower => ["AC power trouble"; "AC power restored"]%string
  | FKeypadFire => ["fire alarm button pressed"]%string
  | FKeypadAux => ["aux alarm button pressed"]%string
  | FKeypadPanic => ["panic alarm button pressed"]%string
  | _ => []
  end.

(** [e] is an SMS message of fact [f]. *)
Definition twilio_message (f : Fact) (e : Ev) : bool :=
  match e with
  | EvPush prefix pushMessage =>
      String.eqb prefix (twilio_prefix f)
      && existsb (String.eqb pushMessage) (twilio_texts f)
  | _ => false
  end.

(** [e] is the push of an unset array for the armed flag of a partition:
    what the array held at some call, followed by the partition number. *)
Definition unset_push (uninitialised : nat -> string) (f : Fact) (e : Ev) : Prop :=
  exists p n, f = FArmed p
    /\ e = EvPush Twilio.PushMessagePrefix (uninitialised n ++ partition_number p)%string.

(** What follows the reset of a flag in sketch 1.2: a message of the fact,
    or the push of the unset array. *)
Definition twilio_answer (uninitialised : nat -> string) (f : Fact) (e : Ev) : Prop :=
  twilio_message f e = true \/ unset_push uninitialised f e.

(** The partition is armed with neither the away nor the stay mode. *)
Definition armed_without_mode (p : nat) (d : dscKeybusInterface) : bool :=
  (armed d !!! p : bool) && negb (armedAway d !!! p : bool) && negb (armedStay d !!! p : bool).

(** In the OpenHAB sketch the fire and zone blocks publish on either value. *)
Definition openhab_must (f : Fact) : bool :=
  match f with
  | FFire _ | FOpenZone _ _ => true
  | _ => false
  end.

(** In the Twilio sketch every block sends on either value. *)
Definition always_must (f : Fact) : bool := true.

(** The facts reset in a trace, in order. *)
Definition resets (evs : list Ev) : list Fact :=
  flat_map (fun e => match e with EvClear f => [f] | _ => [] end) evs.

(** ** A small program logic for statements *)

(** [hoare I Q s]: from a state of the library object that satisfies [I],
    statement [s] leads to a state that satisfies [I] and appends to the
    trace events that satisfy [Q]. *)
Definition hoare (I : dscKeybusInterface -> Prop) (Q : list Ev -> Prop)
    (s : World -> World) : Prop :=
  forall w, I (dsc w) ->
    I (dsc (s w)) /\ exists evs, trace (s w) = trace w ++ evs /\ Q evs.

(** [one_message I A s]: [s] keeps [I] and appends exactly one event,
    which satisfies [A]. *)
Definition one_message (I : dscKeybusInterface -> Prop) (A : Ev -> Prop)
    (s : World -> World) : Prop :=
  forall w, I (dsc w) ->
    I (dsc (s w)) /\ exists e, A e /\ trace (s w) = trace w ++ [e].


(** A fact may be processed under invariant [I], message relation [msg]
    and event property [Q] when resetting its flag keeps [I] and [Q]
    accepts the reset followed by a message of the fact. *)
Definition processable (I : dscKeybusInterface -> Prop) (msg : Fact -> Ev -> Prop)
    (Q : list Ev -> Prop) (f : Fact) : Prop :=
  (forall d, I d -> I (clearFlag f d)) /\
  (forall e, msg f e -> Q [EvClear f; e]).


(** ** Reading the HTTP response *)

(** The character that follows the first space of a response, if any. *)
Definition status_digit (resp : string) : option ascii :=
  match String.index 0 " " resp with
  | Some i => String.get (S i) resp
  | None => None
  end.

(** Whenever [sendPush] looked at the clock while no byte had arrived, at
    most 3000 ms had passed since it started to wait. *)
Definition answered_in_time (env : Twilio.PushEnv) : Prop :=
  Forall (fun currentMillis => to_ulong (currentMillis - Twilio.started env) <= 3000)
         (Twilio.waits env).

(** ** The order in which a pass looks at the flags *)

(** [visits order s]: the flags that statement [s] resets are reset in the
    order of the list [order], each at most as often as it occurs there. *)
Definition visits (order : list Fact) (s : World -> World) : Prop :=
  forall w, exists evs,
    trace (s w) = trace w ++ evs /\ resets evs `sublist_of` order.

(** The flags of the OpenHAB pass in program order. *)
Definition openhab_order : list Fact :=
  flat_map (fun p => [FArmed p; FExitDelay p; FAlarm p; FFire p]) (seq 0 dscPartitions)
  ++ flat_map (fun g => map (fun b => FOpenZone g b) (seq 0 8)) (seq 0 dscZones).

(** The flags of the Twilio pass in program order. *)
Definition twilio_order : list Fact :=
  [FKeybus]
  ++ flat_map (fun p => [FArmed p; FAlarm p; FFire p]) (seq 0 dscPartitions)
  ++ flat_map (fun g => map (fun b => FAlarmZone g b) (seq 0 8)) (seq 0 dscZones)
  ++ [FPower; FKeypadFire; FKeypadAux; FKeypadPanic].

(** ** Further parts of the sketches *)

(** What a status pass only reads: the status values, the partition
    switches, the link and power states, the write partition, the pause
    switch and the captured Keybus data. *)
Definition inputs (d : dscKeybusInterface) :=
  (values d, disabled d, keybusConnected d, powerTrouble d, writePartition d,
   pauseStatus d, panelBuffer d).

(** The events of one [mqttCallback] call made in state [d]. *)
Definition command_events (accessCode : string) (d : dscKeybusInterface)
    (payload : list Z) : list Ev :=
  trace (OpenHAB.mqttCallback accessCode payload (mkWorld d [] 0)).

(** Events that are flag resets or MQTT publishes. *)
Definition reset_or_publish (e : Ev) : Prop :=
  match e with
  | EvClear _ | EvPublish _ _ _ => True
  | _ => False
  end.

(** Events that are Keybus writes. *)
Definition is_write (e : Ev) : Prop :=
  match e with
  | EvWriteKey _ | EvWrite _ => True
  | _ => False
  end.

(** The facts whose flags the OpenHAB sketch consumes. *)
Definition openhab_fact (f : Fact) : Prop :=
  match f with
  | FArmed p | FExitDelay p | FAlarm p | FFire p => (p < dscPartitions)%nat
  | FOpenZone g b => (g < dscZones)%nat /\ (b < 8)%nat
  | _ => False
  end.

(** The facts whose flags the Twilio sketches consume. *)
Definition twilio_fact (f : Fact) : Prop :=
  match f with
  | FExitDelay _ | FOpenZone _ _ => False
  | FArmed p | FAlarm p | FFire p => (p < dscPartitions)%nat
  | FAlarmZone g b => (g < dscZones)%nat /\ (b < 8)%nat
  | _ => True
  end.

(** The number of turns the wait loop of [sendPush] takes: one for every
    clock reading up to and including the first that is past the timeout. *)
Fixpoint waitTurns (previousMillis : Z) (waits : list Z) : nat :=
  match waits with
  | [] => O
  | currentMillis :: later =>
      if 3000 <? to_ulong (currentMillis - previousMillis) then 1%nat
      else S (waitTurns previousMillis later)
  end.

(** ** Twilio push notification 1.0 (esp8266) *)

(** The first sketch of the file: the same [sendPush], another order of
    the blocks, other message texts, and no look at the disabled switch. *)
Module Twilio10.

Section Sketch.

(** The effect of the library's [dsc.handlePanel()] on the object. *)
Variable handlePanel : dscKeybusInterface -> dscKeybusInterface.

(** The effect of the library's [dsc.handleModule()] on the object. *)
Variable handleModule : dscKeybusInterface -> dscKeybusInterface.

(** The network and clock behaviour met by the n-th [sendPush] call. *)
Variable net : nat -> Twilio.PushEnv.

(** [sendPush] of sketch 1.0 is the one of sketch 1.2 with
    [dsc.handlePanel()] in place of [dsc.loop()] in the wait loop. *)
Definition push (prefix pushMessage : string) : World -> World :=
  Twilio.push handlePanel net prefix pushMessage.

(** [itoa(partition + 1, partitionNumber, 10); strcat(pushMessage,
    partitionNumber);]. *)
Definition withPartition (pushMessage : string) (partition : nat) : string :=
  let partitionNumber := itoa (Z.of_nat partition + 1) in
  strcat pushMessage partitionNumber.

Definition alarmStatus (partition : nat) : World -> World :=
  when (changed (FAlarm partition))
    (reset (FAlarm partition) >>>
     let pushMessage := withPartition "in alarm, partition " partition in
     ifelse (fun d => alarm d !!! partition)
       (push Twilio.PushMessagePrefix pushMessage)
       (push Twilio.PushMessagePrefix "disarmed after alarm")).

Definition fireStatus (partition : nat) : World -> World :=
  when (changed (FFire partition))
    (reset (FFire partition) >>>
     let pushMessage := withPartition "fire alarm, partition " partition in
     ifelse (fun d => fire d !!! partition)
       (push Twilio.PushMessagePrefix pushMessage)
       (push Twilio.PushMessagePrefix "fire alarm restored")).

Definition armedStatus (partition : nat) : World -> World :=
  when (changed (FArmed partition))
    (reset (FArmed partition) >>>
     let pushMessage := withPartition "armed, partition " partition in
     ifelse (fun d => armed d !!! partition)
       (push Twilio.PushMessagePrefix (strcat pushMessage "       "))
       (ifelse (fun d => armedAway d !!! partition)
          (push Twilio.PushMessagePrefix (strcat pushMessage " (Away)"))
          (ifelse (fun d => armedStay d !!! partition)
             (push Twilio.PushMessagePrefix (strcat pushMessage " (Stay)"))
             (push Twilio.PushMessagePrefix
                (withPartition "disarmed, partition " partition))))).

(** Body of the partition loop. *)
Definition partitionStatus (partition : nat) : World -> World :=
  alarmStatus partition >>> fireStatus partition >>> armedStatus partition.

(** The body of [if (dsc.handlePanel() && dsc.statusChanged) { ... }],
    after the flag is reset (serial printing left out). *)
Definition processStatus : World -> World :=
  store (set_bufferOverflow false) >>>
  Twilio.keypadFireStatus handlePanel net >>>
  Twilio.keypadAuxStatus handlePanel net >>>
  Twilio.keypadPanicStatus handlePanel net >>>
  Twilio.powerStatus handlePanel net >>>
  forRange dscPartitions partitionStatus.

(** The status part of [loop()]: [handled] is the result of
    [dsc.handlePanel()], whose effect on the object comes first; the other
    branch calls [dsc.handleModule()] and only prints. *)
Definition loopStatus (handled : bool) : World -> World :=
  store handlePanel >>>
  fun w =>
    if handled && statusChanged (dsc w)
    then (store (set_statusChanged false) >>> processStatus) w
    else store handleModule w.

End Sketch.

End Twilio10.

(** The flags of the Twilio 1.0 pass in program order. *)
Definition twilio10_order : list Fact :=
  [FKeypadFire; FKeypadAux; FKeypadPanic; FPower]
  ++ flat_map (fun p => [FAlarm p; FFire p; FArmed p]) (seq 0 dscPartitions).

(** The texts of the pushes in a trace, in order. *)
Definition push_texts (evs : list Ev) : list string :=
  flat_map (fun e => match e with EvPush _ pushMessage => [pushMessage] | _ => [] end) evs.

(** [pushes I A s]: [s] keeps [I] and appends exactly one SMS push, whose
    text satisfies [A]. *)
Definition pushes (I : dscKeybusInterface -> Prop) (A : string -> Prop)
    (s : World -> World) : Prop :=
  forall w, I (dsc w) ->
    I (dsc (s w)) /\ exists prefix pushMessage,
      A pushMessage /\ trace (s w) = trace w ++ [EvPush prefix pushMessage].

(** On every partition, armed away and armed stay come with armed. *)
Definition modes_imply_armed (d : dscKeybusInterface) : bool :=
  forallb (fun p => implb ((armedAway d !!! p : bool) || (armedStay d !!! p : bool))
                          (armed d !!! p : bool))
          (seq 0 dscPartitions).

(** The texts of sketch 1.0 that name the arming mode. *)
Definition twilio10_mode_texts : list string :=
  flat_map (fun p =>
      [strcat (Twilio10.withPartition "armed, partition " p) " (Away)";
       strcat (Twilio10.withPartition "armed, partition " p) " (Stay)"])
    (seq 0 dscPartitions).

(** The other texts of sketch 1.0. *)
Definition twilio10_texts : list string :=
  ["fire alarm button pressed"; "aux alarm button pressed";
   "panic alarm button pressed"; "AC power trouble"; "AC power restored";
   "disarmed after alarm"; "fire alarm restored"]%string
  ++ flat_map (fun p =>
      [Twilio10.withPartition "in alarm, partition " p;
       Twilio10.withPartition "fire alarm, partition " p;
       strcat (Twilio10.withPartition "armed, partition " p) "       ";
       Twilio10.withPartition "disarmed, partition " p])
    (seq 0 dscPartitions).

(** ** Message arrays of the Twilio sketch (1.2) *)

(** The character arrays in which sketch 1.2 assembles its messages, with
    their declared sizes: a write that does not fit yields [None]. *)
Module TwilioBuffers.
Import OpenHAB.Buffers.

(** [char name[capacity] = "text";]. *)
Definition initialised (capacity : Z) (s : string) : option cbuf :=
  fill (alloc capacity) s.

(** [appendPartition]. *)
Definition appendPartition (sourceNumber : nat) (pushMessage : cbuf) : option cbuf :=
  let partitionNumber := alloc 2 in
  partitionNumber ← itoa_into (Z.of_nat sourceNumber + 1) partitionNumber;
  strcat_into pushMessage (text partitionNumber).

(** [char name[capacity];] found holding [content]: the bytes from its
    start up to the first zero byte, which may lie beyond the array. *)
Definition unset (capacity : Z) (content : string) : cbuf := mkBuf capacity content.

(** The array of the armed branch: [pushMessage[24]] is written only for
    the away and the stay mode, and appended to in every case. *)
Definition armedMessage (armedAway armedStay : bool) (content : string) (partition : nat)
  : option cbuf :=
  let pushMessage := unset 24 content in
  pushMessage ←
    (if armedAway then strcpy_into pushMessage "armed away: partition "
     else if armedStay then strcpy_into pushMessage "armed stay: partition "
     else Some pushMessage);
  appendPartition partition pushMessage.

Definition disarmedMessage (partition : nat) : option cbuf :=
  pushMessage ← initialised 23 "disarmed: partition ";
  appendPartition partition pushMessage.

Definition alarmMessage (partition : nat) : option cbuf :=
  pushMessage ← initialised 22 "in alarm: Partition ";
  appendPartition partition pushMessage.

Definition fireMessage (partition : nat) : option cbuf :=
  pushMessage ← initialised 24 "fire alarm: Partition ";
  appendPartition partition pushMessage.

Definition zoneAlarmMessage (zoneGroup zoneBit : nat) : option cbuf :=
  pushMessage ← initialised 24 "Security zone alarm: ";
  zoneNumber ← itoa_into (Z.of_nat zoneBit + 1 + Z.of_nat zoneGroup * 8) (alloc 3);
  strcat_into pushMessage (text zoneNumber).

Definition zoneRestoredMessage (zoneGroup zoneBit : nat) : option cbuf :=
  pushMessage ← initialised 33 "Security zone alarm restored: ";
  zoneNumber ← itoa_into (Z.of_nat zoneBit + 1 + Z.of_nat zoneGroup * 8) (alloc 3);
  strcat_into pushMessage (text zoneNumber).

End TwilioBuffers.

(** ** Reading a command payload *)

(** The first payload byte is a partition digit '1' to '8'. *)
Definition numbered (payload : list Z) : bool :=
  (0x31 <=? nth 0 payload 0) && (nth 0 payload 0 <=? 0x38).

(** The partition number a payload selects (1 when it names none). *)
Definition selectedPartition (payload : list Z) : Z :=
  if numbered payload then nth 0 payload 0 - 48 else 1.

(** The command byte of a payload. *)
Definition commandByte (payload : list Z) : Z :=
  if numbered payload then nth 1 payload 0 else nth 0 payload 0.

(** The selected partition is neither armed nor in exit delay. *)
Definition partitionIdle (d : dscKeybusInterface) (payload : list Z) : bool :=
  let p := Z.to_nat (selectedPartition payload - 1) in
  negb (armed d !!! p) && negb (exitDelay d !!! p).

(** ** Concrete panel states and environments *)

(** A quiet panel: eight partitions, 64 closed zones, nothing changed. *)
Definition idle : dscKeybusInterface :=
  mkDsc false false false false true false false false false false false 1
    (replicate 8 false)
    (replicate 8 false) (replicate 8 false) (replicate 8 false) (replicate 8 false)
    (replicate 8 false) (replicate 8 false)
    (replicate 8 false) (replicate 8 false)
    (replicate 8 false) (replicate 8 false)
    false (replicate 8 0) (replicate 8 0)
    false (replicate 8 0) (replicate 8 0)
    [].

(** A world with an empty trace. *)
Definition fresh (d : dscKeybusInterface) : World := mkWorld d [] 0.

(** Partition 1 has just been armed in away mode. *)
Definition armed_away_1 : dscKeybusInterface :=
  mkDsc true false false false true false false false false false false 1
    (replicate 8 false)
    (<[0%nat := true]> (replicate 8 false)) (<[0%nat := true]> (replicate 8 false))
    (replicate 8 false) (<[0%nat := true]> (replicate 8 false))
    (replicate 8 false) (replicate 8 false)
    (replicate 8 false) (replicate 8 false)
    (replicate 8 false) (replicate 8 false)
    false (replicate 8 0) (replicate 8 0)
    false (replicate 8 0) (replicate 8 0)
    [].

(** Partition 3 left its exit delay without being armed. *)
Definition exit_delay_aborted_3 : dscKeybusInterface :=
  set_statusChanged true
    (set_exitDelayChanged (<[2%nat := true]> (replicate 8 false)) idle).

(** Zone 5 has just opened (group 0, bit 4). *)
Definition zone_5_opened : dscKeybusInterface :=
  mkDsc true false false false true false false false false false false 1
    (replicate 8 false)
    (replicate 8 false) (replicate 8 false) (replicate 8 false) (replicate 8 false)
    (replicate 8 false) (replicate 8 false)
    (replicate 8 false) (replicate 8 false)
    (replicate 8 false) (replicate 8 false)
    true (<[0%nat := 16]> (replicate 8 0)) (<[0%nat := 16]> (replicate 8 0))
    false (replicate 8 0) (replicate 8 0)
    [].

(** The alarm of partition 1 has just been restored. *)
Definition alarm_restored_1 : dscKeybusInterface :=
  set_statusChanged true
    (set_alarmChanged (<[0%nat := true]> (replicate 8 false)) idle).

(** Partition 1 is disabled, yet its armed flag is raised (disarmed). *)
Definition disabled_1_changed : dscKeybusInterface :=
  mkDsc true false false false true false false false false false false 1
    (<[0%nat := true]> (replicate 8 false))
    (replicate 8 false) (replicate 8 false) (replicate 8 false)
    (<[0%nat := true]> (replicate 8 false))
    (replicate 8 false) (replicate 8 false)
    (replicate 8 false) (replicate 8 false)
    (replicate 8 false) (replicate 8 false)
    false (replicate 8 0) (replicate 8 0)
    false (replicate 8 0) (replicate 8 0)
    [].

(** A network on which the connection to the SMS service fails. *)
Definition offline : Twilio.PushEnv := Twilio.mkPushEnv false 0 [] "H" "TTP/1.1 200 OK".

(** The server answers in time with the given status line. *)
Definition answers (statusLine : string) : Twilio.PushEnv :=
  match statusLine with
  | EmptyString => offline
  | String c rest => Twilio.mkPushEnv true 1000 [1200; 2500; 4000] c rest
  end.

(** No answer: the clock passes the timeout while waiting. *)
Definition silent : Twilio.PushEnv :=
  Twilio.mkPushEnv true 1000 [1200; 2500; 4000; 4001] "H" "TTP/1.1 200 OK".

(** Partition 2 is armed; everything else is quiet. *)
Definition armed_2 : dscKeybusInterface :=
  mkDsc false false false false true false false false false false false 1
    (replicate 8 false)
    (<[1%nat := true]> (replicate 8 false)) (<[1%nat := true]> (replicate 8 false))
    (replicate 8 false) (replicate 8 false)
    (replicate 8 false) (replicate 8 false)
    (replicate 8 false) (replicate 8 false)
    (replicate 8 false) (replicate 8 false)
    false (replicate 8 0) (replicate 8 0)
    false (replicate 8 0) (replicate 8 0)
    [].

(** The fire alarm of partition 2 has just been restored. *)
Definition fire_restored_2 : dscKeybusInterface :=
  set_statusChanged true
    (set_fireChanged (<[1%nat := true]> (replicate 8 false)) idle).

(** The broker cannot be reached at clock reading [t]. *)
Definition broker_down (t : Z) : OpenHAB.MqttEnv :=
  OpenHAB.mkMqttEnv false t (OpenHAB.mkLink false false) [].

(** The broker is connected and hands over the given messages. *)
Definition broker_up (messages : list (list Z)) : OpenHAB.MqttEnv :=
  OpenHAB.mkMqttEnv true 0 (OpenHAB.mkLink true true) messages.

(** Partition 1 has just been armed, with neither the away nor the stay
    mode set. *)
Definition armed_no_mode_1 : dscKeybusInterface :=
  mkDsc true false false false true false false false false false false 1
    (replicate 8 false)
    (<[0%nat := true]> (replicate 8 false)) (replicate 8 false)
    (replicate 8 false) (<[0%nat := true]> (replicate 8 false))
    (replicate 8 false) (replicate 8 false)
    (replicate 8 false) (replicate 8 false)
    (replicate 8 false) (replicate 8 false)
    false (replicate 8 0) (replicate 8 0)
    false (replicate 8 0) (replicate 8 0)
    [].

(** Partition 1 is disabled with its armed flag raised, and the Keybus
    state has changed. *)
Definition disabled_1_keybus : dscKeybusInterface :=
  set_keybusChanged true disabled_1_changed.

(** A library service that raises the armed flag of every partition. *)
Definition raises_armed_flags (d : dscKeybusInterface) : dscKeybusInterface :=
  set_armedChanged (replicate 8 true) d.

(** A library service that enables every partition. *)
Definition enables_all (d : dscKeybusInterface) : dscKeybusInterface :=
  mkDsc (statusChanged d) (pauseStatus d) (bufferOverflow d) (accessCodePrompt d)
    (keybusConnected d) (keybusChanged d) (powerTrouble d) (powerChanged d)
    (keypadFireAlarm d) (keypadAuxAlarm d) (keypadPanicAlarm d) (writePartition d)
    (replicate 8 false)
    (armed d) (armedAway d) (armedStay d) (armedChanged d)
    (exitDelay d) (exitDelayChanged d) (alarm d) (alarmChanged d)
    (fire d) (fireChanged d)
    (openZonesStatusChanged d) (openZones d) (openZonesChanged d)
    (alarmZonesStatusChanged d) (alarmZones d) (alarmZonesChanged d)
    (panelBuffer d).

(** * Properties *)

(** ** Bit operations *)

Lemma truthy_bitRead (v : Z) (b : nat) :
  truthy (bitRead v b) = Z.testbit v (Z.of_nat b).
Proof.
  unfold truthy, bitRead.
  change 1 with (Z.ones 1). rewrite Z.land_ones by lia.
  change (2 ^ 1) with 2.
  rewrite <- Z.bit0_mod, Z.shiftr_spec by lia.
  rewrite Z.add_0_l.
  destruct (Z.testbit v (Z.of_nat b)); reflexivity.
Qed.

Lemma testbit_bitClear (v : Z) (b : nat) (i : Z) :
  0 <= i -> (b < 32)%nat ->
  Z.testbit (bitClear v b) i = (i <? 8) && Z.testbit v i && negb (Z.of_nat b =? i).
Proof.
  intros Hi Hb. unfold bitClear, to_byte, to_ulong.
  rewrite Z.testbit_mod_pow2, Z.land_spec, Z.testbit_mod_pow2 by lia.
  rewrite Z.lnot_spec, Z.testbit_mod_pow2 by lia.
  rewrite Z.shiftl_1_l, Z.pow2_bits_eqb by lia.
  destruct (Z.ltb_spec i 8), (Z.ltb_spec i 32); try lia;
    destruct (Z.testbit v i), (Z.of_nat b =? i); reflexivity.
Qed.

Lemma bitWrite_zero (v : Z) (b : nat) : bitWrite v b 0 = bitClear v b.
Proof. reflexivity. Qed.

(** ** Status flags *)

Lemma clearFlag_wf (f : Fact) (d : dscKeybusInterface) :
  wf_dsc d -> wf_dsc (clearFlag f d).
Proof.
  unfold wf_dsc. intros H.
  destruct f; simpl; rewrite ?length_insert; exact H.
Qed.

Lemma changed_clearFlag_same (f : Fact) (d : dscKeybusInterface) :
  wf_dsc d -> fact_in_range f -> changed f (clearFlag f d) = false.
Proof.
  unfold wf_dsc. intros Hwf Hr.
  destruct f; simpl in *; try reflexivity;
    try (apply list_lookup_total_insert_eq; lia).
  - rewrite list_lookup_total_insert_eq by lia.
    rewrite truthy_bitRead, bitWrite_zero, testbit_bitClear by lia.
    rewrite Z.eqb_refl. destruct (_ <? _), (Z.testbit _ _); reflexivity.
  - rewrite list_lookup_total_insert_eq by lia.
    rewrite truthy_bitRead, bitWrite_zero, testbit_bitClear by lia.
    rewrite Z.eqb_refl. destruct (_ <? _), (Z.testbit _ _); reflexivity.
Qed.

Lemma zone_bit_other (l : list Z) (g g' b b' : nat) :
  (b < 8)%nat -> (b' < 8)%nat -> (g, b) <> (g', b') ->
  truthy (bitRead (<[g' := bitWrite (l !!! g') b' 0]> l !!! g) b)
  = truthy (bitRead (l !!! g) b).
Proof.
  intros Hb Hb' Hne.
  destruct (decide (g' = g)) as [->|Hg].
  - destruct (decide (g < length l)%nat) as [Hl|Hl].
    + rewrite list_lookup_total_insert_eq by exact Hl.
      rewrite !truthy_bitRead, bitWrite_zero, testbit_bitClear by lia.
      assert (b' <> b) by congruence.
      destruct (Z.ltb_spec (Z.of_nat b) 8); try lia.
      destruct (Z.eqb_spec (Z.of_nat b') (Z.of_nat b)); try lia.
      simpl. apply andb_true_r.
    + rewrite list_insert_ge by lia. reflexivity.
  - rewrite list_lookup_total_insert_ne by exact Hg. reflexivity.
Qed.

Lemma changed_clearFlag_ne (f g : Fact) (d : dscKeybusInterface) :
  f <> g -> fact_in_range f -> fact_in_range g ->
  changed f (clearFlag g d) = changed f d.
Proof.
  intros Hne Hf Hg.
  destruct f, g; simpl in *; try reflexivity; try congruence;
    try (apply list_lookup_total_insert_ne; congruence);
    apply zone_bit_other; try lia; congruence.
Qed.

(** Resetting a flag never sets another one. *)
Lemma changed_clearFlag_mono (f g : Fact) (d : dscKeybusInterface) :
  wf_dsc d -> fact_in_range f -> fact_in_range g ->
  changed f (clearFlag g d) = true -> changed f d = true.
Proof.
  intros Hwf Hf Hg H.
  destruct (decide (f = g)) as [->|Hne].
  - rewrite changed_clearFlag_same in H by assumption. discriminate.
  - rewrite changed_clearFlag_ne in H by assumption. exact H.
Qed.

(** ** Worlds and statements *)

Lemma world_eta (w : World) : mkWorld (dsc w) (trace w) (pushCalls w) = w.
Proof. destruct w; reflexivity. Qed.

Lemma values_clearFlag (f : Fact) (d : dscKeybusInterface) :
  values (clearFlag f d) = values d.
Proof. destruct f; reflexivity. Qed.

Lemma values_clearAll (fs : list Fact) (d : dscKeybusInterface) :
  values (clearAll fs d) = values d.
Proof.
  revert d. induction fs as [|f fs IH]; intros d; simpl.
  - reflexivity.
  - unfold clearAll in *. simpl. rewrite IH. apply values_clearFlag.
Qed.

Lemma clearAll_wf (fs : list Fact) (d : dscKeybusInterface) :
  wf_dsc d -> wf_dsc (clearAll fs d).
Proof.
  revert d. induction fs as [|f fs IH]; intros d H; simpl.
  - exact H.
  - apply IH, clearFlag_wf, H.
Qed.

Lemma changed_clearAll_other (f : Fact) (fs : list Fact) (d : dscKeybusInterface) :
  fact_in_range f -> Forall fact_in_range fs -> ~ In f fs ->
  changed f (clearAll fs d) = changed f d.
Proof.
  intros Hf. revert d. induction fs as [|g fs IH]; intros d Hr Hn; simpl.
  - reflexivity.
  - inversion Hr; subst. unfold clearAll in *. simpl.
    rewrite IH; [|assumption|intros ?; apply Hn; right; assumption].
    apply changed_clearFlag_ne; try assumption.
    intros ->. apply Hn. left. reflexivity.
Qed.

(** Once reset, a flag stays reset while further flags are reset. *)
Lemma changed_clearAll_false (f : Fact) (fs : list Fact) (d : dscKeybusInterface) :
  wf_dsc d -> fact_in_range f -> Forall fact_in_range fs ->
  changed f d = false -> changed f (clearAll fs d) = false.
Proof.
  intros Hwf Hf. revert d Hwf. induction fs as [|g fs IH]; intros d Hwf Hr H; simpl.
  - exact H.
  - inversion Hr; subst. apply IH; [apply clearFlag_wf, Hwf|assumption|].
    destruct (changed f (clearFlag g d)) eqn:E; [|reflexivity].
    apply changed_clearFlag_mono in E; try assumption. congruence.
Qed.

Lemma changed_clearAll_in (f : Fact) (fs : list Fact) (d : dscKeybusInterface) :
  wf_dsc d -> fact_in_range f -> Forall fact_in_range fs -> In f fs ->
  changed f (clearAll fs d) = false.
Proof.
  intros Hwf Hf. revert d Hwf. induction fs as [|g fs IH]; intros d Hwf Hr Hin; simpl.
  - destruct Hin.
  - inversion Hr; subst. destruct (decide (g = f)) as [->|Hne].
    + apply changed_clearAll_false; try assumption.
      * apply clearFlag_wf, Hwf.
      * apply changed_clearFlag_same; assumption.
    + apply IH; try assumption.
      * apply clearFlag_wf, Hwf.
      * destruct Hin; [congruence|assumption].
Qed.

(** ** Runs of status blocks *)

Lemma flat_map_ext_In {A B : Type} (f g : A -> list B) (l : list A) :
  (forall a, In a l -> f a = g a) -> flat_map f l = flat_map g l.
Proof.
  induction l as [|a l IH]; intros H; simpl.
  - reflexivity.
  - rewrite (H a) by (left; reflexivity).
    rewrite IH by (intros; apply H; right; assumption). reflexivity.
Qed.

Lemma runBlock_spec (b : Block) (w : World) :
  reads_values b ->
  runBlock b w =
  mkWorld (if changed (fst b) (dsc w) then clearFlag (fst b) (dsc w) else dsc w)
          (trace w ++ block_events (dsc w) b) (pushCalls w).
Proof.
  intros Hb. unfold runBlock, when, ifelse, block_events, skip.
  destruct (changed (fst b) (dsc w)).
  - unfold andThen, reset, andThen, store, emit, emitAll. simpl.
    rewrite <- app_assoc. simpl.
    rewrite (Hb (clearFlag (fst b) (dsc w)) (dsc w)) by apply values_clearFlag.
    reflexivity.
  - rewrite app_nil_r. symmetry. apply world_eta.
Qed.

Lemma runBlocks_app (bs1 bs2 : list Block) (w : World) :
  runBlocks (bs1 ++ bs2) w = runBlocks bs2 (runBlocks bs1 w).
Proof. unfold runBlocks. apply fold_left_app. Qed.

Lemma block_events_ext (d d' : dscKeybusInterface) (b : Block) :
  reads_values b -> values d = values d' -> changed (fst b) d = changed (fst b) d' ->
  block_events d b = block_events d' b.
Proof.
  intros Hb Hv Hc. unfold block_events. rewrite Hc, (Hb d d' Hv). reflexivity.
Qed.

(** A run of blocks over distinct facts resets exactly the flags that
    were set at the start and produces the events of each block as seen
    from the start state. *)
Lemma runBlocks_spec (bs : list Block) (w : World) :
  NoDup (map fst bs) ->
  Forall (fun b => fact_in_range (fst b)) bs ->
  Forall reads_values bs ->
  runBlocks bs w =
  mkWorld (clearAll (pending (dsc w) bs) (dsc w))
          (trace w ++ flat_map (block_events (dsc w)) bs) (pushCalls w).
Proof.
  revert w. induction bs as [|b bs IH]; intros w Hnd Hr Hv.
  - unfold runBlocks, pending. simpl. rewrite app_nil_r. symmetry. apply world_eta.
  - inversion Hnd as [|? ? Hnotin Hnd']; subst.
    inversion Hr as [|? ? Hrb Hr']; subst.
    inversion Hv as [|? ? Hvb Hv']; subst.
    change (runBlocks (b :: bs) w) with (runBlocks bs (runBlock b w)).
    rewrite IH by assumption. rewrite runBlock_spec by assumption. simpl.
    assert (Hsame : forall b', In b' bs ->
              changed (fst b') (if changed (fst b) (dsc w)
                                then clearFlag (fst b) (dsc w) else dsc w)
              = changed (fst b') (dsc w)).
    { intros b' Hin. destruct (changed (fst b) (dsc w)); [|reflexivity].
      apply changed_clearFlag_ne.
      - intros E. apply Hnotin. rewrite <- E. apply list_elem_of_In, in_map, Hin.
      - rewrite List.Forall_forall in Hr'. apply Hr', Hin.
      - exact Hrb. }
    assert (Hvals : values (if changed (fst b) (dsc w)
                            then clearFlag (fst b) (dsc w) else dsc w) = values (dsc w)).
    { destruct (changed (fst b) (dsc w)); [apply values_clearFlag|reflexivity]. }
    f_equal.
    + unfold pending. simpl.
      assert (Hfilter : List.filter (fun f => changed f
                 (if changed (fst b) (dsc w) then clearFlag (fst b) (dsc w) else dsc w))
                 (map fst bs)
               = List.filter (fun f => changed f (dsc w)) (map fst bs)).
      { apply filter_ext_in. intros f Hf. apply in_map_iff in Hf.
        destruct Hf as [b' [<- Hin]]. apply Hsame, Hin. }
      rewrite Hfilter. destruct (changed (fst b) (dsc w)); reflexivity.
    + rewrite <- app_assoc. f_equal. f_equal.
      apply flat_map_ext_In. intros b' Hin.
      apply block_events_ext.
      * rewrite List.Forall_forall in Hv'. apply Hv', Hin.
      * exact Hvals.
      * apply Hsame, Hin.
Qed.

(** ** The OpenHAB status pass as a run of blocks *)

Section OpenHABPass.
Import OpenHAB OpenHABBlocks.

Ltac block_cases :=
  unfold runBlock, when, ifelse, skip, andThen, reset, andThen,
    publishState, publish, published, emit, emitAll, store, strcat, strcpy;
  simpl;
  repeat match goal with
         | |- context [if ?c then _ else _] => destruct c; simpl
         end;
  rewrite <- ?app_assoc; reflexivity.

Lemma armedStatus_block (p : nat) (w : World) :
  armedStatus p w = runBlock (FArmed p, armed_msg p) w.
Proof. unfold armedStatus, armed_msg. block_cases. Qed.

Lemma exitDelayStatus_block (p : nat) (w : World) :
  exitDelayStatus p w = runBlock (FExitDelay p, exitDelay_msg p) w.
Proof. unfold exitDelayStatus, exitDelay_msg. block_cases. Qed.

Lemma alarmStatus_block (p : nat) (w : World) :
  alarmStatus p w = runBlock (FAlarm p, alarm_msg p) w.
Proof. unfold alarmStatus, alarm_msg. block_cases. Qed.

Lemma fireStatus_block (p : nat) (w : World) :
  fireStatus p w = runBlock (FFire p, fire_msg p) w.
Proof. unfold fireStatus, fire_msg. block_cases. Qed.

Lemma zoneStatus_block (g b : nat) (w : World) :
  zoneStatus g b w = runBlock (FOpenZone g b, zone_msg g b) w.
Proof.
  unfold zoneStatus, zone_msg.
  replace (Z.of_nat b + 1 + Z.of_nat g * 8) with (Z.of_nat g * 8 + Z.of_nat b + 1) by lia.
  unfold runBlock, when, ifelse, skip, andThen, reset, andThen,
    publish, emit, emitAll, store, strcat, strcpy.
  simpl. rewrite !truthy_bitRead.
  destruct (Z.testbit (openZonesChanged (dsc w) !!! g) (Z.of_nat b)); [|reflexivity].
  destruct (Z.testbit (openZones (dsc w) !!! g) (Z.of_nat b));
    rewrite <- ?app_assoc; reflexivity.
Qed.

Lemma partitionStatus_blocks (p : nat) (w : World) :
  partitionStatus p w = runBlocks (partition_blocks p) w.
Proof.
  unfold partitionStatus, andThen, runBlocks, partition_blocks. simpl.
  rewrite armedStatus_block, exitDelayStatus_block, alarmStatus_block, fireStatus_block.
  reflexivity.
Qed.

Lemma forRange_blocks (body : nat -> World -> World) (blocks : nat -> list Block) (n : nat) :
  (forall i w, body i w = runBlocks (blocks i) w) ->
  forall w, forRange n body w = runBlocks (flat_map blocks (seq 0 n)) w.
Proof.
  intros H. unfold forRange. generalize (seq 0 n). intros l.
  induction l as [|i l IH]; intros w; simpl.
  - reflexivity.
  - rewrite runBlocks_app, IH, H. reflexivity.
Qed.

Lemma partitions_blocks (w : World) :
  forRange dscPartitions partitionStatus w = runBlocks all_partition_blocks w.
Proof. apply forRange_blocks, partitionStatus_blocks. Qed.

Lemma flat_map_single {A B : Type} (f : A -> B) (l : list A) :
  flat_map (fun a => [f a]) l = map f l.
Proof. induction l as [|a l IH]; simpl; [|rewrite IH]; reflexivity. Qed.

Lemma zoneGroup_blocks (g : nat) (w : World) :
  forRange 8 (fun zoneBit => zoneStatus g zoneBit) w = runBlocks (zone_blocks g) w.
Proof.
  unfold zone_blocks.
  rewrite (forRange_blocks _ (fun b => [(FOpenZone g b, zone_msg g b)])).
  - apply (f_equal (fun l => runBlocks l w)), flat_map_single.
  - intros i w'. apply zoneStatus_block.
Qed.

Lemma zoneScan_blocks (w : World) :
  zoneScan w = runBlocks all_zone_blocks w.
Proof. apply forRange_blocks, zoneGroup_blocks. Qed.

Lemma all_partition_blocks_nodup : NoDup (map fst all_partition_blocks).
Proof. apply (bool_decide_unpack _). vm_compute. exact I. Qed.

Lemma all_zone_blocks_nodup : NoDup (map fst all_zone_blocks).
Proof. apply (bool_decide_unpack _). vm_compute. exact I. Qed.

Lemma all_partition_blocks_range :
  Forall (fun b : Block => fact_in_range (fst b)) all_partition_blocks.
Proof. unfold fact_in_range, dscPartitions. repeat constructor. Qed.

Lemma all_zone_blocks_range :
  Forall (fun b : Block => fact_in_range (fst b)) all_zone_blocks.
Proof.
  unfold all_zone_blocks, zone_blocks, dscZones. simpl.
  repeat (constructor; [unfold fact_in_range, dscZones; simpl; lia|]). constructor.
Qed.

Lemma values_inv (d d' : dscKeybusInterface) :
  values d = values d' ->
  armed d = armed d' /\ armedAway d = armedAway d' /\ armedStay d = armedStay d' /\
  exitDelay d = exitDelay d' /\ alarm d = alarm d' /\ fire d = fire d' /\
  openZones d = openZones d'.
Proof. unfold values. intros H. injection H. intros. repeat split; assumption. Qed.

Ltac use_values H :=
  apply values_inv in H;
  destruct H as (Ha & Haw & Hst & Hx & Hal & Hf & Hz);
  simpl; unfold armed_msg, exitDelay_msg, alarm_msg, fire_msg, zone_msg;
  rewrite ?Ha, ?Haw, ?Hst, ?Hx, ?Hal, ?Hf, ?Hz; reflexivity.

Lemma partition_blocks_values (p : nat) : Forall reads_values (partition_blocks p).
Proof.
  unfold partition_blocks.
  repeat (constructor; [intros d d' H; use_values H|]). constructor.
Qed.

Lemma all_partition_blocks_values : Forall reads_values all_partition_blocks.
Proof.
  unfold all_partition_blocks. generalize (seq 0 dscPartitions). intros l.
  induction l as [|p l IH].
  - constructor.
  - change (Forall reads_values (partition_blocks p ++ flat_map partition_blocks l)).
    apply Forall_app. split; [apply partition_blocks_values|exact IH].
Qed.

Lemma zone_blocks_values (g : nat) : Forall reads_values (zone_blocks g).
Proof.
  unfold zone_blocks. generalize (seq 0 8). intros l.
  induction l as [|b l IH]; simpl.
  - constructor.
  - constructor; [intros d d' H; use_values H|exact IH].
Qed.

Lemma all_zone_blocks_values : Forall reads_values all_zone_blocks.
Proof.
  unfold all_zone_blocks. generalize (seq 0 dscZones). intros l.
  induction l as [|g l IH].
  - constructor.
  - change (Forall reads_values (zone_blocks g ++ flat_map zone_blocks l)).
    apply Forall_app. split; [apply zone_blocks_values|exact IH].
Qed.

End OpenHABPass.

Section OpenHABSpec.
Import OpenHAB OpenHABBlocks.

Lemma pending_ext (d d' : dscKeybusInterface) (bs : list Block) :
  (forall b, In b bs -> changed (fst b) d = changed (fst b) d') ->
  pending d bs = pending d' bs.
Proof.
  intros H. unfold pending. apply filter_ext_in.
  intros f Hf. apply in_map_iff in Hf. destruct Hf as [b [<- Hin]]. apply H, Hin.
Qed.

Lemma events_ext (d d' : dscKeybusInterface) (bs : list Block) :
  Forall reads_values bs -> values d = values d' ->
  (forall b, In b bs -> changed (fst b) d = changed (fst b) d') ->
  flat_map (block_events d) bs = flat_map (block_events d') bs.
Proof.
  intros Hv Hval H. apply flat_map_ext_In. intros b Hin.
  apply block_events_ext; [|exact Hval|apply H, Hin].
  rewrite List.Forall_forall in Hv. apply Hv, Hin.
Qed.

Lemma pending_in (d : dscKeybusInterface) (bs : list Block) (f : Fact) :
  In f (pending d bs) <-> In f (map fst bs) /\ changed f d = true.
Proof. unfold pending. apply filter_In. Qed.

Lemma pending_range (d : dscKeybusInterface) (bs : list Block) :
  Forall (fun b : Block => fact_in_range (fst b)) bs ->
  Forall fact_in_range (pending d bs).
Proof.
  intros H. apply List.Forall_forall. intros f Hf.
  apply pending_in in Hf. destruct Hf as [Hf _].
  apply in_map_iff in Hf. destruct Hf as [b [<- Hin]].
  rewrite List.Forall_forall in H. apply H, Hin.
Qed.

Lemma gate_clearAll (fs : list Fact) (d : dscKeybusInterface) :
  openZonesStatusChanged (clearAll fs d) = openZonesStatusChanged d.
Proof.
  revert d. induction fs as [|f fs IH]; intros d; simpl.
  - reflexivity.
  - unfold clearAll in *. simpl. rewrite IH. destruct f; reflexivity.
Qed.

Lemma zone_not_partition (b : Block) (d : dscKeybusInterface) :
  In b all_zone_blocks -> ~ In (fst b) (pending d all_partition_blocks).
Proof.
  intros Hz Hp. apply pending_in in Hp. destruct Hp as [Hp _].
  unfold all_zone_blocks, zone_blocks in Hz.
  apply in_flat_map in Hz. destruct Hz as [g [_ Hz]].
  apply in_map_iff in Hz. destruct Hz as [zb [<- _]].
  unfold all_partition_blocks in Hp.
  apply in_map_iff in Hp. destruct Hp as [pb [Heq Hp]].
  apply in_flat_map in Hp. destruct Hp as [p [_ Hp]].
  simpl in Hp. simpl in Heq.
  destruct Hp as [<-|[<-|[<-|[<-|[]]]]]; discriminate.
Qed.

(** One status pass: the final state and the events, both determined by
    the state the pass starts in. *)
Lemma processStatus_spec (accessCode : string) (w : World) :
  processStatus accessCode w =
  mkWorld (status_final (dsc w)) (trace w ++ status_events accessCode (dsc w))
          (pushCalls w).
Proof.
  unfold processStatus, andThen.
  set (d := dsc w).
  set (d1 := set_accessCodePrompt false (set_bufferOverflow false d)).
  set (w2 := when accessCodePrompt _ (when bufferOverflow _ w)).
  assert (Hw2 : w2 = mkWorld d1
            (trace w ++ if accessCodePrompt d then [EvWrite accessCode] else [])
            (pushCalls w)).
  { unfold w2, d1, when, ifelse, skip, andThen, store, emit. subst d.
    destruct w as [[] tr n]; simpl.
    destruct bufferOverflow0, accessCodePrompt0; simpl; rewrite ?app_nil_r; reflexivity. }
  rewrite partitions_blocks, Hw2.
  rewrite runBlocks_spec
    by (apply all_partition_blocks_nodup || apply all_partition_blocks_range
        || apply all_partition_blocks_values).
  cbn [dsc trace pushCalls].
  assert (Hc1 : forall f, changed f d1 = changed f d).
  { intros f. unfold d1. destruct f; reflexivity. }
  assert (Hv1 : values d1 = values d) by reflexivity.
  rewrite (pending_ext d1 d all_partition_blocks) by (intros; apply Hc1).
  rewrite (events_ext d1 d all_partition_blocks)
    by (apply all_partition_blocks_values || exact Hv1 || (intros; apply Hc1)).
  set (d2 := clearAll (pending d all_partition_blocks) d1).
  unfold openZonesStatus, when, ifelse, skip, andThen. cbn [dsc trace pushCalls].
  assert (Hgate : openZonesStatusChanged d2 = openZonesStatusChanged d).
  { unfold d2. rewrite gate_clearAll. reflexivity. }
  rewrite Hgate. unfold status_final, status_events.
  fold d d1 d2.
  destruct (openZonesStatusChanged d) eqn:Hg.
  - rewrite zoneScan_blocks.
    rewrite runBlocks_spec
      by (apply all_zone_blocks_nodup || apply all_zone_blocks_range
          || apply all_zone_blocks_values).
    unfold store, emit. cbn [dsc trace pushCalls].
    assert (Hc2 : forall b, In b all_zone_blocks ->
              changed (fst b) (set_openZonesStatusChanged false d2) = changed (fst b) d).
    { intros b Hb. transitivity (changed (fst b) d2).
      - destruct (fst b); reflexivity.
      - unfold d2. rewrite changed_clearAll_other.
        + apply Hc1.
        + pose proof all_zone_blocks_range as Hr.
          rewrite List.Forall_forall in Hr. apply Hr, Hb.
        + apply pending_range, all_partition_blocks_range.
        + apply zone_not_partition, Hb. }
    assert (Hv2 : values (set_openZonesStatusChanged false d2) = values d).
    { unfold d2. change (values (clearAll (pending d all_partition_blocks) d1) = values d).
      rewrite values_clearAll. reflexivity. }
    rewrite (pending_ext (set_openZonesStatusChanged false d2) d all_zone_blocks) by exact Hc2.
    rewrite (events_ext (set_openZonesStatusChanged false d2) d all_zone_blocks)
      by (apply all_zone_blocks_values || exact Hv2 || exact Hc2).
    rewrite <- !app_assoc. reflexivity.
  - unfold emit. cbn [dsc trace pushCalls]. rewrite <- !app_assoc. reflexivity.
Qed.

End OpenHABSpec.

(** ** Partition messages of the OpenHAB sketch *)

Section OpenHABMessages.
Import OpenHAB OpenHABBlocks.

Lemma loopStatus_spec (accessCode : string) (w : World) :
  statusChanged (dsc w) = true ->
  loopStatus accessCode w =
  mkWorld (status_final (set_statusChanged false (dsc w)))
          (trace w ++ status_events accessCode (set_statusChanged false (dsc w)))
          (pushCalls w).
Proof.
  intros H. unfold loopStatus, when, ifelse, andThen. rewrite H.
  rewrite processStatus_spec. reflexivity.
Qed.

Lemma status_events_unflag (accessCode : string) (d : dscKeybusInterface) :
  status_events accessCode (set_statusChanged false d) = status_events accessCode d.
Proof.
  unfold status_events.
  rewrite (events_ext (set_statusChanged false d) d all_partition_blocks);
    [|apply all_partition_blocks_values|reflexivity|intros b _; destruct (fst b); reflexivity].
  rewrite (events_ext (set_statusChanged false d) d all_zone_blocks);
    [|apply all_zone_blocks_values|reflexivity|intros b _; destruct (fst b); reflexivity].
  reflexivity.
Qed.

Lemma partition_block_in (p : nat) (b : Block) :
  (p < dscPartitions)%nat -> In b (partition_blocks p) -> In b all_partition_blocks.
Proof.
  intros Hp Hb. unfold all_partition_blocks. apply in_flat_map.
  exists p. split; [apply in_seq; lia|exact Hb].
Qed.

Lemma flat_map_in_split {A B : Type} (f : A -> list B) (l : list A) (a : A) :
  In a l -> exists pre post, flat_map f l = pre ++ f a ++ post.
Proof.
  intros H. apply in_split in H. destruct H as (l1 & l2 & ->).
  exists (flat_map f l1), (flat_map f l2).
  rewrite flat_map_app. reflexivity.
Qed.

(** The events of a partition block whose flag is set appear, together,
    in the trace of the pass. *)
Lemma pass_block_events (accessCode : string) (w : World) (b : Block) :
  statusChanged (dsc w) = true ->
  In b all_partition_blocks ->
  occurs (block_events (dsc w) b) (trace (loopStatus accessCode w)).
Proof.
  unfold occurs.
  intros Hs Hb. rewrite loopStatus_spec by exact Hs.
  unfold trace at 1.
  rewrite status_events_unflag. unfold status_events.
  destruct (flat_map_in_split (block_events (dsc w)) _ _ Hb) as (pre & post & E).
  exists (trace w ++ (if accessCodePrompt (dsc w) then [EvWrite accessCode] else []) ++ pre).
  exists (post ++
          (if openZonesStatusChanged (dsc w)
           then flat_map (block_events (dsc w)) all_zone_blocks else []) ++
          [EvSubscribe mqttSubscribeTopic]).
  rewrite E, <- !app_assoc. reflexivity.
Qed.

(** C7: when the exit-delay flag of a partition is consumed while the
    partition is neither in exit delay nor armed, the pass resets the flag
    and directly publishes the disarmed message "<N>D" on the partition's
    topic. *)
Theorem exit_delay_abort_publishes_disarmed
    (accessCode : string) (w : World) (p : nat) :
  (p < dscPartitions)%nat ->
  statusChanged (dsc w) = true ->
  exitDelayChanged (dsc w) !!! p = true ->
  exitDelay (dsc w) !!! p = false ->
  armed (dsc w) !!! p = false ->
  occurs [EvClear (FExitDelay p);
          EvPublish (mqttPartitionTopic ++ itoa (Z.of_nat p + 1))
                    (itoa (Z.of_nat p + 1) ++ "D") true]
         (trace (loopStatus accessCode w)).
Proof.
  intros Hp Hs Hc Hx Ha.
  assert (Hin : In (FExitDelay p, exitDelay_msg p) all_partition_blocks).
  { apply (partition_block_in p); [exact Hp|]. simpl. auto. }
  pose proof (pass_block_events accessCode w _ Hs Hin) as E.
  unfold block_events, exitDelay_msg, published in E.
  cbn [fst snd changed] in E. rewrite Hc, Hx, Ha in E. exact E.
Qed.

(** Partition 3 leaves its exit delay without being armed. *)
Lemma exit_delay_abort_publishes_disarmed_witness :
  occurs [EvClear (FExitDelay 2); EvPublish "dsc/Get/Partition3" "3D" true]
         (trace (loopStatus "1234" (fresh exit_delay_aborted_3))).
Proof.
  apply (exit_delay_abort_publishes_disarmed "1234" (fresh exit_delay_aborted_3) 2);
    [unfold dscPartitions; lia|reflexivity|reflexivity|reflexivity|reflexivity].
Defined.

Lemma itoa_partition_digit (p : nat) :
  (p < dscPartitions)%nat ->
  itoa (Z.of_nat p + 1) = String (digit_char (Z.of_nat p + 1)) EmptyString.
Proof.
  unfold dscPartitions. intros Hp.
  do 8 (destruct p as [|p]; [reflexivity|]). lia.
Qed.

(** C6: for partition N = p + 1 in 1..8, [publishState] publishes on the
    partition topic followed by the decimal digit of N the payload N
    followed by the suffix, whatever the world it is called in; a status
    pass sends "A" for armed away, "S" for armed stay, "D" for disarmed,
    "P" for exit delay and "T" for alarm, each right after resetting the
    flag it reports; and arming partition 1 away from the quiet state gives
    exactly one publish, "1A" on dsc/Get/Partition1. *)
Theorem partition_publish_encoding (accessCode : string) (w : World) (p : nat) :
  (p < dscPartitions)%nat ->
  statusChanged (dsc w) = true ->
  let d := dsc w in
  let N := itoa (Z.of_nat p + 1) in
  let topic := (mqttPartitionTopic ++ N)%string in
  let sent := trace (loopStatus accessCode w) in
  N = String (digit_char (Z.of_nat p + 1)) EmptyString
  /\ (forall suffix w',
        publishState mqttPartitionTopic p suffix w'
        = emit (EvPublish topic (N ++ suffix) true) w')
  /\ (armedChanged d !!! p = true -> armed d !!! p = true -> armedAway d !!! p = true ->
      occurs [EvClear (FArmed p); EvPublish topic (N ++ "A") true] sent)
  /\ (armedChanged d !!! p = true -> armed d !!! p = true -> armedAway d !!! p = false ->
      armedStay d !!! p = true ->
      occurs [EvClear (FArmed p); EvPublish topic (N ++ "S") true] sent)
  /\ (armedChanged d !!! p = true -> armed d !!! p = false ->
      occurs [EvClear (FArmed p); EvPublish topic (N ++ "D") true] sent)
  /\ (exitDelayChanged d !!! p = true -> exitDelay d !!! p = true ->
      occurs [EvClear (FExitDelay p); EvPublish topic (N ++ "P") true] sent)
  /\ (alarmChanged d !!! p = true -> alarm d !!! p = true ->
      occurs [EvClear (FAlarm p); EvPublish topic (N ++ "T") true] sent)
  /\ trace (loopStatus accessCode (fresh armed_away_1))
     = [EvClear (FArmed 0); EvPublish "dsc/Get/Partition1" "1A" true;
        EvSubscribe "dsc/Set"].
Proof.
  intros Hp Hs d N topic sent.
  assert (Hblock : forall b, In b (partition_blocks p) ->
            occurs (block_events d b) sent).
  { intros b Hb. apply pass_block_events; [exact Hs|].
    apply (partition_block_in p); assumption. }
  split; [apply itoa_partition_digit, Hp|].
  split; [reflexivity|].
  split.
  { intros Hc Ha Haw.
    pose proof (Hblock (FArmed p, armed_msg p) ltac:(simpl; auto)) as E.
    unfold block_events, armed_msg, published in E. cbn [fst snd changed] in E.
    fold d in E. rewrite Hc, Ha, Haw in E. exact E. }
  split.
  { intros Hc Ha Haw Hst.
    pose proof (Hblock (FArmed p, armed_msg p) ltac:(simpl; auto)) as E.
    unfold block_events, armed_msg, published in E. cbn [fst snd changed] in E.
    fold d in E. rewrite Hc, Ha, Haw, Hst in E. exact E. }
  split.
  { intros Hc Ha.
    pose proof (Hblock (FArmed p, armed_msg p) ltac:(simpl; auto)) as E.
    unfold block_events, armed_msg, published in E. cbn [fst snd changed] in E.
    fold d in E. rewrite Hc, Ha in E. exact E. }
  split.
  { intros Hc Hx.
    pose proof (Hblock (FExitDelay p, exitDelay_msg p) ltac:(simpl; auto)) as E.
    unfold block_events, exitDelay_msg, published in E. cbn [fst snd changed] in E.
    fold d in E. rewrite Hc, Hx in E. exact E. }
  split.
  { intros Hc Hal.
    pose proof (Hblock (FAlarm p, alarm_msg p) ltac:(simpl; auto)) as E.
    unfold block_events, alarm_msg, published in E. cbn [fst snd changed] in E.
    fold d in E. rewrite Hc, Hal in E. exact E. }
  vm_compute. reflexivity.
Qed.

(** Partition 1 armed away from the quiet state. *)
Lemma partition_publish_encoding_witness :
  occurs [EvClear (FArmed 0); EvPublish "dsc/Get/Partition1" "1A" true]
         (trace (loopStatus "1234" (fresh armed_away_1))).
Proof.
  refine (proj1 (proj2 (proj2
    (partition_publish_encoding "1234" (fresh armed_away_1) 0 _ _))) _ _ _);
    [unfold dscPartitions; lia|reflexivity|reflexivity|reflexivity|reflexivity].
Defined.

End OpenHABMessages.

(** ** The zone scan of the OpenHAB sketch *)

Section OpenHABZones.
Import OpenHAB OpenHABBlocks.

Lemma flat_map_nested {A B C : Type} (f : B -> list C) (g : A -> list B) (l : list A) :
  flat_map f (flat_map g l) = flat_map (fun a => flat_map f (g a)) l.
Proof.
  induction l as [|a l IH]; simpl.
  - reflexivity.
  - rewrite flat_map_app, IH. reflexivity.
Qed.

Lemma flat_map_of_map {A B C : Type} (f : B -> list C) (g : A -> B) (l : list A) :
  flat_map f (map g l) = flat_map (fun a => f (g a)) l.
Proof. induction l as [|a l IH]; simpl; [|rewrite IH]; reflexivity. Qed.

(** The events of a full zone scan, zone 1 to zone 64. *)
Lemma zone_events_explicit (d : dscKeybusInterface) :
  flat_map (block_events d) all_zone_blocks =
  flat_map (fun g => flat_map (fun b =>
      if Z.testbit (openZonesChanged d !!! g) (Z.of_nat b)
      then [EvClear (FOpenZone g b);
            EvPublish (mqttZoneTopic ++ itoa (Z.of_nat g * 8 + Z.of_nat b + 1))
                      (if Z.testbit (openZones d !!! g) (Z.of_nat b) then "1" else "0")
                      true]
      else []) (seq 0 8)) (seq 0 dscZones).
Proof.
  unfold all_zone_blocks, zone_blocks. rewrite flat_map_nested.
  apply flat_map_ext_In. intros g _. rewrite flat_map_of_map.
  apply flat_map_ext_In. intros b _.
  unfold block_events, zone_msg. cbn [fst snd changed].
  rewrite truthy_bitRead. reflexivity.
Qed.

Lemma zone_block_in (g b : nat) :
  (g < dscZones)%nat -> (b < 8)%nat ->
  In (FOpenZone g b, zone_msg g b) all_zone_blocks.
Proof.
  intros Hg Hb. unfold all_zone_blocks, zone_blocks. apply in_flat_map.
  exists g. split; [apply in_seq; lia|].
  apply in_map_iff. exists b. split; [reflexivity|apply in_seq; lia].
Qed.

(** After a run of blocks every flag of the run is reset. *)
Lemma runBlocks_resets (bs : list Block) (d : dscKeybusInterface) (b : Block) :
  wf_dsc d -> Forall (fun b : Block => fact_in_range (fst b)) bs -> In b bs ->
  changed (fst b) (clearAll (pending d bs) d) = false.
Proof.
  intros Hwf Hr Hin.
  assert (Hrb : fact_in_range (fst b)).
  { rewrite List.Forall_forall in Hr. apply Hr, Hin. }
  destruct (changed (fst b) d) eqn:E.
  - apply changed_clearAll_in; try assumption.
    + apply pending_range, Hr.
    + apply pending_in. split; [apply in_map, Hin|exact E].
  - apply changed_clearAll_false; try assumption. apply pending_range, Hr.
Qed.

Lemma pending_none (d : dscKeybusInterface) (bs : list Block) :
  (forall b, In b bs -> changed (fst b) d = false) -> pending d bs = [].
Proof.
  intros H. unfold pending. induction bs as [|b bs IH]; simpl.
  - reflexivity.
  - rewrite (H b) by (left; reflexivity).
    apply IH. intros b' Hb'. apply H. right. exact Hb'.
Qed.

Lemma events_none (d : dscKeybusInterface) (bs : list Block) :
  (forall b, In b bs -> changed (fst b) d = false) ->
  flat_map (block_events d) bs = [].
Proof.
  intros H. induction bs as [|b bs IH]; simpl.
  - reflexivity.
  - unfold block_events at 1. rewrite (H b) by (left; reflexivity).
    apply IH. intros b' Hb'. apply H. right. exact Hb'.
Qed.

(** Resetting zone flags writes the zone change array only. *)
Lemma clearAll_zone_frame (fs : list Fact) (d : dscKeybusInterface) :
  Forall (fun f => exists g b, f = FOpenZone g b) fs ->
  set_openZonesChanged (openZonesChanged d) (clearAll fs d) = d.
Proof.
  intros H. revert d. induction H as [|f fs [g [b ->]] _ IH]; intros d.
  - destruct d; reflexivity.
  - change (clearAll (FOpenZone g b :: fs) d)
      with (clearAll fs (clearFlag (FOpenZone g b) d)).
    specialize (IH (clearFlag (FOpenZone g b) d)).
    transitivity (set_openZonesChanged (openZonesChanged d)
                    (set_openZonesChanged (openZonesChanged (clearFlag (FOpenZone g b) d))
                       (clearAll fs (clearFlag (FOpenZone g b) d)))).
    + reflexivity.
    + rewrite IH. destruct d; reflexivity.
Qed.

Lemma pending_zone_facts (d : dscKeybusInterface) :
  Forall (fun f => exists g b, f = FOpenZone g b) (pending d all_zone_blocks).
Proof.
  apply List.Forall_forall. intros f Hf. apply pending_in in Hf.
  destruct Hf as [Hf _]. apply in_map_iff in Hf. destruct Hf as [blk [<- Hin]].
  unfold all_zone_blocks, zone_blocks in Hin.
  apply in_flat_map in Hin. destruct Hin as [g [_ Hin]].
  apply in_map_iff in Hin. destruct Hin as [b [<- _]].
  exists g, b. reflexivity.
Qed.

(** C2: the zone scan resets exactly the zone change bits that are set
    and, in zone order, publishes for each of them on the zone topic
    followed by the decimal zone number g*8+b+1 the payload "1" when the
    zone's state bit is set and "0" otherwise; only the change array is
    written; scanning again right away changes nothing and publishes
    nothing, so a zone is published again only after its change bit has
    been set again. *)
Theorem zone_scan_publishes_changed_zones (w : World) :
  wf_dsc (dsc w) ->
  let d := dsc w in
  let w' := zoneScan w in
  trace w' = trace w ++
    flat_map (fun g => flat_map (fun b =>
      if Z.testbit (openZonesChanged d !!! g) (Z.of_nat b)
      then [EvClear (FOpenZone g b);
            EvPublish (mqttZoneTopic ++ itoa (Z.of_nat g * 8 + Z.of_nat b + 1))
                      (if Z.testbit (openZones d !!! g) (Z.of_nat b) then "1" else "0")
                      true]
      else []) (seq 0 8)) (seq 0 dscZones)
  /\ (forall g b, (g < dscZones)%nat -> (b < 8)%nat ->
        truthy (bitRead (openZonesChanged (dsc w') !!! g) b) = false)
  /\ set_openZonesChanged (openZonesChanged d) (dsc w') = d
  /\ zoneScan w' = w'
  /\ (openZonesStatusChanged d = true ->
      openZonesStatus w = zoneScan (store (set_openZonesStatusChanged false) w)).
Proof.
  intros Hwf d w'.
  assert (Hspec : w' = mkWorld (clearAll (pending d all_zone_blocks) d)
                     (trace w ++ flat_map (block_events d) all_zone_blocks)
                     (pushCalls w)).
  { unfold w'. rewrite zoneScan_blocks. apply runBlocks_spec.
    - apply all_zone_blocks_nodup.
    - apply all_zone_blocks_range.
    - apply all_zone_blocks_values. }
  assert (Hclear : forall blk, In blk all_zone_blocks -> changed (fst blk) (dsc w') = false).
  { intros blk Hin. rewrite Hspec. unfold dsc at 1.
    apply runBlocks_resets; [exact Hwf|apply all_zone_blocks_range|exact Hin]. }
  split.
  { rewrite Hspec. unfold trace at 1. rewrite zone_events_explicit. reflexivity. }
  split.
  { intros g b Hg Hb. apply (Hclear (FOpenZone g b, zone_msg g b)).
    apply zone_block_in; assumption. }
  split.
  { rewrite Hspec. unfold dsc at 1. apply clearAll_zone_frame, pending_zone_facts. }
  split.
  { rewrite zoneScan_blocks.
    rewrite runBlocks_spec
      by (apply all_zone_blocks_nodup || apply all_zone_blocks_range
          || apply all_zone_blocks_values).
    rewrite pending_none, events_none by exact Hclear.
    change (clearAll [] (dsc w')) with (dsc w').
    rewrite app_nil_r. apply world_eta. }
  intros Hgate. unfold openZonesStatus, when, ifelse, andThen. fold d.
  rewrite Hgate. reflexivity.
Qed.

End OpenHABZones.

(** ** The flag discipline *)

Lemma classic_clear (e : Ev) : (exists f, e = EvClear f) \/ (forall f, e <> EvClear f).
Proof. destruct e; try (right; intros; discriminate). left. eexists. reflexivity. Qed.

Lemma disciplined_clear_cons (must : Fact -> bool) (f : Fact) (e : Ev) (rest : list Ev) :
  disciplined must (EvClear f :: e :: rest)
  = if is_send e then disciplined must rest
    else negb (must f) && disciplined must (e :: rest).
Proof. reflexivity. Qed.

Lemma disciplined_send_head (must : Fact -> bool) (e : Ev) (rest : list Ev) :
  is_send e = true -> disciplined must (e :: rest) = false.
Proof. destruct e; simpl; intros H; try discriminate; reflexivity. Qed.

Lemma disciplined_other_head (must : Fact -> bool) (e : Ev) (rest : list Ev) :
  (forall f, e <> EvClear f) ->
  disciplined must (e :: rest) = negb (is_send e) && disciplined must rest.
Proof. destruct e; intros H; try reflexivity. exfalso. apply (H f). reflexivity. Qed.

Lemma disciplined_app (must : Fact -> bool) (a b : list Ev) :
  disciplined must a = true -> disciplined must b = true ->
  disciplined must (a ++ b) = true.
Proof.
  remember (length a) as n eqn:Hn. revert a Hn.
  induction n as [n IH] using lt_wf_ind. intros a Hn Ha Hb.
  destruct a as [|e a]; [exact Hb|].
  destruct (classic_clear e) as [[f ->]|Hne].
  - destruct a as [|e' a'].
    + change ([EvClear f] ++ b) with (EvClear f :: b).
      change (negb (must f) = true) in Ha.
      destruct b as [|e b']; [exact Ha|].
      rewrite disciplined_clear_cons.
      destruct (is_send e) eqn:Es.
      * rewrite disciplined_send_head in Hb by exact Es. discriminate.
      * rewrite Ha. exact Hb.
    + rewrite disciplined_clear_cons in Ha.
      change ((EvClear f :: e' :: a') ++ b) with (EvClear f :: e' :: (a' ++ b)).
      rewrite disciplined_clear_cons.
      destruct (is_send e') eqn:Es.
      * apply (IH (length a')); [subst n; simpl; lia|reflexivity|exact Ha|exact Hb].
      * apply andb_true_iff in Ha. destruct Ha as [Hm Ha]. rewrite Hm.
        change (e' :: a' ++ b) with ((e' :: a') ++ b).
        apply (IH (length (e' :: a')));
          [subst n; simpl; lia|reflexivity|exact Ha|exact Hb].
  - change ((e :: a) ++ b) with (e :: (a ++ b)).
    rewrite disciplined_other_head in Ha |- * by exact Hne.
    apply andb_true_iff in Ha. destruct Ha as [Hs Ha]. rewrite Hs.
    apply (IH (length a)); [subst n; simpl; lia|reflexivity|exact Ha|exact Hb].
Qed.

(** *** Resets that are accounted for *)

Lemma accounted_clear_cons (msg : Fact -> Ev -> Prop) (must : Fact -> bool)
    (f : Fact) (e : Ev) (rest : list Ev) :
  accounted msg must (EvClear f :: e :: rest)
  = if is_send e then msg f e /\ accounted msg must rest
    else must f = false /\ accounted msg must (e :: rest).
Proof. reflexivity. Qed.

Lemma accounted_send_head (msg : Fact -> Ev -> Prop) (must : Fact -> bool)
    (e : Ev) (rest : list Ev) :
  is_send e = true -> ~ accounted msg must (e :: rest).
Proof.
  destruct e; simpl; intros H; try discriminate; intros [H' _]; discriminate.
Qed.

Lemma accounted_other_head (msg : Fact -> Ev -> Prop) (must : Fact -> bool)
    (e : Ev) (rest : list Ev) :
  (forall f, e <> EvClear f) ->
  accounted msg must (e :: rest) = (is_send e = false /\ accounted msg must rest).
Proof. destruct e; intros H; try reflexivity. exfalso. apply (H f). reflexivity. Qed.

Lemma accounted_app (msg : Fact -> Ev -> Prop) (must : Fact -> bool) (a b : list Ev) :
  accounted msg must a -> accounted msg must b -> accounted msg must (a ++ b).
Proof.
  remember (length a) as n eqn:Hn. revert a Hn.
  induction n as [n IH] using lt_wf_ind. intros a Hn Ha Hb.
  destruct a as [|e a]; [exact Hb|].
  destruct (classic_clear e) as [[f ->]|Hne].
  - destruct a as [|e' a'].
    + change ([EvClear f] ++ b) with (EvClear f :: b).
      change (must f = false) in Ha.
      destruct b as [|e b']; [exact Ha|].
      rewrite accounted_clear_cons.
      destruct (is_send e) eqn:Es.
      * exfalso. exact (accounted_send_head msg must e b' Es Hb).
      * split; [exact Ha|exact Hb].
    + rewrite accounted_clear_cons in Ha.
      change ((EvClear f :: e' :: a') ++ b) with (EvClear f :: e' :: (a' ++ b)).
      rewrite accounted_clear_cons.
      destruct (is_send e') eqn:Es.
      * destruct Ha as [Hm Ha]. split; [exact Hm|].
        apply (IH (length a')); [subst n; simpl; lia|reflexivity|exact Ha|exact Hb].
      * destruct Ha as [Hm Ha]. split; [exact Hm|].
        change (e' :: a' ++ b) with ((e' :: a') ++ b).
        apply (IH (length (e' :: a')));
          [subst n; simpl; lia|reflexivity|exact Ha|exact Hb].
  - change ((e :: a) ++ b) with (e :: (a ++ b)).
    rewrite accounted_other_head in Ha |- * by exact Hne.
    destruct Ha as [Hs Ha]. split; [exact Hs|].
    apply (IH (length a)); [subst n; simpl; lia|reflexivity|exact Ha|exact Hb].
Qed.

Lemma accounted_flat_map {A : Type} (msg : Fact -> Ev -> Prop) (must : Fact -> bool)
    (f : A -> list Ev) (l : list A) :
  (forall a, In a l -> accounted msg must (f a)) ->
  accounted msg must (flat_map f l).
Proof.
  induction l as [|a l IH]; intros H; simpl.
  - exact Logic.I.
  - apply accounted_app; [apply H; left; reflexivity|].
    apply IH. intros a' Ha'. apply H. right. exact Ha'.
Qed.

(** A trace whose resets are accounted for is disciplined. *)
Lemma accounted_disciplined (msg : Fact -> Ev -> Prop) (must : Fact -> bool)
    (evs : list Ev) :
  accounted msg must evs -> disciplined must evs = true.
Proof.
  remember (length evs) as n eqn:Hn. revert evs Hn.
  induction n as [n IH] using lt_wf_ind. intros evs Hn Ha.
  destruct evs as [|e evs]; [reflexivity|].
  destruct (classic_clear e) as [[f ->]|Hne].
  - destruct evs as [|e' evs'].
    + change (must f = false) in Ha. change (negb (must f) = true). rewrite Ha. reflexivity.
    + rewrite accounted_clear_cons in Ha. rewrite disciplined_clear_cons.
      destruct (is_send e') eqn:Es.
      * destruct Ha as [_ Ha].
        apply (IH (length evs')); [subst n; simpl; lia|reflexivity|exact Ha].
      * destruct Ha as [Hm Ha]. rewrite Hm.
        apply (IH (length (e' :: evs'))); [subst n; simpl; lia|reflexivity|exact Ha].
  - rewrite accounted_other_head in Ha by exact Hne.
    rewrite disciplined_other_head by exact Hne.
    destruct Ha as [Hs Ha]. rewrite Hs.
    apply (IH (length evs)); [subst n; simpl; lia|reflexivity|exact Ha].
Qed.

Lemma openhab_message_intro (f : Fact) (topic payload : string) :
  topic = openhab_topic f -> In payload (openhab_payloads f) ->
  openhab_message f (EvPublish topic payload true) = true.
Proof.
  intros -> H. unfold openhab_message. rewrite String.eqb_refl.
  apply existsb_exists. exists payload. split; [exact H|apply String.eqb_refl].
Qed.

Lemma twilio_message_intro (f : Fact) (prefix pushMessage : string) :
  prefix = twilio_prefix f -> In pushMessage (twilio_texts f) ->
  twilio_message f (EvPush prefix pushMessage) = true.
Proof.
  intros -> H. unfold twilio_message. rewrite String.eqb_refl.
  apply existsb_exists. exists pushMessage. split; [exact H|apply String.eqb_refl].
Qed.

Section OpenHABDiscipline.
Import OpenHAB OpenHABBlocks.

Lemma partition_block_accounted (d : dscKeybusInterface) (b : Block) :
  In b all_partition_blocks ->
  accounted (fun f e => openhab_message f e = true) openhab_must (block_events d b).
Proof.
  intros Hb. unfold all_partition_blocks in Hb.
  apply in_flat_map in Hb. destruct Hb as [p [_ Hb]]. simpl in Hb.
  unfold block_events.
  destruct Hb as [<-|[<-|[<-|[<-|[]]]]]; cbn [fst snd];
    (destruct (changed _ d); [|exact Logic.I]);
    unfold armed_msg, exitDelay_msg, alarm_msg, fire_msg, published;
    repeat match goal with
           | |- context [if ?c then _ else _] => destruct c
           end;
    cbn [app accounted is_send openhab_must];
    try reflexivity;
    (split; [|exact Logic.I]);
    (apply openhab_message_intro;
     [reflexivity|cbn [openhab_payloads map In]; solve [repeat (first [left; reflexivity | right])]]).
Qed.

Lemma zone_block_accounted (d : dscKeybusInterface) (b : Block) :
  In b all_zone_blocks ->
  accounted (fun f e => openhab_message f e = true) openhab_must (block_events d b).
Proof.
  intros Hb. unfold all_zone_blocks, zone_blocks in Hb.
  apply in_flat_map in Hb. destruct Hb as [g [_ Hb]].
  apply in_map_iff in Hb. destruct Hb as [zb [<- _]].
  unfold block_events. cbn [fst snd].
  destruct (changed _ d); [|exact Logic.I].
  unfold zone_msg. cbn [app accounted is_send]. split; [|exact Logic.I].
  apply openhab_message_intro; [reflexivity|].
  cbn [openhab_payloads In]. destruct (Z.testbit _ _); solve [repeat (first [left; reflexivity | right])].
Qed.

Lemma status_events_accounted (accessCode : string) (d : dscKeybusInterface) :
  accounted (fun f e => openhab_message f e = true) openhab_must
    (status_events accessCode d).
Proof.
  unfold status_events.
  apply accounted_app.
  { destruct (accessCodePrompt d); [split; [reflexivity|exact Logic.I]|exact Logic.I]. }
  apply accounted_app;
    [apply accounted_flat_map; intros; apply partition_block_accounted; assumption|].
  apply accounted_app; [|split; [reflexivity|exact Logic.I]].
  destruct (openZonesStatusChanged d); [|exact Logic.I].
  apply accounted_flat_map; intros; apply zone_block_accounted; assumption.
Qed.

Lemma openhab_loop_accounted (accessCode : string) (w : World) :
  exists evs, trace (loopStatus accessCode w) = trace w ++ evs
              /\ accounted (fun f e => openhab_message f e = true) openhab_must evs.
Proof.
  destruct (statusChanged (dsc w)) eqn:Hs.
  - rewrite loopStatus_spec by exact Hs. eexists. split; [reflexivity|].
    apply status_events_accounted.
  - exists []. unfold loopStatus, when, ifelse, skip. rewrite Hs, app_nil_r.
    split; [reflexivity|exact Logic.I].
Qed.

End OpenHABDiscipline.

(** ** Rules of the program logic *)

Section HoareRules.

Variable I : dscKeybusInterface -> Prop.
Variable Q : list Ev -> Prop.
Hypothesis Q_nil : Q [].
Hypothesis Q_app : forall a b, Q a -> Q b -> Q (a ++ b).

Lemma hoare_skip : hoare I Q skip.
Proof.
  intros w Hw. split; [exact Hw|]. exists []. rewrite app_nil_r. split; [reflexivity|exact Q_nil].
Qed.

Lemma hoare_seq (s1 s2 : World -> World) :
  hoare I Q s1 -> hoare I Q s2 -> hoare I Q (s1 >>> s2).
Proof.
  intros H1 H2 w Hw. unfold andThen.
  destruct (H1 w Hw) as [Hi1 (e1 & E1 & Q1)].
  destruct (H2 (s1 w) Hi1) as [Hi2 (e2 & E2 & Q2)].
  split; [exact Hi2|]. exists (e1 ++ e2). split.
  - rewrite E2, E1, app_assoc. reflexivity.
  - apply Q_app; assumption.
Qed.

Lemma hoare_ifelse (c : dscKeybusInterface -> bool) (s1 s2 : World -> World) :
  hoare I Q s1 -> hoare I Q s2 -> hoare I Q (ifelse c s1 s2).
Proof.
  intros H1 H2 w Hw. unfold ifelse. destruct (c (dsc w)); [apply H1|apply H2]; exact Hw.
Qed.

Lemma hoare_when (c : dscKeybusInterface -> bool) (s : World -> World) :
  hoare I Q s -> hoare I Q (when c s).
Proof. intros H. apply hoare_ifelse; [exact H|apply hoare_skip]. Qed.

(** A branch that the invariant rules out need not be examined. *)
Lemma hoare_ifelse_true (c : dscKeybusInterface -> bool) (s1 s2 : World -> World) :
  (forall d, I d -> c d = true) -> hoare I Q s1 -> hoare I Q (ifelse c s1 s2).
Proof.
  intros Hc H1 w Hw. unfold ifelse. rewrite (Hc _ Hw). apply H1, Hw.
Qed.

Lemma hoare_forRange (n : nat) (body : nat -> World -> World) :
  (forall i, (i < n)%nat -> hoare I Q (body i)) -> hoare I Q (forRange n body).
Proof.
  intros H. unfold forRange.
  assert (Hl : forall i, In i (seq 0 n) -> hoare I Q (body i)).
  { intros i Hi. apply H. apply in_seq in Hi. lia. }
  clear H. revert Hl. generalize (seq 0 n). intros l.
  induction l as [|i l IH]; intros Hl w Hw; simpl.
  - apply hoare_skip, Hw.
  - destruct (Hl i (or_introl eq_refl) w Hw) as [Hi1 (e1 & E1 & Q1)].
    destruct (IH (fun j Hj => Hl j (or_intror Hj)) (body i w) Hi1) as [Hi2 (e2 & E2 & Q2)].
    split; [exact Hi2|]. exists (e1 ++ e2). split.
    + rewrite E2, E1, app_assoc. reflexivity.
    + apply Q_app; assumption.
Qed.

Lemma hoare_store (f : dscKeybusInterface -> dscKeybusInterface) :
  (forall d, I d -> I (f d)) -> hoare I Q (store f).
Proof.
  intros H w Hw. split; [apply H, Hw|]. exists []. simpl. rewrite app_nil_r.
  split; [reflexivity|exact Q_nil].
Qed.

Lemma one_message_ifelse (A : Ev -> Prop) (c : dscKeybusInterface -> bool)
    (s1 s2 : World -> World) :
  one_message I A s1 -> one_message I A s2 -> one_message I A (ifelse c s1 s2).
Proof.
  intros H1 H2 w Hw. unfold ifelse. destruct (c (dsc w)); [apply H1|apply H2]; exact Hw.
Qed.

(** A block: reset the flag, then send exactly one message of the fact. *)
Lemma hoare_block (f : Fact) (A : Ev -> Prop) (s : World -> World) :
  (forall d, I d -> I (clearFlag f d)) ->
  (forall e, A e -> Q [EvClear f; e]) ->
  one_message I A s -> hoare I Q (when (changed f) (reset f >>> s)).
Proof.
  intros Hc Hq Hs. apply hoare_when. intros w Hw. unfold andThen, reset, andThen.
  set (w1 := emit (EvClear f) (store (clearFlag f) w)).
  assert (Hw1 : I (dsc w1)) by (apply Hc, Hw).
  destruct (Hs w1 Hw1) as [Hi (e & Ha & E)].
  split; [exact Hi|]. exists [EvClear f; e]. split; [|apply Hq, Ha].
  rewrite E. unfold w1. simpl. rewrite <- app_assoc. reflexivity.
Qed.

End HoareRules.

(** ** The Twilio status pass in the program logic *)

Section TwilioLogic.

Variable dscLoop : dscKeybusInterface -> dscKeybusInterface.
Variable net : nat -> Twilio.PushEnv.
Variable uninitialised : nat -> string.

Variable I : dscKeybusInterface -> Prop.
Variable Q : list Ev -> Prop.
Hypothesis Q_nil : Q [].
Hypothesis Q_app : forall a b, Q a -> Q b -> Q (a ++ b).

(** The panel service and the summary flags keep the invariant. *)
Hypothesis I_dscLoop : forall d, I d -> I (dscLoop d).
Hypothesis I_bufferOverflow : forall d, I d -> I (set_bufferOverflow false d).
Hypothesis I_alarmZonesStatus : forall d, I d -> I (set_alarmZonesStatusChanged false d).
Hypothesis I_statusChanged : forall d, I d -> I (set_statusChanged false d).

Hypothesis global_facts : forall f, fact_partition f = None ->
  processable I (twilio_answer uninitialised) Q f.
Hypothesis partition_facts : forall q, (q < dscPartitions)%nat ->
  (forall d, I d -> disabled d !!! q = true) \/
  (forall f, fact_partition f = Some q -> processable I (twilio_answer uninitialised) Q f).

Lemma waitResponse_keeps (previousMillis : Z) (waits : list Z) (d : dscKeybusInterface) :
  I d -> I (snd (Twilio.waitResponse dscLoop previousMillis waits d)).
Proof.
  revert d. induction waits as [|t waits IH]; intros d Hd; simpl.
  - exact Hd.
  - destruct (3000 <? to_ulong (t - previousMillis)); simpl.
    + apply I_dscLoop, Hd.
    + apply IH, I_dscLoop, Hd.
Qed.

Lemma sendPush_trace (prefix pushMessage : string) (w : World) :
  trace (snd (Twilio.sendPush dscLoop net prefix pushMessage w))
  = trace w ++ [EvPush prefix pushMessage].
Proof.
  unfold Twilio.sendPush.
  destruct (Twilio.connects (net (pushCalls w))); simpl; [|reflexivity].
  destruct (Twilio.waitResponse _ _ _ _) as [arrived d]. simpl.
  destruct arrived; reflexivity.
Qed.

Lemma sendPush_keeps (prefix pushMessage : string) (w : World) :
  I (dsc w) -> I (dsc (snd (Twilio.sendPush dscLoop net prefix pushMessage w))).
Proof.
  intros Hw. unfold Twilio.sendPush.
  destruct (Twilio.connects (net (pushCalls w))); simpl; [|exact Hw].
  pose proof (waitResponse_keeps (Twilio.started (net (pushCalls w)))
                (Twilio.waits (net (pushCalls w))) (dsc w) Hw) as Hk.
  destruct (Twilio.waitResponse _ _ _ _) as [arrived d]. simpl in *.
  destruct arrived; exact Hk.
Qed.

Lemma push_one (A : Ev -> Prop) (prefix pushMessage : string) :
  A (EvPush prefix pushMessage) ->
  one_message I A (Twilio.push dscLoop net prefix pushMessage).
Proof.
  intros Ha w Hw. unfold Twilio.push. split; [apply sendPush_keeps, Hw|].
  exists (EvPush prefix pushMessage). split; [exact Ha|apply sendPush_trace].
Qed.

(** A push of one of the texts of the fact. *)
Lemma push_text (f : Fact) (prefix pushMessage : string) :
  prefix = twilio_prefix f -> In pushMessage (twilio_texts f) ->
  one_message I (twilio_answer uninitialised f)
    (Twilio.push dscLoop net prefix pushMessage).
Proof.
  intros Hp Hm. apply push_one. left. apply twilio_message_intro; assumption.
Qed.

Lemma twilio_armed_message (q : nat) :
  one_message I (twilio_answer uninitialised (FArmed q))
    (ifelse (fun d => armed d !!! q)
       (fun w : World =>
          let pushMessage :=
            if (armedAway (dsc w) !!! q : bool) then strcpy "armed away: partition "
            else if (armedStay (dsc w) !!! q : bool) then strcpy "armed stay: partition "
            else uninitialised (pushCalls w) in
          Twilio.push dscLoop net Twilio.PushMessagePrefix
            (Twilio.appendPartition q pushMessage) w)
       (Twilio.push dscLoop net Twilio.PushMessagePrefix
          (Twilio.appendPartition q "disarmed: partition "))).
Proof.
  apply one_message_ifelse.
  - intros w Hw. cbv beta zeta.
    destruct (armedAway (dsc w) !!! q : bool).
    { apply push_text; [reflexivity| |exact Hw].
      cbn [twilio_texts map In]. left. reflexivity. }
    destruct (armedStay (dsc w) !!! q : bool).
    { apply push_text; [reflexivity| |exact Hw].
      cbn [twilio_texts map In]. right. left. reflexivity. }
    apply push_one; [|exact Hw].
    right. exists q, (pushCalls w). split; reflexivity.
  - apply push_text; [reflexivity|].
    cbn [twilio_texts map In]. right. right. left. reflexivity.
Qed.

Lemma twilio_armed (q : nat) :
  processable I (twilio_answer uninitialised) Q (FArmed q) ->
  hoare I Q (Twilio.armedStatus dscLoop net uninitialised q).
Proof.
  intros [Hc Hq]. unfold Twilio.armedStatus.
  apply (hoare_block I Q Q_nil (FArmed q) (twilio_answer uninitialised (FArmed q)));
    [exact Hc|exact Hq|apply twilio_armed_message].
Qed.

Lemma twilio_alarm (q : nat) :
  processable I (twilio_answer uninitialised) Q (FAlarm q) ->
  hoare I Q (Twilio.alarmStatus dscLoop net q).
Proof.
  intros [Hc Hq]. unfold Twilio.alarmStatus.
  apply (hoare_block I Q Q_nil (FAlarm q) (twilio_answer uninitialised (FAlarm q)));
    [exact Hc|exact Hq|].
  apply one_message_ifelse; (apply push_text; [reflexivity|]);
    cbn [twilio_texts In]; [left|right; left]; reflexivity.
Qed.

Lemma twilio_fire (q : nat) :
  processable I (twilio_answer uninitialised) Q (FFire q) ->
  hoare I Q (Twilio.fireStatus dscLoop net q).
Proof.
  intros [Hc Hq]. unfold Twilio.fireStatus.
  apply (hoare_block I Q Q_nil (FFire q) (twilio_answer uninitialised (FFire q)));
    [exact Hc|exact Hq|].
  apply one_message_ifelse; (apply push_text; [reflexivity|]);
    cbn [twilio_texts In]; [left|right; left]; reflexivity.
Qed.

Lemma twilio_partition (q : nat) :
  (q < dscPartitions)%nat ->
  hoare I Q (Twilio.partitionStatus dscLoop net uninitialised q).
Proof.
  intros Hq. unfold Twilio.partitionStatus.
  destruct (partition_facts q Hq) as [Hdis|Hok].
  - apply hoare_ifelse_true; [exact Hdis|apply hoare_skip, Q_nil].
  - apply hoare_ifelse; [apply hoare_skip, Q_nil|].
    apply hoare_seq; [exact Q_app|apply twilio_armed, Hok; reflexivity|].
    apply hoare_seq; [exact Q_app|apply twilio_alarm, Hok; reflexivity|].
    apply twilio_fire, Hok; reflexivity.
Qed.

Lemma twilio_zone (g b : nat) : hoare I Q (Twilio.zoneStatus dscLoop net g b).
Proof.
  destruct (global_facts (FAlarmZone g b) eq_refl) as [Hc Hq].
  unfold Twilio.zoneStatus. cbv zeta.
  replace (Z.of_nat b + 1 + Z.of_nat g * 8) with (Z.of_nat g * 8 + Z.of_nat b + 1) by lia.
  apply (hoare_block I Q Q_nil (FAlarmZone g b)
           (twilio_answer uninitialised (FAlarmZone g b)));
    [exact Hc|exact Hq|].
  apply one_message_ifelse; (apply push_text; [reflexivity|]);
    cbn [twilio_texts map In]; [left|right; left]; reflexivity.
Qed.

(** The block of a fact that is reported with one of two fixed texts, or
    with one. *)
Lemma twilio_two_texts (f : Fact) (c : dscKeybusInterface -> bool) (yes no : string) :
  fact_partition f = None -> twilio_prefix f = Twilio.PushMessagePrefix ->
  twilio_texts f = [yes; no] ->
  hoare I Q (when (changed f)
               (reset f >>>
                ifelse c (Twilio.push dscLoop net Twilio.PushMessagePrefix yes)
                         (Twilio.push dscLoop net Twilio.PushMessagePrefix no))).
Proof.
  intros Hf Hp Ht. destruct (global_facts f Hf) as [Hc Hq].
  apply (hoare_block I Q Q_nil f (twilio_answer uninitialised f)); [exact Hc|exact Hq|].
  apply one_message_ifelse; (apply push_text; [symmetry; exact Hp|]);
    rewrite Ht; [left|right; left]; reflexivity.
Qed.

Lemma twilio_one_text (f : Fact) (only : string) :
  fact_partition f = None -> twilio_prefix f = Twilio.PushMessagePrefix ->
  twilio_texts f = [only] ->
  hoare I Q (when (changed f)
               (reset f >>> Twilio.push dscLoop net Twilio.PushMessagePrefix only)).
Proof.
  intros Hf Hp Ht. destruct (global_facts f Hf) as [Hc Hq].
  apply (hoare_block I Q Q_nil f (twilio_answer uninitialised f)); [exact Hc|exact Hq|].
  apply push_text; [symmetry; exact Hp|]. rewrite Ht. left. reflexivity.
Qed.

Lemma twilio_processStatus :
  hoare I Q (Twilio.processStatus dscLoop net uninitialised).
Proof.
  unfold Twilio.processStatus.
  apply hoare_seq; [exact Q_app| |].
  { apply hoare_when; [exact Q_nil|]. apply hoare_store; assumption. }
  apply hoare_seq; [exact Q_app| |].
  { unfold Twilio.keybusStatus. apply twilio_two_texts; reflexivity. }
  apply hoare_seq; [exact Q_app| |].
  { apply hoare_forRange; try assumption. intros q Hq. apply twilio_partition, Hq. }
  apply hoare_seq; [exact Q_app| |].
  { unfold Twilio.alarmZonesStatus. apply hoare_when; [exact Q_nil|].
    apply hoare_seq; [exact Q_app|apply hoare_store; assumption|].
    unfold Twilio.zoneScan.
    apply hoare_forRange; try assumption. intros g _.
    apply hoare_forRange; try assumption. intros b _. apply twilio_zone. }
  apply hoare_seq; [exact Q_app| |].
  { unfold Twilio.powerStatus. apply twilio_two_texts; reflexivity. }
  apply hoare_seq; [exact Q_app| |].
  { unfold Twilio.keypadFireStatus. apply twilio_one_text; reflexivity. }
  apply hoare_seq; [exact Q_app| |].
  { unfold Twilio.keypadAuxStatus. apply twilio_one_text; reflexivity. }
  unfold Twilio.keypadPanicStatus. apply twilio_one_text; reflexivity.
Qed.

Lemma twilio_loopStatus :
  hoare I Q (Twilio.loopStatus dscLoop net uninitialised).
Proof.
  unfold Twilio.loopStatus. apply hoare_when; [exact Q_nil|].
  apply hoare_seq; [exact Q_app|apply hoare_store; assumption; assumption|].
  apply twilio_processStatus.
Qed.

End TwilioLogic.

(** ** Each flag is reset at most once in a pass *)

Lemma resets_app (a b : list Ev) : resets (a ++ b) = resets a ++ resets b.
Proof. unfold resets. apply flat_map_app. Qed.

Lemma visits_weaken (order order' : list Fact) (s : World -> World) :
  order `sublist_of` order' -> visits order s -> visits order' s.
Proof.
  intros Hsub H w. destruct (H w) as (evs & E & S).
  exists evs. split; [exact E|]. etransitivity; eassumption.
Qed.

Lemma visits_skip : visits [] skip.
Proof. intros w. exists []. rewrite app_nil_r. split; reflexivity. Qed.

Lemma visits_store (f : dscKeybusInterface -> dscKeybusInterface) : visits [] (store f).
Proof. intros w. exists []. simpl. rewrite app_nil_r. split; reflexivity. Qed.

Lemma visits_emit (e : Ev) : (forall f, e <> EvClear f) -> visits [] (emit e).
Proof.
  intros H w. exists [e]. split; [reflexivity|].
  destruct e; try reflexivity. exfalso. apply (H f). reflexivity.
Qed.

Lemma visits_seq (o1 o2 : list Fact) (s1 s2 : World -> World) :
  visits o1 s1 -> visits o2 s2 -> visits (o1 ++ o2) (s1 >>> s2).
Proof.
  intros H1 H2 w. unfold andThen.
  destruct (H1 w) as (e1 & E1 & S1). destruct (H2 (s1 w)) as (e2 & E2 & S2).
  exists (e1 ++ e2). split.
  - rewrite E2, E1, app_assoc. reflexivity.
  - rewrite resets_app. apply sublist_app; assumption.
Qed.

(** Statements that reset nothing can be put in sequence freely. *)
Lemma visits_seq_quiet_l (o : list Fact) (s1 s2 : World -> World) :
  visits [] s1 -> visits o s2 -> visits o (s1 >>> s2).
Proof. intros H1 H2. apply (visits_seq [] o); assumption. Qed.

Lemma visits_ifelse (o : list Fact) (c : dscKeybusInterface -> bool)
    (s1 s2 : World -> World) :
  visits o s1 -> visits o s2 -> visits o (ifelse c s1 s2).
Proof.
  intros H1 H2 w. unfold ifelse. destruct (c (dsc w)); [apply H1|apply H2].
Qed.

Lemma visits_when (o : list Fact) (c : dscKeybusInterface -> bool) (s : World -> World) :
  visits o s -> visits o (when c s).
Proof.
  intros H. apply visits_ifelse; [exact H|].
  apply (visits_weaken []); [apply sublist_nil_l|apply visits_skip].
Qed.

Lemma visits_forRange (n : nat) (order : nat -> list Fact) (body : nat -> World -> World) :
  (forall i, visits (order i) (body i)) ->
  visits (flat_map order (seq 0 n)) (forRange n body).
Proof.
  intros H. unfold forRange. generalize (seq 0 n). intros l.
  induction l as [|i l IH]; intros w; simpl.
  - exists []. rewrite app_nil_r. split; reflexivity.
  - destruct (H i w) as (e1 & E1 & S1). destruct (IH (body i w)) as (e2 & E2 & S2).
    exists (e1 ++ e2). split.
    + rewrite E2, E1, app_assoc. reflexivity.
    + rewrite resets_app. apply sublist_app; assumption.
Qed.

(** A block resets its own flag, once, when its body resets nothing. *)
Lemma visits_block (f : Fact) (s : World -> World) :
  visits [] s -> visits [f] (when (changed f) (reset f >>> s)).
Proof.
  intros H. apply visits_when. unfold reset.
  apply (visits_seq [f] []); [|exact H].
  apply (visits_seq [] [f]); [apply visits_store|].
  intros w. exists [EvClear f]. split; reflexivity.
Qed.

Lemma visits_publishState (sourceTopic : string) (p : nat) (sourceSuffix : string) :
  visits [] (OpenHAB.publishState sourceTopic p sourceSuffix).
Proof. apply visits_emit. intros; discriminate. Qed.

Lemma visits_publish (topic payload : string) (retained : bool) :
  visits [] (OpenHAB.publish topic payload retained).
Proof. apply visits_emit. intros; discriminate. Qed.

Lemma visits_openhab (accessCode : string) :
  visits openhab_order (OpenHAB.loopStatus accessCode).
Proof.
  unfold OpenHAB.loopStatus. apply visits_when.
  apply visits_seq_quiet_l; [apply visits_store|].
  unfold OpenHAB.processStatus.
  apply visits_seq_quiet_l; [apply visits_when, visits_store|].
  apply visits_seq_quiet_l.
  { apply visits_when. apply (visits_seq [] []); [apply visits_store|].
    apply visits_emit. intros; discriminate. }
  unfold openhab_order. apply visits_seq.
  { apply visits_forRange. intros p. unfold OpenHAB.partitionStatus.
    apply (visits_seq [FArmed p] [FExitDelay p; FAlarm p; FFire p]).
    { apply visits_block. apply visits_ifelse; [|apply visits_publishState].
      apply visits_ifelse; [apply visits_publishState|].
      apply visits_when, visits_publishState. }
    apply (visits_seq [FExitDelay p] [FAlarm p; FFire p]).
    { apply visits_block. apply visits_ifelse; [apply visits_publishState|].
      apply visits_when, visits_publishState. }
    apply (visits_seq [FAlarm p] [FFire p]).
    { apply visits_block. apply visits_when, visits_publishState. }
    apply visits_block. apply visits_ifelse; apply visits_publishState. }
  rewrite <- (app_nil_r (flat_map _ (seq 0 dscZones))).
  apply visits_seq; [|apply visits_emit; intros; discriminate].
  unfold OpenHAB.openZonesStatus. apply visits_when.
  apply visits_seq_quiet_l; [apply visits_store|].
  unfold OpenHAB.zoneScan. apply visits_forRange. intros g.
  rewrite <- flat_map_single. apply visits_forRange. intros b.
  unfold OpenHAB.zoneStatus. apply visits_block.
  apply visits_ifelse; apply visits_publish.
Qed.

Lemma visits_push (dscLoop : dscKeybusInterface -> dscKeybusInterface)
    (net : nat -> Twilio.PushEnv) (prefix pushMessage : string) :
  visits [] (Twilio.push dscLoop net prefix pushMessage).
Proof.
  intros w. exists [EvPush prefix pushMessage]. split; [|reflexivity].
  unfold Twilio.push, Twilio.sendPush.
  destruct (Twilio.connects (net (pushCalls w))); simpl; [|reflexivity].
  destruct (Twilio.waitResponse _ _ _ _) as [arrived d]. simpl.
  destruct arrived; reflexivity.
Qed.

Lemma visits_twilio (dscLoop : dscKeybusInterface -> dscKeybusInterface)
    (net : nat -> Twilio.PushEnv) (uninitialised : nat -> string) :
  visits twilio_order (Twilio.loopStatus dscLoop net uninitialised).
Proof.
  unfold Twilio.loopStatus. apply visits_when.
  apply visits_seq_quiet_l; [apply visits_store|].
  unfold Twilio.processStatus.
  apply visits_seq_quiet_l; [apply visits_when, visits_store|].
  unfold twilio_order. apply visits_seq.
  { unfold Twilio.keybusStatus. apply visits_block.
    apply visits_ifelse; apply visits_push. }
  apply visits_seq.
  { apply visits_forRange. intros p. unfold Twilio.partitionStatus.
    apply visits_ifelse.
    { apply (visits_weaken []); [apply sublist_nil_l|apply visits_skip]. }
    apply (visits_seq [FArmed p] [FAlarm p; FFire p]).
    { unfold Twilio.armedStatus. apply visits_block.
      apply visits_ifelse; [|apply visits_push].
      intros w. apply visits_push. }
    apply (visits_seq [FAlarm p] [FFire p]).
    { unfold Twilio.alarmStatus. apply visits_block.
      apply visits_ifelse; apply visits_push. }
    unfold Twilio.fireStatus. apply visits_block.
    apply visits_ifelse; apply visits_push. }
  apply visits_seq.
  { unfold Twilio.alarmZonesStatus. apply visits_when.
    apply visits_seq_quiet_l; [apply visits_store|].
    unfold Twilio.zoneScan. apply visits_forRange. intros g.
    rewrite <- flat_map_single. apply visits_forRange. intros b.
    unfold Twilio.zoneStatus. apply visits_block.
    apply visits_ifelse; apply visits_push. }
  apply (visits_seq [FPower] [FKeypadFire; FKeypadAux; FKeypadPanic]).
  { unfold Twilio.powerStatus. apply visits_block.
    apply visits_ifelse; apply visits_push. }
  apply (visits_seq [FKeypadFire] [FKeypadAux; FKeypadPanic]).
  { unfold Twilio.keypadFireStatus. apply visits_block, visits_push. }
  apply (visits_seq [FKeypadAux] [FKeypadPanic]).
  { unfold Twilio.keypadAuxStatus. apply visits_block, visits_push. }
  unfold Twilio.keypadPanicStatus. apply visits_block, visits_push.
Qed.

Lemma openhab_order_nodup : NoDup openhab_order.
Proof. apply (bool_decide_unpack _). vm_compute. exact I. Qed.

Lemma twilio_order_nodup : NoDup twilio_order.
Proof. apply (bool_decide_unpack _). vm_compute. exact I. Qed.

(** ** Flag bookkeeping of the two status passes *)

Lemma visits_nodup (order : list Fact) (s : World -> World) (w : World) (evs : list Ev) :
  NoDup order -> visits order s -> trace (s w) = trace w ++ evs -> NoDup (resets evs).
Proof.
  intros Hnd Hv E. destruct (Hv w) as (evs' & E' & S).
  rewrite E in E'. apply app_inv_head in E'. subst evs'.
  apply (sublist_NoDup _ order); assumption.
Qed.

(** C1, as the code has it: in a pass of either sketch every outbound
    message directly follows the reset of a status flag and is a message of
    the fact of that flag (its topic and one of its payloads, or one of its
    SMS texts), at most one message follows each reset, and no flag is reset
    twice.  In the OpenHAB sketch the fire and zone flags are always
    followed by their message, while the armed, exit-delay and alarm flags
    are also reset when nothing is published for them.  In the Twilio sketch
    (1.2) every reset is followed by a push; the push is a message of the
    fact except for the armed flag of a partition that is armed with neither
    the away nor the stay mode: then, and only then, the text pushed is what
    the unset array holds, followed by the partition number. *)
Theorem flag_reset_precedes_every_message :
  (forall accessCode w, exists evs,
      trace (OpenHAB.loopStatus accessCode w) = trace w ++ evs
      /\ accounted (fun f e => openhab_message f e = true) openhab_must evs
      /\ NoDup (resets evs))
  /\ (forall dscLoop net uninitialised w, exists evs,
      trace (Twilio.loopStatus dscLoop net uninitialised w) = trace w ++ evs
      /\ accounted (twilio_answer uninitialised) always_must evs
      /\ NoDup (resets evs))
  /\ (forall dscLoop net uninitialised p w,
      changed (FArmed p) (dsc w) = true ->
      exists pushMessage,
        trace (Twilio.armedStatus dscLoop net uninitialised p w)
        = trace w ++ [EvClear (FArmed p); EvPush Twilio.PushMessagePrefix pushMessage]
        /\ if armed_without_mode p (dsc w)
           then pushMessage = (uninitialised (pushCalls w) ++ partition_number p)%string
           else twilio_message (FArmed p)
                  (EvPush Twilio.PushMessagePrefix pushMessage) = true).
Proof.
  split; [|split].
  - intros accessCode w.
    destruct (openhab_loop_accounted accessCode w) as (evs & E & D).
    exists evs. split; [exact E|]. split; [exact D|].
    apply (visits_nodup openhab_order (OpenHAB.loopStatus accessCode) w);
      [apply openhab_order_nodup|apply visits_openhab|exact E].
  - intros dscLoop net uninitialised w.
    assert (H : hoare (fun _ => True)
                  (fun evs => accounted (twilio_answer uninitialised) always_must evs)
                  (Twilio.loopStatus dscLoop net uninitialised)).
    { apply twilio_loopStatus; try (intros; exact Logic.I).
      - intros a b. apply accounted_app.
      - intros f _. split; [intros; exact Logic.I|].
        intros e He. assert (Hs : is_send e = true).
        { destruct He as [He|(q & n & _ & ->)]; [|reflexivity].
          destruct e; try discriminate He; reflexivity. }
        cbn [accounted]. rewrite Hs. split; [exact He|exact Logic.I].
      - intros q _. right. intros f _. split; [intros; exact Logic.I|].
        intros e He. assert (Hs : is_send e = true).
        { destruct He as [He|(q' & n & _ & ->)]; [|reflexivity].
          destruct e; try discriminate He; reflexivity. }
        cbn [accounted]. rewrite Hs. split; [exact He|exact Logic.I]. }
    destruct (H w Logic.I) as [_ (evs & E & D)].
    exists evs. split; [exact E|]. split; [exact D|].
    apply (visits_nodup twilio_order (Twilio.loopStatus dscLoop net uninitialised) w);
      [apply twilio_order_nodup|apply visits_twilio|exact E].
  - intros dscLoop net uninitialised p w Hc.
    unfold Twilio.armedStatus, when, ifelse. rewrite Hc.
    unfold andThen, reset, andThen.
    set (w1 := emit (EvClear (FArmed p)) (store (clearFlag (FArmed p)) w)).
    assert (Et : forall prefix pushMessage,
               trace (Twilio.push dscLoop net prefix pushMessage w1)
               = trace w ++ [EvClear (FArmed p); EvPush prefix pushMessage]).
    { intros prefix pushMessage. unfold Twilio.push. rewrite sendPush_trace.
      unfold w1. simpl. rewrite <- app_assoc. reflexivity. }
    change (armed (dsc w1)) with (armed (dsc w)).
    change (armedAway (dsc w1)) with (armedAway (dsc w)).
    change (armedStay (dsc w1)) with (armedStay (dsc w)).
    change (pushCalls w1) with (pushCalls w).
    unfold armed_without_mode.
    destruct (armed (dsc w) !!! p : bool); cbn [andb negb].
    + destruct (armedAway (dsc w) !!! p : bool); cbn [andb negb].
      { eexists. split; [apply Et|].
        apply twilio_message_intro; [reflexivity|].
        cbn [twilio_texts map In]. left. reflexivity. }
      destruct (armedStay (dsc w) !!! p : bool); cbn [andb negb].
      { eexists. split; [apply Et|].
        apply twilio_message_intro; [reflexivity|].
        cbn [twilio_texts map In]. right. left. reflexivity. }
      eexists. split; [apply Et|reflexivity].
    + eexists. split; [apply Et|].
      apply twilio_message_intro; [reflexivity|].
      cbn [twilio_texts map In]. right. right. left. reflexivity.
Qed.

(** C1 as stated fails: with the alarm of partition 1 restored, the
    OpenHAB pass resets the alarm flag and publishes nothing for it. *)
Lemma alarm_flag_reset_without_message :
  changed (FAlarm 0) alarm_restored_1 = true
  /\ alarm alarm_restored_1 !!! 0%nat = false
  /\ changed (FAlarm 0) (dsc (OpenHAB.loopStatus "1234" (fresh alarm_restored_1))) = false
  /\ trace (OpenHAB.loopStatus "1234" (fresh alarm_restored_1))
     = [EvClear (FAlarm 0); EvSubscribe "dsc/Set"]
  /\ disciplined always_must
       (trace (OpenHAB.loopStatus "1234" (fresh alarm_restored_1))) = false.
Proof. vm_compute. repeat split; reflexivity. Qed.

(** Partition 1 is armed with neither mode and the array holds the text
    of an earlier fire message: that text goes out for the armed flag. *)
Lemma flag_reset_precedes_every_message_witness :
  exists pushMessage,
    trace (Twilio.armedStatus (fun d => d) (fun _ => offline)
             (fun _ => "fire alarm: Partition "%string) 0 (fresh armed_no_mode_1))
    = [EvClear (FArmed 0); EvPush "Security system " pushMessage]
    /\ pushMessage = "fire alarm: Partition 1"%string.
Proof.
  exact (proj2 (proj2 flag_reset_precedes_every_message) (fun d => d) (fun _ => offline)
           (fun _ => "fire alarm: Partition "%string) 0%nat (fresh armed_no_mode_1) eq_refl).
Defined.

(** That push is not a message of the armed fact of partition 1. *)
Example unset_array_is_pushed :
  trace (Twilio.loopStatus (fun d => d) (fun _ => offline)
           (fun _ => "fire alarm: Partition "%string) (fresh armed_no_mode_1))
  = [EvClear (FArmed 0); EvPush "Security system " "fire alarm: Partition 1"]
  /\ twilio_message (FArmed 0) (EvPush "Security system " "fire alarm: Partition 1") = false.
Proof. vm_compute. split; reflexivity. Qed.

(** ** Disabled partitions *)




(** The pass of that witness: partition 1 is passed over, the flags that
    the library raised meanwhile for the partitions 2 to 8 are consumed. *)
Example disabled_partition_is_passed_over :
  push_texts
    (trace (Twilio.loopStatus raises_armed_flags
              (fun _ => answers "HTTP/1.1 200 OK") (fun _ => ""%string)
              (fresh disabled_1_keybus)))
  = ["connected"; "disarmed: partition 2"; "disarmed: partition 3";
     "disarmed: partition 4"; "disarmed: partition 5"; "disarmed: partition 6";
     "disarmed: partition 7"; "disarmed: partition 8"]%string.
Proof. vm_compute. reflexivity. Qed.

(** Without the condition on the library the whole-pass part fails: when
    the library enables partition 1 while the push for the Keybus state
    waits, the pass resets its armed flag and sends its message although the
    partition was disabled when the pass began. *)
Example partition_enabled_during_push :
  disabled disabled_1_keybus !!! 0%nat = true
  /\ trace (Twilio.loopStatus enables_all (fun _ => answers "HTTP/1.1 200 OK")
              (fun _ => ""%string) (fresh disabled_1_keybus))
     = [EvClear FKeybus; EvPush "Security system " "connected";
        EvClear (FArmed 0); EvPush "Security system " "disarmed: partition 1"].
Proof. vm_compute. split; reflexivity. Qed.


(** ** The result of a push *)

Lemma int_of_char_range (c : ascii) : 0 <= Twilio.int_of_char c < 256.
Proof.
  unfold Twilio.int_of_char. pose proof (nat_ascii_bounded c). lia.
Qed.

Lemma int_of_char_eq (c c' : ascii) :
  Twilio.int_of_char c = Twilio.int_of_char c' -> c = c'.
Proof.
  unfold Twilio.int_of_char. intros H. apply Nat2Z.inj in H.
  rewrite <- (ascii_nat_embedding c), <- (ascii_nat_embedding c'), H. reflexivity.
Qed.

Lemma int_of_char_eqb (c c' : ascii) :
  (Twilio.int_of_char c =? Twilio.int_of_char c') = true <-> c = c'.
Proof.
  rewrite Z.eqb_eq. split; [apply int_of_char_eq|intros ->; reflexivity].
Qed.

Lemma index_space_cons (c : ascii) (rest : string) :
  String.index 0 " " (String c rest)
  = if ascii_dec " " c then Some 0%nat
    else match String.index 0 " " rest with
         | Some n => Some (S n)
         | None => None
         end.
Proof.
  change (String.index 0 " " (String c rest))
    with (if String.prefix " " (String c rest) then Some 0%nat
          else match String.index 0 " " rest with
               | Some n => Some (S n)
               | None => None
               end).
  change (String.prefix " " (String c rest))
    with (if ascii_dec " " c then String.prefix "" rest else false).
  destruct (ascii_dec " " c); [|reflexivity].
  destruct rest; reflexivity.
Qed.

Lemma status_digit_cons (c : ascii) (rest : string) :
  status_digit (String c rest)
  = if Twilio.int_of_char c =? 32 then String.get 0 rest else status_digit rest.
Proof.
  unfold status_digit. rewrite index_space_cons.
  destruct (ascii_dec " " c) as [<-|Hne].
  - reflexivity.
  - destruct (Twilio.int_of_char c =? 32) eqn:E.
    + exfalso. apply Hne. symmetry. apply (int_of_char_eqb c " "). exact E.
    + destruct (index 0 " " rest); reflexivity.
Qed.

Lemma statusIsSuccess_digit (buffer : string) :
  Twilio.statusIsSuccess buffer = true <-> status_digit buffer = Some "2"%char.
Proof.
  unfold Twilio.statusIsSuccess.
  induction buffer as [|c rest IH].
  - simpl. split; discriminate.
  - rewrite status_digit_cons. simpl.
    destruct (Twilio.int_of_char c =? 32); [|exact IH].
    destruct rest as [|d rest']; simpl.
    + split; discriminate.
    + unfold to_byte. rewrite Z.mod_small by apply int_of_char_range.
      rewrite (int_of_char_eqb d "2"). split; [intros ->; reflexivity|congruence].
Qed.

Lemma waitResponse_arrived (dscLoop : dscKeybusInterface -> dscKeybusInterface)
    (previousMillis : Z) (waits : list Z) (d : dscKeybusInterface) :
  fst (Twilio.waitResponse dscLoop previousMillis waits d) = true
  <-> Forall (fun t => to_ulong (t - previousMillis) <= 3000) waits.
Proof.
  revert d. induction waits as [|t waits IH]; intros d; simpl.
  - split; [constructor|reflexivity].
  - destruct (Z.ltb_spec 3000 (to_ulong (t - previousMillis))); simpl.
    + split; [discriminate|]. intros H'. inversion H'; subst. lia.
    + rewrite IH. split.
      * intros H'. constructor; assumption.
      * intros H'. inversion H'; subst. assumption.
Qed.

(** C3: [sendPush] returns true exactly when the connection is made, a
    response byte is there before the wait loop sees more than 3000 ms on the
    clock, and the character after the first space of the response is '2'. *)
Theorem sendPush_delivered_iff
    (dscLoop : dscKeybusInterface -> dscKeybusInterface)
    (net : nat -> Twilio.PushEnv) (prefix pushMessage : string) (w : World) :
  let env := net (pushCalls w) in
  fst (Twilio.sendPush dscLoop net prefix pushMessage w) = true
  <-> Twilio.connects env = true
      /\ answered_in_time env
      /\ status_digit (Twilio.response env) = Some "2"%char.
Proof.
  intros env. unfold Twilio.sendPush, answered_in_time. fold env.
  destruct (Twilio.connects env); simpl.
  - pose proof (waitResponse_arrived dscLoop (Twilio.started env) (Twilio.waits env)
                  (dsc w)) as Hw.
    destruct (Twilio.waitResponse _ _ _ _) as [arrived d]. simpl in Hw.
    destruct arrived; simpl.
    + rewrite statusIsSuccess_digit. intuition.
    + split; [discriminate|]. intros (_ & Ht & _). apply Hw in Ht. discriminate.
  - split; [discriminate|]. intros (Hc & _). discriminate.
Qed.

(** The status lines named in the specification. *)
Example sendPush_status_lines :
  let send env := fst (Twilio.sendPush (fun d => d) (fun _ => env)
                         "Security system " "initializing" (fresh idle)) in
  send (answers "HTTP/1.1 200 OK") = true
  /\ send (answers "HTTP/1.1 201 Created") = true
  /\ send (answers "HTTP/1.1 404 Not Found") = false
  /\ send (answers "HTTP/1.1 500 Error") = false
  /\ send silent = false
  /\ send offline = false.
Proof. vm_compute. repeat split; reflexivity. Qed.

(** ** Strings *)

Lemma string_app_assoc (a b c : string) : ((a ++ b) ++ c = a ++ (b ++ c))%string.
Proof. induction a as [|x a IH]; simpl; [|rewrite IH]; reflexivity. Qed.

Lemma strlen_app (a b : string) : strlen (a ++ b) = strlen a + strlen b.
Proof.
  unfold strlen. induction a as [|x a IH]; simpl String.length.
  - reflexivity.
  - rewrite !Nat2Z.inj_succ. lia.
Qed.

Lemma strlen_nonneg (a : string) : 0 <= strlen a.
Proof. unfold strlen. lia. Qed.

Lemma itoa_digits_nonempty (fuel : nat) (n : Z) (acc : string) :
  1 <= strlen (itoa_digits fuel n acc).
Proof.
  revert n acc. induction fuel as [|fuel IH]; intros n acc; simpl.
  - unfold strlen. simpl String.length. lia.
  - destruct (n / 10 =? 0); [|apply IH].
    unfold strlen. simpl String.length. lia.
Qed.

Lemma itoa_nonempty (value : Z) : 1 <= strlen (itoa value).
Proof.
  unfold itoa. destruct (value <? 0).
  - pose proof (itoa_digits_nonempty 9 (- value) "").
    unfold strlen in *. simpl String.length. lia.
  - apply itoa_digits_nonempty.
Qed.

(** ** The HTTP request *)

(** C8 is not met by the code: the number sent as Content-Length is one
    more than the length of the body To=+<to>&From=+<from>&Body=<prefix><message>
    and one less than the number of bytes written after the empty line,
    which end with the line end added by [println]. *)
Theorem content_length_off_by_one
    (AccountSID Base64EncodedAuth From To prefix pushMessage : string) :
  let body := ("To=+" ++ To ++ "&From=+" ++ From ++ "&Body=" ++ prefix ++ pushMessage)%string in
  let n := Twilio.contentLength From To prefix pushMessage in
  Twilio.request AccountSID Base64EncodedAuth From To prefix pushMessage
  = ("POST https://api.twilio.com/2010-04-01/Accounts/" ++ AccountSID
     ++ "/Messages.json HTTP/1.1" ++ CRLF
     ++ "Authorization: Basic " ++ Base64EncodedAuth ++ CRLF
     ++ "Host: api.twilio.com" ++ CRLF
     ++ "User-Agent: ESP8266" ++ CRLF
     ++ "Accept: */*" ++ CRLF
     ++ "Content-Type: application/x-www-form-urlencoded" ++ CRLF
     ++ "Content-Length: " ++ itoa n ++ CRLF
     ++ "Connection: Close" ++ CRLF
     ++ CRLF
     ++ body ++ CRLF)%string
  /\ n = to_ulong (strlen body + 1)
  /\ strlen (body ++ CRLF) = strlen body + 2
  /\ n <> strlen body
  /\ n <> strlen (body ++ CRLF)
  /\ Twilio.contentLength "16041234567" "16047654321" "Security system " "initializing" = 68
  /\ strlen "To=+16047654321&From=+16041234567&Body=Security system initializing" = 67.
Proof.
  intros body n.
  assert (Hlen : strlen body
                 = strlen To + strlen From + strlen prefix + strlen pushMessage + 17).
  { unfold body. rewrite !strlen_app. unfold strlen at 1 3 5. simpl String.length. lia. }
  assert (Hn : n = to_ulong (strlen body + 1)).
  { unfold n, Twilio.contentLength. rewrite Hlen. f_equal. lia. }
  assert (Hcr : strlen (body ++ CRLF) = strlen body + 2).
  { rewrite strlen_app. reflexivity. }
  split.
  { unfold Twilio.request, Twilio.requestBody, Twilio.requestHead,
      Twilio.println, Twilio.print. fold n. unfold body, CRLF.
    rewrite !string_app_assoc. reflexivity. }
  split; [exact Hn|]. split; [exact Hcr|].
  pose proof (strlen_nonneg To). pose proof (strlen_nonneg From).
  pose proof (strlen_nonneg prefix). pose proof (strlen_nonneg pushMessage).
  split; [|split; [|split; reflexivity]].
  - rewrite Hn. unfold to_ulong. intros E.
    pose proof (Z.mod_pos_bound (strlen body + 1) (2 ^ 32) eq_refl) as Hb.
    pose proof (Z_div_mod_eq_full (strlen body + 1) (2 ^ 32)) as Hd.
    assert (0 <= (strlen body + 1) / 2 ^ 32) by (apply Z.div_pos; lia).
    assert ((strlen body + 1) / 2 ^ 32 = 0 \/ 1 <= (strlen body + 1) / 2 ^ 32) by lia.
    lia.
  - rewrite Hn, Hcr. unfold to_ulong. intros E.
    pose proof (Z.mod_pos_bound (strlen body + 1) (2 ^ 32) eq_refl) as Hb.
    pose proof (Z_div_mod_eq_full (strlen body + 1) (2 ^ 32)) as Hd.
    assert (0 <= (strlen body + 1) / 2 ^ 32) by (apply Z.div_pos; lia).
    lia.
Qed.

(** ** Inbound commands *)

(** C9: a first payload byte from '1' to '8' selects that partition and
    the second byte is the command; otherwise partition 1 is selected and the
    first byte is the command.  On command 'D' the access code is written to
    the panel, once, with the write partition set to the selected partition,
    exactly when that partition is armed or in exit delay at that moment; in
    every other case the access code is not written. *)
Theorem mqttCallback_disarm_writes_access_code
    (accessCode : string) (payload : list Z) (w : World) :
  let first := nth 0 payload 0 in
  let numbered := (0x31 <=? first) && (first <=? 0x38) in
  let N := if numbered then first - 48 else 1 in
  let command := if numbered then nth 1 payload 0 else first in
  let p := Z.to_nat (N - 1) in
  let active := (armed (dsc w) !!! p) || (exitDelay (dsc w) !!! p) in
  let w' := OpenHAB.mqttCallback accessCode payload w in
  (1 <= N <= 8)
  /\ (command = 68 -> active = true ->
      trace w' = trace w ++ [EvWrite accessCode] /\ writePartition (dsc w') = N)
  /\ (command = 68 -> active = false -> w' = w)
  /\ (command <> 68 ->
      exists evs, trace w' = trace w ++ evs
                  /\ (evs = [] \/ evs = [EvWriteKey "s"] \/ evs = [EvWriteKey "w"])).
Proof.
  intros first numbered N command p active w'.
  assert (HN : 1 <= N <= 8).
  { unfold N, numbered. destruct (Z.leb_spec 0x31 first), (Z.leb_spec first 0x38);
      simpl; lia. }
  assert (Hsel : w' =
            if (command =? 83) && negb (armed (dsc w) !!! p) && negb (exitDelay (dsc w) !!! p)
            then emit (EvWriteKey "s") (store (set_writePartition N) w)
            else if (command =? 65) && negb (armed (dsc w) !!! p)
                    && negb (exitDelay (dsc w) !!! p)
            then emit (EvWriteKey "w") (store (set_writePartition N) w)
            else if (command =? 68) && active
            then emit (EvWrite accessCode) (store (set_writePartition N) w)
            else w).
  { unfold w', OpenHAB.mqttCallback, active, command, p, N. fold first. fold numbered.
    destruct numbered eqn:En.
    - unfold numbered in En. apply andb_true_iff in En. destruct En as [E1 E2].
      apply Z.leb_le in E1. apply Z.leb_le in E2.
      assert (Hp : Z.to_nat (to_byte (first - 49)) = Z.to_nat (first - 48 - 1)).
      { unfold to_byte. rewrite Z.mod_small by lia. f_equal. lia. }
      assert (Hw : to_byte (Z.of_nat (Z.to_nat (first - 48 - 1)) + 1) = first - 48).
      { unfold to_byte. rewrite Z2Nat.id by lia. rewrite Z.mod_small by lia. lia. }
      rewrite Hp, Hw. reflexivity.
    - reflexivity. }
  split; [exact HN|].
  split; [|split].
  - intros Hc Ha. rewrite Hsel, Hc, Ha. simpl. split; reflexivity.
  - intros Hc Ha. rewrite Hsel, Hc, Ha. reflexivity.
  - intros Hc. rewrite Hsel.
    destruct (Z.eqb_spec command 68) as [E|_]; [contradiction|].
    destruct ((command =? 83) && _ && _).
    + exists [EvWriteKey "s"]. split; [reflexivity|auto].
    + destruct ((command =? 65) && _ && _).
      * exists [EvWriteKey "w"]. split; [reflexivity|auto].
      * exists []. simpl. rewrite app_nil_r. split; [reflexivity|auto].
Qed.

(** The command "2D" while partition 2 is armed, and while it is not. *)
Example mqttCallback_disarm_examples :
  trace (OpenHAB.mqttCallback "1234" [50; 68] (fresh armed_2)) = [EvWrite "1234"]
  /\ writePartition (dsc (OpenHAB.mqttCallback "1234" [50; 68] (fresh armed_2))) = 2
  /\ trace (OpenHAB.mqttCallback "1234" [50; 68] (fresh idle)) = []
  /\ trace (OpenHAB.mqttCallback "1234" [68] (fresh armed_2)) = []
  /\ trace (OpenHAB.mqttCallback "1234" [50; 65] (fresh idle)) = [EvWriteKey "w"].
Proof. vm_compute. repeat split; reflexivity. Qed.

(** ** Destination buffers *)

(** C10 is not met by the code: the partition topic buffer of
    [strlen(sourceTopic) + 1] bytes is one byte short for the topic, one
    digit and the terminator, so [publishState] writes past its end for every
    partition (the payload buffer of [strlen(sourceSuffix) + 1] bytes is one
    byte short as well); the zone topic buffer of [strlen(mqttZoneTopic) + 2]
    bytes holds the zones 1 to 9 and is one byte short for the zones 10 to
    64. *)
Theorem topic_buffers_too_small :
  (forall sourceTopic partition sourceSuffix,
      OpenHAB.Buffers.publishState sourceTopic partition sourceSuffix = None)
  /\ map (fun zone => match OpenHAB.Buffers.zoneTopic (zone / 8) (zone mod 8) with
                      | Some _ => true
                      | None => false
                      end) (seq 0 64)
     = replicate 9 true ++ replicate 55 false
  /\ OpenHAB.Buffers.publishState OpenHAB.mqttPartitionTopic 0 "A" = None
  /\ OpenHAB.Buffers.zoneTopic 7 7 = None
  /\ OpenHAB.Buffers.zoneTopic 1 1 = None
  /\ OpenHAB.Buffers.zoneTopic 0 4 = Some "dsc/Get/Zone5"%string.
Proof.
  split; [|vm_compute; repeat split; reflexivity].
  intros sourceTopic partition sourceSuffix.
  unfold OpenHAB.Buffers.publishState, OpenHAB.Buffers.itoa_into,
    OpenHAB.Buffers.strcpy_into, OpenHAB.Buffers.strcat_into, OpenHAB.Buffers.fill,
    OpenHAB.Buffers.alloc, OpenHAB.Buffers.footprint, strcpy, strcat.
  cbn [OpenHAB.Buffers.capacity OpenHAB.Buffers.text].
  destruct (strlen (itoa (Z.of_nat partition + 1)) + 1 <=? 2); [|reflexivity].
  cbn [mbind option_bind OpenHAB.Buffers.capacity OpenHAB.Buffers.text].
  rewrite Z.leb_refl.
  cbn [mbind option_bind OpenHAB.Buffers.capacity OpenHAB.Buffers.text].
  rewrite strlen_app.
  pose proof (itoa_nonempty (Z.of_nat partition + 1)) as Hi.
  destruct (Z.leb_spec (strlen sourceTopic + strlen (itoa (Z.of_nat partition + 1)) + 1)
              (strlen sourceTopic + 1)) as [Hle|_]; [lia|reflexivity].
Qed.

(** ** Resynchronisation after a connection is made *)

Section Resync.
Import OpenHAB OpenHABBlocks.

Lemma prelude_changed (f : Fact) (d : dscKeybusInterface) :
  changed f (set_accessCodePrompt false (set_bufferOverflow false d)) = changed f d.
Proof. destruct f; reflexivity. Qed.

Lemma zone_flags_after_partitions (d : dscKeybusInterface) (b : Block) :
  In b all_zone_blocks ->
  changed (fst b)
    (set_openZonesStatusChanged false
       (clearAll (pending d all_partition_blocks)
          (set_accessCodePrompt false (set_bufferOverflow false d))))
  = changed (fst b) d.
Proof.
  intros Hb.
  transitivity (changed (fst b)
                  (clearAll (pending d all_partition_blocks)
                     (set_accessCodePrompt false (set_bufferOverflow false d)))).
  - destruct (fst b); reflexivity.
  - rewrite changed_clearAll_other.
    + apply prelude_changed.
    + pose proof all_zone_blocks_range as Hr.
      rewrite List.Forall_forall in Hr. apply Hr, Hb.
    + apply pending_range, all_partition_blocks_range.
    + apply zone_not_partition, Hb.
Qed.

(** After a status pass the flag of every partition fact is reset. *)
Lemma status_final_partition_flags (d : dscKeybusInterface) (b : Block) :
  wf_dsc d -> In b all_partition_blocks -> changed (fst b) (status_final d) = false.
Proof.
  intros Hwf Hb. unfold status_final.
  set (d1 := set_accessCodePrompt false (set_bufferOverflow false d)).
  assert (Hp : changed (fst b) (clearAll (pending d all_partition_blocks) d1) = false).
  { rewrite (pending_ext d d1 all_partition_blocks)
      by (intros; symmetry; apply prelude_changed).
    apply runBlocks_resets; [exact Hwf|apply all_partition_blocks_range|exact Hb]. }
  assert (Hr : fact_in_range (fst b)).
  { pose proof all_partition_blocks_range as Hr.
    rewrite List.Forall_forall in Hr. apply Hr, Hb. }
  destruct (openZonesStatusChanged d); [|exact Hp].
  apply changed_clearAll_false.
  - apply (clearAll_wf _ d1), Hwf.
  - exact Hr.
  - apply pending_range, all_zone_blocks_range.
  - rewrite <- Hp. destruct (fst b); reflexivity.
Qed.

(** After a status pass that scans the zones every zone flag is reset. *)
Lemma status_final_zone_flags (d : dscKeybusInterface) (b : Block) :
  wf_dsc d -> openZonesStatusChanged d = true -> In b all_zone_blocks ->
  changed (fst b) (status_final d) = false.
Proof.
  intros Hwf Hg Hb. unfold status_final. rewrite Hg.
  set (d3 := set_openZonesStatusChanged false _).
  rewrite (pending_ext d d3 all_zone_blocks)
    by (intros; symmetry; apply zone_flags_after_partitions; assumption).
  apply runBlocks_resets; [|apply all_zone_blocks_range|exact Hb].
  unfold d3. apply (clearAll_wf _ (set_accessCodePrompt false (set_bufferOverflow false d))), Hwf.
Qed.

Lemma resetStatus_partition_flags :
  forall d, Forall (fun b : Block => changed (fst b) (resetStatus d) = true)
                   all_partition_blocks.
Proof. intros d. repeat constructor. Qed.

Lemma resetStatus_zone_flags :
  forall d, Forall (fun b : Block => changed (fst b) (resetStatus d) = true)
                   all_zone_blocks.
Proof. intros d. repeat constructor. Qed.

Lemma resetStatus_wf (d : dscKeybusInterface) : wf_dsc d -> wf_dsc (resetStatus d).
Proof.
  unfold wf_dsc. intros H. simpl. rewrite ?length_replicate. intuition.
Qed.

Lemma set_statusChanged_wf (v : bool) (d : dscKeybusInterface) :
  wf_dsc d -> wf_dsc (set_statusChanged v d).
Proof. unfold wf_dsc. simpl. intros H. exact H. Qed.

Lemma resync_events (d : dscKeybusInterface) (bs : list Block) :
  Forall reads_values bs ->
  Forall (fun b : Block => changed (fst b) (resetStatus d) = true) bs ->
  flat_map (block_events (resetStatus d)) bs
  = flat_map (fun b => EvClear (fst b) :: snd b d) bs.
Proof.
  intros Hv Hc. apply flat_map_ext_In. intros b Hb.
  rewrite List.Forall_forall in Hv, Hc.
  unfold block_events. rewrite (Hc b Hb).
  rewrite (Hv b Hb (resetStatus d) d) by reflexivity. reflexivity.
Qed.

(** C4, as the code has it.  OpenHAB: whenever [mqtt.connect] succeeds,
    in [setup()] or in a reconnection by [mqttHandle()], [mqttConnect] calls
    [dsc.resetStatus()], after which every partition and zone flag is set;
    the next status pass resets each of them once, in order, and publishes
    after each reset what its block publishes for the current values (so a
    disarmed partition that is not in exit delay is published as "D" twice,
    and nothing follows the reset of the alarm flag of a partition that is
    not in alarm); afterwards all these flags are reset.  A failed connect
    changes nothing.  Twilio: when the WiFi link is back, the sketch sets
    only [statusChanged] and ends the pause; no per-fact flag is touched. *)
Theorem connect_resets_status (accessCode : string) (link : MqttLink) (w : World) :
  wf_dsc (dsc w) ->
  connectResult link = true ->
  let w1 := snd (mqttConnect link w) in
  let w2 := loopStatus accessCode w1 in
  dsc w1 = resetStatus (dsc w)
  /\ statusChanged (dsc w1) = true
  /\ Forall (fun b : Block => changed (fst b) (dsc w1) = true)
            (all_partition_blocks ++ all_zone_blocks)
  /\ trace w2 = trace w
       ++ (if accessCodePrompt (dsc w) then [EvWrite accessCode] else [])
       ++ flat_map (fun b => EvClear (fst b) :: snd b (dsc w)) all_partition_blocks
       ++ flat_map (fun b => EvClear (fst b) :: snd b (dsc w)) all_zone_blocks
       ++ [EvSubscribe mqttSubscribeTopic]
  /\ Forall (fun b : Block => changed (fst b) (dsc w2) = false)
            (all_partition_blocks ++ all_zone_blocks)
  /\ (forall millis, dsc (snd (setup link millis w)) = resetStatus (dsc w))
  /\ (forall env mqttPreviousTime,
        isConnected env = false ->
        5000 < to_ulong (now env - mqttPreviousTime) ->
        OpenHAB.link env = link ->
        dsc (snd (mqttHandle accessCode env mqttPreviousTime w)) = resetStatus (dsc w))
  /\ (forall link' w', connectResult link' = false -> snd (mqttConnect link' w') = w')
  /\ (forall status2 w',
        Twilio.wifiSupervise true status2 false w'
        = (true, store (fun d => set_statusChanged true (set_pauseStatus false d)) w')
        /\ forall f, changed f (set_statusChanged true (set_pauseStatus false (dsc w')))
                     = changed f (dsc w')).
Proof.
  intros Hwf Hc w1 w2.
  assert (E1 : w1 = store resetStatus w).
  { unfold w1, mqttConnect. rewrite Hc. reflexivity. }
  assert (Hs : statusChanged (dsc w1) = true) by (rewrite E1; reflexivity).
  assert (E2 : w2 = mkWorld (status_final (set_statusChanged false (resetStatus (dsc w))))
                      (trace w ++ status_events accessCode (resetStatus (dsc w)))
                      (pushCalls w)).
  { unfold w2. rewrite loopStatus_spec by exact Hs.
    rewrite status_events_unflag, E1. reflexivity. }
  split; [rewrite E1; reflexivity|].
  split; [exact Hs|].
  split.
  { rewrite E1. apply Forall_app. split;
      [apply resetStatus_partition_flags|apply resetStatus_zone_flags]. }
  split.
  { rewrite E2. unfold trace at 1. unfold status_events.
    rewrite resync_events
      by (apply all_partition_blocks_values || apply resetStatus_partition_flags).
    rewrite resync_events
      by (apply all_zone_blocks_values || apply resetStatus_zone_flags).
    reflexivity. }
  split.
  { rewrite E2. unfold dsc at 1.
    assert (Hwf' : wf_dsc (set_statusChanged false (resetStatus (dsc w)))).
    { apply set_statusChanged_wf, resetStatus_wf, Hwf. }
    apply Forall_app. split; apply List.Forall_forall; intros b Hb.
    - apply status_final_partition_flags; assumption.
    - apply status_final_zone_flags; [assumption|reflexivity|assumption]. }
  split.
  { intros millis. unfold setup, mqttConnect. rewrite Hc.
    destruct (connectedAfter link); reflexivity. }
  split.
  { intros env prev Hd Ht Hl. unfold mqttHandle, mqttConnect.
    rewrite Hd, Hl, Hc. simpl. apply Z.ltb_lt in Ht. rewrite Ht.
    destruct (connectedAfter link); reflexivity. }
  split.
  { intros link' w' Hf. unfold mqttConnect. rewrite Hf. reflexivity. }
  intros status2 w'. split; [reflexivity|].
  intros f. destruct f; reflexivity.
Qed.

End Resync.

(** ** The theorems at concrete panel states *)

(** The zone scan when zone 5 has just opened. *)
Lemma zone_scan_publishes_changed_zones_witness :
  trace (OpenHAB.zoneScan (fresh zone_5_opened))
  = [EvClear (FOpenZone 0 4); EvPublish "dsc/Get/Zone5" "1" true].
Proof.
  exact (eq_trans
           (proj1 (zone_scan_publishes_changed_zones (fresh zone_5_opened)
                     ltac:(repeat split)))
           eq_refl).
Defined.

(** A first successful connection from the quiet state. *)
Lemma connect_resets_status_witness :
  dsc (snd (OpenHAB.mqttConnect (OpenHAB.mkLink true true) (fresh idle)))
  = resetStatus idle.
Proof.
  exact (proj1 (connect_resets_status "1234" (OpenHAB.mkLink true true) (fresh idle)
                  ltac:(repeat split) eq_refl)).
Defined.

(** After a connection from the quiet state, partition 1 is published as
    disarmed twice, nothing follows the reset of its alarm flag, and its
    fire state goes out as "10": [publishState] puts the partition number in
    front of every suffix. *)
Example resync_of_quiet_panel :
  firstn 8 (trace (OpenHAB.loopStatus "1234"
                     (snd (OpenHAB.mqttConnect (OpenHAB.mkLink true true) (fresh idle)))))
  = [EvClear (FArmed 0); EvPublish "dsc/Get/Partition1" "1D" true;
     EvClear (FExitDelay 0); EvPublish "dsc/Get/Partition1" "1D" true;
     EvClear (FAlarm 0);
     EvClear (FFire 0); EvPublish "dsc/Get/Fire1" "10" true;
     EvClear (FArmed 1)].
Proof. vm_compute. reflexivity. Qed.

(** C4 as stated fails for the Twilio sketch: when the WiFi link is back,
    [wifiConnected] becomes true and [statusChanged] is set, but the armed
    flag of partition 1 (like every other per-fact flag) stays reset, and
    the status pass that follows sends nothing. *)
Lemma twilio_reconnect_sets_no_fact_flag :
  fst (Twilio.wifiSupervise true true false (fresh idle)) = true
  /\ statusChanged (dsc (snd (Twilio.wifiSupervise true true false (fresh idle)))) = true
  /\ changed (FArmed 0)
       (dsc (snd (Twilio.wifiSupervise true true false (fresh idle)))) = false
  /\ trace (Twilio.loopStatus (fun d => d) (fun _ => answers "HTTP/1.1 200 OK")
              (fun _ => ""%string)
              (snd (Twilio.wifiSupervise true true false (fresh idle)))) = [].
Proof. vm_compute. repeat split; reflexivity. Qed.

(** A push that the server answers with status 200 within the timeout. *)
Lemma sendPush_delivered_iff_witness :
  fst (Twilio.sendPush (fun d => d) (fun _ => answers "HTTP/1.1 200 OK")
         "Security system " "initializing" (fresh idle)) = true.
Proof.
  apply (proj2 (sendPush_delivered_iff (fun d => d) (fun _ => answers "HTTP/1.1 200 OK")
                  "Security system " "initializing" (fresh idle))).
  split; [reflexivity|]. split; [|reflexivity].
  unfold answered_in_time. simpl.
  repeat (apply List.Forall_cons; [vm_compute; discriminate|]). apply List.Forall_nil.
Defined.

(** The command "2D" while partition 2 is armed. *)
Lemma mqttCallback_disarm_writes_access_code_witness :
  trace (OpenHAB.mqttCallback "1234" [50; 68] (fresh armed_2)) = [EvWrite "1234"].
Proof.
  exact (proj1 (proj1 (proj2 (mqttCallback_disarm_writes_access_code "1234" [50; 68]
                                (fresh armed_2))) eq_refl eq_refl)).
Defined.

(** * Further properties of the sketches *)

(** ** The OpenHAB status pass *)

Section OpenHABPassExtras.
Import OpenHAB OpenHABBlocks.

Lemma inputs_clearFlag (f : Fact) (d : dscKeybusInterface) :
  inputs (clearFlag f d) = inputs d.
Proof. destruct f; reflexivity. Qed.

Lemma inputs_clearAll (fs : list Fact) (d : dscKeybusInterface) :
  inputs (clearAll fs d) = inputs d.
Proof.
  revert d. induction fs as [|f fs IH]; intros d.
  - reflexivity.
  - change (clearAll (f :: fs) d) with (clearAll fs (clearFlag f d)).
    rewrite IH. apply inputs_clearFlag.
Qed.

Lemma changed_clearAll_mono (f : Fact) (fs : list Fact) (d : dscKeybusInterface) :
  wf_dsc d -> fact_in_range f -> Forall fact_in_range fs ->
  changed f (clearAll fs d) = true -> changed f d = true.
Proof.
  intros Hwf Hf. revert d Hwf. induction fs as [|g fs IH]; intros d Hwf Hr H.
  - exact H.
  - inversion Hr; subst.
    change (clearAll (g :: fs) d) with (clearAll fs (clearFlag g d)) in H.
    apply IH in H; [|apply clearFlag_wf, Hwf|assumption].
    apply (changed_clearFlag_mono f g); assumption.
Qed.

Lemma status_final_inputs (d : dscKeybusInterface) :
  inputs (status_final d) = inputs d.
Proof.
  unfold status_final. destruct (openZonesStatusChanged d).
  - rewrite inputs_clearAll.
    change (inputs (clearAll (pending d all_partition_blocks)
                      (set_accessCodePrompt false (set_bufferOverflow false d)))
            = inputs d).
    rewrite inputs_clearAll. reflexivity.
  - rewrite inputs_clearAll. reflexivity.
Qed.

Lemma status_final_mono (d : dscKeybusInterface) (f : Fact) :
  wf_dsc d -> fact_in_range f ->
  changed f (status_final d) = true -> changed f d = true.
Proof.
  intros Hwf Hf. unfold status_final.
  set (d1 := set_accessCodePrompt false (set_bufferOverflow false d)).
  assert (Hp : changed f (clearAll (pending d all_partition_blocks) d1) = true ->
               changed f d = true).
  { intros H. apply changed_clearAll_mono in H.
    - rewrite <- H. symmetry. apply prelude_changed.
    - exact Hwf.
    - exact Hf.
    - apply pending_range, all_partition_blocks_range. }
  destruct (openZonesStatusChanged d); [|exact Hp].
  intros H. apply changed_clearAll_mono in H.
  - apply Hp. rewrite <- H. destruct f; reflexivity.
  - apply (clearAll_wf _ d1), Hwf.
  - exact Hf.
  - apply pending_range, all_zone_blocks_range.
Qed.

(** X6: a status pass never writes a status value, a partition switch or
    the write partition, makes no push, and never raises a status flag: a
    flag that is set afterwards was set before. *)
Theorem openhab_pass_only_lowers_flags (accessCode : string) (w : World) :
  wf_dsc (dsc w) ->
  let w' := loopStatus accessCode w in
  inputs (dsc w') = inputs (dsc w)
  /\ pushCalls w' = pushCalls w
  /\ (forall f, fact_in_range f ->
        changed f (dsc w') = true -> changed f (dsc w) = true).
Proof.
  intros Hwf w'. destruct (statusChanged (dsc w)) eqn:Hs.
  - assert (E : dsc w' = status_final (set_statusChanged false (dsc w))
                /\ pushCalls w' = pushCalls w).
    { unfold w'. rewrite loopStatus_spec by exact Hs. split; reflexivity. }
    destruct E as [E1 E2]. rewrite E1.
    split; [rewrite status_final_inputs; reflexivity|]. split; [exact E2|].
    intros f Hf H. apply status_final_mono in H; [|apply set_statusChanged_wf, Hwf|exact Hf].
    rewrite <- H. destruct f; reflexivity.
  - unfold w', loopStatus, when, ifelse, skip. rewrite Hs. auto.
Qed.

Lemma status_final_gate (d : dscKeybusInterface) :
  openZonesStatusChanged (status_final d) = false.
Proof.
  unfold status_final. destruct (openZonesStatusChanged d) eqn:Hg.
  - rewrite gate_clearAll. reflexivity.
  - rewrite gate_clearAll. exact Hg.
Qed.

Lemma prompt_clearAll (fs : list Fact) (d : dscKeybusInterface) :
  accessCodePrompt (clearAll fs d) = accessCodePrompt d.
Proof.
  revert d. induction fs as [|f fs IH]; intros d.
  - reflexivity.
  - change (clearAll (f :: fs) d) with (clearAll fs (clearFlag f d)).
    rewrite IH. destruct f; reflexivity.
Qed.

Lemma status_final_prompt (d : dscKeybusInterface) :
  accessCodePrompt (status_final d) = false.
Proof.
  unfold status_final. destruct (openZonesStatusChanged d).
  - rewrite prompt_clearAll.
    change (accessCodePrompt (clearAll (pending d all_partition_blocks)
              (set_accessCodePrompt false (set_bufferOverflow false d))) = false).
    rewrite prompt_clearAll. reflexivity.
  - rewrite prompt_clearAll. reflexivity.
Qed.

Lemma status_final_wf (d : dscKeybusInterface) : wf_dsc d -> wf_dsc (status_final d).
Proof.
  intros Hwf. unfold status_final.
  set (d1 := set_accessCodePrompt false (set_bufferOverflow false d)).
  assert (H2 : wf_dsc (clearAll (pending d all_partition_blocks) d1))
    by (apply (clearAll_wf _ d1), Hwf).
  destruct (openZonesStatusChanged d); [|exact H2].
  apply clearAll_wf. exact H2.
Qed.

(** X7: a second status pass right after the first, with [statusChanged]
    raised again but nothing changed on the panel, writes no access code and
    publishes nothing: it only subscribes again. *)
Theorem openhab_second_pass_is_quiet (accessCode : string) (w : World) :
  wf_dsc (dsc w) ->
  statusChanged (dsc w) = true ->
  let w1 := loopStatus accessCode w in
  let w2 := loopStatus accessCode (store (set_statusChanged true) w1) in
  trace w2 = trace w1 ++ [EvSubscribe mqttSubscribeTopic].
Proof.
  intros Hwf Hs w1 w2.
  unfold w2. rewrite loopStatus_spec by reflexivity.
  unfold trace at 1. rewrite status_events_unflag.
  assert (E1 : dsc (store (set_statusChanged true) w1)
               = set_statusChanged true (status_final (set_statusChanged false (dsc w)))).
  { unfold w1. rewrite loopStatus_spec by exact Hs. reflexivity. }
  rewrite E1. set (d0 := set_statusChanged false (dsc w)).
  assert (Hwf0 : wf_dsc d0) by (apply set_statusChanged_wf, Hwf).
  unfold status_events.
  change (accessCodePrompt (set_statusChanged true (status_final d0)))
    with (accessCodePrompt (status_final d0)).
  change (openZonesStatusChanged (set_statusChanged true (status_final d0)))
    with (openZonesStatusChanged (status_final d0)).
  rewrite status_final_prompt, status_final_gate.
  rewrite events_none.
  - reflexivity.
  - intros b Hb.
    transitivity (changed (fst b) (status_final d0)).
    + destruct (fst b); reflexivity.
    + apply status_final_partition_flags; assumption.
Qed.

End OpenHABPassExtras.

Section OpenHABPassEvents.
Import OpenHAB OpenHABBlocks.

(** X8: when the fire flag of partition N is consumed, the pass publishes
    on the fire topic followed by N the payload N followed by "1" (fire
    alarm) or "0" (restored): [publishState] puts the partition number in
    front of the fire suffix as well. *)
Theorem fire_state_payload_has_partition_digit
    (accessCode : string) (w : World) (p : nat) :
  (p < dscPartitions)%nat ->
  statusChanged (dsc w) = true ->
  fireChanged (dsc w) !!! p = true ->
  occurs [EvClear (FFire p);
          EvPublish (mqttFireTopic ++ itoa (Z.of_nat p + 1))
                    (itoa (Z.of_nat p + 1)
                     ++ (if (fire (dsc w) !!! p : bool) then "1" else "0"))
                    true]
         (trace (loopStatus accessCode w)).
Proof.
  intros Hp Hs Hc.
  assert (Hin : In (FFire p, fire_msg p) all_partition_blocks).
  { apply (partition_block_in p); [exact Hp|]. simpl. auto. }
  pose proof (pass_block_events accessCode w _ Hs Hin) as E.
  unfold block_events, fire_msg, published in E.
  cbn [fst snd changed] in E. rewrite Hc in E.
  destruct (fire (dsc w) !!! p); exact E.
Qed.

Lemma partition_block_shape (d : dscKeybusInterface) (b : Block) :
  In b all_partition_blocks ->
  Forall (fun e => e = EvClear (fst b) \/ exists t s, e = EvPublish t s true)
         (block_events d b)
  /\ fact_partition (fst b) <> None.
Proof.
  intros Hb. unfold all_partition_blocks in Hb.
  apply in_flat_map in Hb. destruct Hb as [p [_ Hb]]. simpl in Hb.
  unfold block_events.
  destruct Hb as [<-|[<-|[<-|[<-|[]]]]]; cbn [fst snd]; (split; [|discriminate]);
    (destruct (changed _ d); [|constructor]);
    unfold armed_msg, exitDelay_msg, alarm_msg, fire_msg, published;
    repeat match goal with
           | |- context [if ?c then _ else _] => destruct c
           end;
    repeat (apply List.Forall_cons; [eauto|]); apply List.Forall_nil.
Qed.

Lemma zone_block_shape (d : dscKeybusInterface) (b : Block) :
  In b all_zone_blocks ->
  Forall (fun e => e = EvClear (fst b) \/ exists t s, e = EvPublish t s true)
         (block_events d b).
Proof.
  intros Hb. unfold all_zone_blocks, zone_blocks in Hb.
  apply in_flat_map in Hb. destruct Hb as [g [_ Hb]].
  apply in_map_iff in Hb. destruct Hb as [zb [<- _]].
  unfold block_events, zone_msg. cbn [fst snd].
  destruct (changed _ d); [|constructor].
  repeat (apply List.Forall_cons; [eauto|]). apply List.Forall_nil.
Qed.

Lemma blocks_reset_or_publish (d : dscKeybusInterface) (bs : list Block) :
  (forall b, In b bs ->
     Forall (fun e => e = EvClear (fst b) \/ exists t s, e = EvPublish t s true)
            (block_events d b)) ->
  Forall reset_or_publish (flat_map (block_events d) bs).
Proof.
  intros H. apply Forall_flat_map. apply List.Forall_forall. intros b Hb.
  eapply List.Forall_impl; [|apply H, Hb].
  intros e [->|(t & s & ->)]; exact Logic.I.
Qed.

Lemma flags_clearAll (fs : list Fact) (d : dscKeybusInterface) :
  statusChanged (clearAll fs d) = statusChanged d
  /\ bufferOverflow (clearAll fs d) = bufferOverflow d.
Proof.
  revert d. induction fs as [|f fs IH]; intros d.
  - split; reflexivity.
  - change (clearAll (f :: fs) d) with (clearAll fs (clearFlag f d)).
    destruct (IH (clearFlag f d)) as [E1 E2]. rewrite E1, E2.
    destruct f; split; reflexivity.
Qed.

Lemma status_final_summary (d : dscKeybusInterface) :
  statusChanged (status_final d) = statusChanged d
  /\ bufferOverflow (status_final d) = false.
Proof.
  unfold status_final.
  set (d1 := set_accessCodePrompt false (set_bufferOverflow false d)).
  destruct (flags_clearAll (pending d all_partition_blocks) d1) as [E1 E2].
  destruct (openZonesStatusChanged d).
  - destruct (flags_clearAll (pending d all_zone_blocks)
                (set_openZonesStatusChanged false
                   (clearAll (pending d all_partition_blocks) d1))) as [E3 E4].
    rewrite E3, E4. split; [exact E1|exact E2].
  - split; [exact E1|exact E2].
Qed.

(** X9: a status pass writes the access code to the panel exactly when
    the panel prompts for it, once and before anything is published; what
    follows are flag resets and publishes only; the pass ends by subscribing
    to the command topic; afterwards the prompt, the overflow mark and
    [statusChanged] are all reset. *)
Theorem openhab_pass_frame (accessCode : string) (w : World) :
  statusChanged (dsc w) = true ->
  let w' := loopStatus accessCode w in
  (exists middle,
      trace w' = trace w
        ++ (if accessCodePrompt (dsc w) then [EvWrite accessCode] else [])
        ++ middle ++ [EvSubscribe mqttSubscribeTopic]
      /\ Forall reset_or_publish middle)
  /\ accessCodePrompt (dsc w') = false
  /\ bufferOverflow (dsc w') = false
  /\ statusChanged (dsc w') = false.
Proof.
  intros Hs w'.
  assert (E : dsc w' = status_final (set_statusChanged false (dsc w))
               /\ trace w' = trace w ++ status_events accessCode (dsc w)).
  { unfold w'. rewrite loopStatus_spec by exact Hs.
    rewrite status_events_unflag. split; reflexivity. }
  destruct E as [Ed Et]. rewrite Ed, Et.
  destruct (status_final_summary (set_statusChanged false (dsc w))) as [E1 E2].
  split; [|split; [apply status_final_prompt|split; [exact E2|rewrite E1; reflexivity]]].
  exists (flat_map (block_events (dsc w)) all_partition_blocks
          ++ (if openZonesStatusChanged (dsc w)
              then flat_map (block_events (dsc w)) all_zone_blocks else [])).
  split.
  - unfold status_events. rewrite <- !app_assoc. reflexivity.
  - apply Forall_app_2.
    + apply blocks_reset_or_publish. intros b Hb. apply partition_block_shape, Hb.
    + destruct (openZonesStatusChanged (dsc w)); [|constructor].
      apply blocks_reset_or_publish. intros b Hb. apply zone_block_shape, Hb.
Qed.

Lemma zones_clearAll_partitions (fs : list Fact) (d : dscKeybusInterface) :
  Forall (fun f => fact_partition f <> None) fs ->
  openZonesChanged (clearAll fs d) = openZonesChanged d.
Proof.
  intros H. revert d. induction H as [|f fs Hf _ IH]; intros d.
  - reflexivity.
  - change (clearAll (f :: fs) d) with (clearAll fs (clearFlag f d)).
    rewrite IH. destruct f; try reflexivity; simpl in Hf; congruence.
Qed.

(** X10: while [openZonesStatusChanged] is not set, a status pass leaves
    the zone change bits as they are, even the bits that are set, and resets
    no zone flag. *)
Theorem openhab_zone_scan_is_gated (accessCode : string) (w : World) :
  statusChanged (dsc w) = true ->
  openZonesStatusChanged (dsc w) = false ->
  let w' := loopStatus accessCode w in
  openZonesChanged (dsc w') = openZonesChanged (dsc w)
  /\ exists evs, trace w' = trace w ++ evs
       /\ forall g b, ~ In (EvClear (FOpenZone g b)) evs.
Proof.
  intros Hs Hg w'.
  assert (E : dsc w' = status_final (set_statusChanged false (dsc w))
               /\ trace w' = trace w ++ status_events accessCode (dsc w)).
  { unfold w'. rewrite loopStatus_spec by exact Hs.
    rewrite status_events_unflag. split; reflexivity. }
  destruct E as [Ed Et]. rewrite Ed, Et.
  split.
  - unfold status_final.
    change (openZonesStatusChanged (set_statusChanged false (dsc w)))
      with (openZonesStatusChanged (dsc w)).
    rewrite Hg. rewrite zones_clearAll_partitions; [reflexivity|].
    apply List.Forall_forall. intros f Hf. apply pending_in in Hf.
    destruct Hf as [Hf _]. apply in_map_iff in Hf. destruct Hf as [b [<- Hb]].
    apply (partition_block_shape (dsc w)), Hb.
  - eexists. split; [reflexivity|].
    intros g b Hin. unfold status_events in Hin. rewrite Hg in Hin.
    apply in_app_or in Hin. destruct Hin as [Hin|Hin].
    { destruct (accessCodePrompt (dsc w)); simpl in Hin; intuition discriminate. }
    apply in_app_or in Hin. destruct Hin as [Hin|Hin].
    + apply in_flat_map in Hin. destruct Hin as [blk [Hb Hin]].
      destruct (partition_block_shape (dsc w) blk Hb) as [Hshape Hpart].
      rewrite List.Forall_forall in Hshape.
      destruct (Hshape _ Hin) as [E'|(t & s & E')]; [|discriminate].
      injection E' as E'. rewrite <- E' in Hpart. apply Hpart. reflexivity.
    + simpl in Hin. intuition discriminate.
Qed.

End OpenHABPassEvents.

(** ** Flags a sketch never consumes *)

Lemma sublist_Forall_of {A : Type} (P : A -> Prop) (l order : list A) :
  l `sublist_of` order -> Forall P order -> Forall P l.
Proof.
  intros Hsub HP. apply List.Forall_forall. intros x Hx.
  rewrite List.Forall_forall in HP. apply HP.
  apply list_elem_of_In. apply (elem_of_sublist l); [|exact Hsub].
  apply list_elem_of_In, Hx.
Qed.

Lemma openhab_order_facts : Forall openhab_fact openhab_order.
Proof.
  unfold openhab_order, openhab_fact, dscPartitions, dscZones. simpl.
  repeat (apply List.Forall_cons; [lia|]). apply List.Forall_nil.
Qed.

Lemma twilio_order_facts : Forall twilio_fact twilio_order.
Proof.
  unfold twilio_order, twilio_fact, dscPartitions, dscZones. simpl.
  repeat (apply List.Forall_cons; [first [exact Logic.I|lia]|]). apply List.Forall_nil.
Qed.

(** X15: the OpenHAB pass resets only armed, exit-delay, alarm and fire
    flags of the partitions 1 to 8 and open-zone bits of the zones 1 to 64,
    never a Keybus, power, keypad or alarm-zone flag; the Twilio pass (1.2)
    never resets an exit-delay flag or an open-zone bit. *)
Theorem passes_consume_their_own_flags_only :
  (forall accessCode w, exists evs,
      trace (OpenHAB.loopStatus accessCode w) = trace w ++ evs
      /\ Forall openhab_fact (resets evs))
  /\ (forall dscLoop net uninitialised w, exists evs,
      trace (Twilio.loopStatus dscLoop net uninitialised w) = trace w ++ evs
      /\ Forall twilio_fact (resets evs)).
Proof.
  split.
  - intros accessCode w. destruct (visits_openhab accessCode w) as (evs & E & S).
    exists evs. split; [exact E|].
    apply (sublist_Forall_of _ _ openhab_order); [exact S|apply openhab_order_facts].
  - intros dscLoop net uninitialised w.
    destruct (visits_twilio dscLoop net uninitialised w) as (evs & E & S).
    exists evs. split; [exact E|].
    apply (sublist_Forall_of _ _ twilio_order); [exact S|apply twilio_order_facts].
Qed.

(** ** Inbound commands and the MQTT link *)

Section OpenHABCommands.
Import OpenHAB.

Lemma selectedPartition_range (payload : list Z) : 1 <= selectedPartition payload <= 8.
Proof.
  unfold selectedPartition, numbered.
  destruct (Z.leb_spec 0x31 (nth 0 payload 0)), (Z.leb_spec (nth 0 payload 0) 0x38);
    simpl; lia.
Qed.

(** [mqttCallback] by cases on the command byte. *)
Lemma mqttCallback_cases (accessCode : string) (payload : list Z) (w : World) :
  let N := selectedPartition payload in
  let command := commandByte payload in
  let idle := partitionIdle (dsc w) payload in
  mqttCallback accessCode payload w =
  if (command =? 83) && idle
  then emit (EvWriteKey "s") (store (set_writePartition N) w)
  else if (command =? 65) && idle
  then emit (EvWriteKey "w") (store (set_writePartition N) w)
  else if (command =? 68) && negb idle
  then emit (EvWrite accessCode) (store (set_writePartition N) w)
  else w.
Proof.
  intros N command idle.
  unfold mqttCallback, idle, partitionIdle, command, commandByte, N, selectedPartition.
  fold (numbered payload).
  destruct (numbered payload) eqn:En.
  - unfold numbered in En. apply andb_true_iff in En. destruct En as [E1 E2].
    apply Z.leb_le in E1. apply Z.leb_le in E2.
    set (first := nth 0 payload 0) in *.
    assert (Hp : Z.to_nat (to_byte (first - 49)) = Z.to_nat (first - 48 - 1)).
    { unfold to_byte. rewrite Z.mod_small by lia. f_equal. lia. }
    assert (Hw : to_byte (Z.of_nat (Z.to_nat (first - 48 - 1)) + 1) = first - 48).
    { unfold to_byte. rewrite Z2Nat.id by lia. rewrite Z.mod_small by lia. lia. }
    rewrite Hp, Hw. rewrite negb_andb, !negb_involutive, !andb_assoc. reflexivity.
  - rewrite negb_andb, !negb_involutive, !andb_assoc. reflexivity.
Qed.

(** X3: the commands 'S' and 'A' write the keys 's' (arm stay) and 'w'
    (arm away) to the selected partition, once, when that partition is
    neither armed nor in exit delay; while it is armed or in exit delay they
    are dropped and nothing changes. *)
Theorem mqttCallback_arm_commands (accessCode : string) (payload : list Z) (w : World) :
  let N := selectedPartition payload in
  let command := commandByte payload in
  let w' := mqttCallback accessCode payload w in
  (command = 83 \/ command = 65) ->
  if partitionIdle (dsc w) payload
  then trace w' = trace w ++ [EvWriteKey (if command =? 83 then "s" else "w")]
       /\ writePartition (dsc w') = N
  else w' = w.
Proof.
  intros N command w' Hc. unfold w'. rewrite mqttCallback_cases.
  fold command. destruct (partitionIdle (dsc w) payload).
  - destruct Hc as [-> | ->]; simpl; split; reflexivity.
  - destruct Hc as [-> | ->]; reflexivity.
Qed.

(** X4: a payload whose command byte is none of 'S', 'A' and 'D' is
    dropped: nothing is written and nothing changes.  A first byte outside
    '1' to '8' is itself taken as the command, so "9D" and "0A" are dropped
    too. *)
Theorem mqttCallback_drops_other_commands
    (accessCode : string) (payload : list Z) (w : World) :
  commandByte payload <> 83 -> commandByte payload <> 65 -> commandByte payload <> 68 ->
  mqttCallback accessCode payload w = w.
Proof.
  intros H1 H2 H3. rewrite mqttCallback_cases.
  destruct (Z.eqb_spec (commandByte payload) 83); [contradiction|].
  destruct (Z.eqb_spec (commandByte payload) 65); [contradiction|].
  destruct (Z.eqb_spec (commandByte payload) 68); [contradiction|].
  reflexivity.
Qed.

Lemma mqttCallback_shape (accessCode : string) (payload : list Z) (w : World) :
  exists v,
    mqttCallback accessCode payload w
    = mkWorld (set_writePartition v (dsc w))
              (trace w ++ command_events accessCode (dsc w) payload) (pushCalls w)
    /\ (length (command_events accessCode (dsc w) payload) <= 1)%nat
    /\ Forall is_write (command_events accessCode (dsc w) payload).
Proof.
  unfold command_events. rewrite !mqttCallback_cases. cbn [dsc].
  assert (Hid : mkWorld (set_writePartition (writePartition (dsc w)) (dsc w))
                  (trace w ++ []) (pushCalls w) = w).
  { rewrite app_nil_r. destruct w as [[] ? ?]; reflexivity. }
  destruct ((commandByte payload =? 83) && partitionIdle (dsc w) payload).
  { eexists. split; [reflexivity|]. split; [simpl; lia|]. repeat constructor. }
  destruct ((commandByte payload =? 65) && partitionIdle (dsc w) payload).
  { eexists. split; [reflexivity|]. split; [simpl; lia|]. repeat constructor. }
  destruct ((commandByte payload =? 68) && negb (partitionIdle (dsc w) payload)).
  { eexists. split; [reflexivity|]. split; [simpl; lia|]. repeat constructor. }
  exists (writePartition (dsc w)). split; [symmetry; exact Hid|].
  split; [simpl; lia|constructor].
Qed.

(** X2: a command changes no status flag and no status value: of the
    library object only the write partition can differ afterwards, and the
    trace grows by at most one event, a Keybus write. *)
Theorem mqttCallback_touches_write_partition_only
    (accessCode : string) (payload : list Z) (w : World) :
  let w' := mqttCallback accessCode payload w in
  set_writePartition (writePartition (dsc w)) (dsc w') = dsc w
  /\ pushCalls w' = pushCalls w
  /\ exists evs, trace w' = trace w ++ evs
       /\ (length evs <= 1)%nat /\ Forall is_write evs.
Proof.
  intros w'. destruct (mqttCallback_shape accessCode payload w) as (v & E & Hl & Hf).
  unfold w'. rewrite E. cbn [dsc trace pushCalls].
  split; [destruct (dsc w); reflexivity|]. split; [reflexivity|].
  eexists. split; [reflexivity|]. split; assumption.
Qed.

Lemma command_events_writePartition (accessCode : string) (v : Z)
    (d : dscKeybusInterface) (payload : list Z) :
  command_events accessCode (set_writePartition v d) payload
  = command_events accessCode d payload.
Proof.
  unfold command_events. rewrite !mqttCallback_cases. cbn [dsc].
  change (partitionIdle (set_writePartition v d) payload) with (partitionIdle d payload).
  destruct ((commandByte payload =? 83) && partitionIdle d payload); [reflexivity|].
  destruct ((commandByte payload =? 65) && partitionIdle d payload); [reflexivity|].
  destruct ((commandByte payload =? 68) && negb (partitionIdle d payload)); reflexivity.
Qed.

Lemma callbacks_fold (accessCode : string) (inbox : list (list Z)) (w : World) :
  exists v,
    fold_left (fun w' payload => mqttCallback accessCode payload w') inbox w
    = mkWorld (set_writePartition v (dsc w))
              (trace w ++ flat_map (command_events accessCode (dsc w)) inbox)
              (pushCalls w).
Proof.
  revert w. induction inbox as [|payload inbox IH]; intros w.
  - exists (writePartition (dsc w)). simpl. rewrite app_nil_r.
    destruct w as [[] ? ?]; reflexivity.
  - simpl fold_left.
    destruct (mqttCallback_shape accessCode payload w) as (v & E & _ & _).
    rewrite E. destruct (IH (mkWorld (set_writePartition v (dsc w))
                               (trace w ++ command_events accessCode (dsc w) payload)
                               (pushCalls w))) as (v' & E').
    rewrite E'. cbn [dsc trace pushCalls]. exists v'. f_equal.
    rewrite <- app_assoc. f_equal. simpl flat_map. f_equal.
    apply flat_map_ext_In. intros p _. apply command_events_writePartition.
Qed.

(** X5: while the link is up, [mqttHandle] keeps [mqttPreviousTime] and
    hands every received message to the callback; each message is judged
    against the armed and exit-delay states as they were when [mqttHandle]
    was entered, so a disarm command delivered twice while the partition is
    armed writes the access code twice. *)
Theorem mqttHandle_delivers_each_command
    (accessCode : string) (env : MqttEnv) (mqttPreviousTime : Z) (w : World) :
  isConnected env = true ->
  let r := mqttHandle accessCode env mqttPreviousTime w in
  fst r = mqttPreviousTime
  /\ trace (snd r)
     = trace w ++ flat_map (command_events accessCode (dsc w)) (inbox env)
  /\ set_writePartition (writePartition (dsc w)) (dsc (snd r)) = dsc w.
Proof.
  intros Hc r. unfold r, mqttHandle. rewrite Hc. cbn [negb fst snd].
  destruct (callbacks_fold accessCode (inbox env) w) as (v & E). rewrite E.
  cbn [dsc trace]. split; [reflexivity|]. split; [reflexivity|].
  destruct (dsc w); reflexivity.
Qed.

(** X1: while the link is down, [mqttHandle] tries to connect only when
    more than 5000 ms (in 32-bit unsigned arithmetic) have passed since
    [mqttPreviousTime]; a failed attempt stores the time of the attempt, so
    the next call within 5000 ms of it changes nothing; a successful attempt
    stores 0. *)
Theorem mqttHandle_retry_interval
    (accessCode : string) (env env' : MqttEnv) (mqttPreviousTime : Z) (w : World) :
  isConnected env = false ->
  isConnected env' = false ->
  to_ulong (now env' - now env) <= 5000 ->
  let r := mqttHandle accessCode env mqttPreviousTime w in
  (to_ulong (now env - mqttPreviousTime) <= 5000 -> r = (mqttPreviousTime, w))
  /\ (5000 < to_ulong (now env - mqttPreviousTime) ->
      connectedAfter (link env) = false ->
      fst r = now env
      /\ mqttHandle accessCode env' (fst r) (snd r) = r)
  /\ (5000 < to_ulong (now env - mqttPreviousTime) ->
      connectedAfter (link env) = true ->
      fst r = 0).
Proof.
  intros Hd Hd' Hnear r. unfold r, mqttHandle. rewrite Hd. cbn [negb].
  split; [|split].
  - intros Hle. apply Z.ltb_ge in Hle. rewrite Hle. reflexivity.
  - intros Hlt Hf. apply Z.ltb_lt in Hlt. rewrite Hlt.
    unfold mqttConnect. rewrite Hf.
    destruct (connectResult (link env)); cbn [fst snd]; rewrite Hd'; cbn [negb];
      apply Z.ltb_ge in Hnear; rewrite Hnear; split; reflexivity.
  - intros Hlt Ht. apply Z.ltb_lt in Hlt. rewrite Hlt.
    unfold mqttConnect. rewrite Ht.
    destruct (connectResult (link env)); reflexivity.
Qed.

End OpenHABCommands.

(** ** The push exchange and the WiFi link of the Twilio sketch *)

Lemma waitResponse_turns (dscLoop : dscKeybusInterface -> dscKeybusInterface)
    (previousMillis : Z) (waits : list Z) (d : dscKeybusInterface) :
  snd (Twilio.waitResponse dscLoop previousMillis waits d)
  = Nat.iter (waitTurns previousMillis waits) dscLoop d.
Proof.
  revert d. induction waits as [|t waits IH]; intros d; simpl.
  - reflexivity.
  - destruct (3000 <? to_ulong (t - previousMillis)).
    + reflexivity.
    + rewrite IH. symmetry. apply Nat.iter_succ_r.
Qed.

Lemma waitTurns_le (previousMillis : Z) (waits : list Z) :
  (waitTurns previousMillis waits <= length waits)%nat.
Proof.
  induction waits as [|t waits IH]; simpl.
  - lia.
  - destruct (3000 <? to_ulong (t - previousMillis)); lia.
Qed.

(** X12: every [sendPush] call records one push and is counted; while it
    waits it services the panel once per turn of the wait loop, up to and
    including the turn in which it sees the timeout, and it does not service
    the panel at all when the connection cannot be made. *)
Theorem sendPush_services_panel_each_turn
    (dscLoop : dscKeybusInterface -> dscKeybusInterface)
    (net : nat -> Twilio.PushEnv) (prefix pushMessage : string) (w : World) :
  let env := net (pushCalls w) in
  let w' := snd (Twilio.sendPush dscLoop net prefix pushMessage w) in
  let turns := if Twilio.connects env
               then waitTurns (Twilio.started env) (Twilio.waits env) else O in
  trace w' = trace w ++ [EvPush prefix pushMessage]
  /\ pushCalls w' = S (pushCalls w)
  /\ dsc w' = Nat.iter turns dscLoop (dsc w)
  /\ (turns <= length (Twilio.waits env))%nat.
Proof.
  intros env w' turns. unfold w', turns, Twilio.sendPush. fold env.
  destruct (Twilio.connects env); cbn [negb].
  - pose proof (waitResponse_turns dscLoop (Twilio.started env) (Twilio.waits env)
                  (dsc w)) as Ht.
    cbn [dsc]. destruct (Twilio.waitResponse _ _ _ _) as [arrived d]. cbn [snd] in Ht.
    subst d. split; [destruct arrived; reflexivity|].
    split; [destruct arrived; reflexivity|].
    split; [destruct arrived; reflexivity|apply waitTurns_le].
  - cbn [snd trace pushCalls dsc]. repeat split. simpl. lia.
Qed.

Lemma to_ulong_wrapped (earlier later : Z) :
  0 <= later < earlier -> earlier < 2 ^ 32 ->
  to_ulong (later - earlier) = later + (2 ^ 32 - earlier).
Proof.
  intros H1 H2. unfold to_ulong.
  replace (later - earlier) with ((later + (2 ^ 32 - earlier)) + (-1) * 2 ^ 32) by lia.
  rewrite Z.mod_add by lia. apply Z.mod_small. lia.
Qed.

(** X13: both timers survive the wrap of the 32-bit millisecond counter.
    When the clock reading is smaller than the stored start time, the time
    passed is counted through the wrap: [sendPush] keeps waiting, and
    [mqttHandle] holds back, exactly as long as the sum of the time to the
    wrap and the time since is within the limit. *)
Theorem timers_count_through_clock_wrap
    (dscLoop : dscKeybusInterface -> dscKeybusInterface) (accessCode : string)
    (env : OpenHAB.MqttEnv) (start reading : Z) (w : World) :
  0 <= reading < start -> start < 2 ^ 32 ->
  (fst (Twilio.waitResponse dscLoop start [reading] (dsc w)) = true
   <-> reading + (2 ^ 32 - start) <= 3000)
  /\ (OpenHAB.isConnected env = false -> OpenHAB.now env = reading ->
      reading + (2 ^ 32 - start) <= 5000 ->
      OpenHAB.mqttHandle accessCode env start w = (start, w)).
Proof.
  intros H1 H2. pose proof (to_ulong_wrapped start reading H1 H2) as E.
  split.
  - simpl. rewrite E.
    destruct (Z.ltb_spec 3000 (reading + (2 ^ 32 - start))); simpl.
    + split; [discriminate|lia].
    + split; [lia|reflexivity].
  - intros Hd Hn Hle. unfold OpenHAB.mqttHandle. rewrite Hd, Hn, E. cbn [negb].
    apply Z.ltb_ge in Hle. rewrite Hle. reflexivity.
Qed.

(** X14: the WiFi supervision makes [wifiConnected] follow the link
    status it reads; when the link is found up again it ends the pause and
    raises [statusChanged], when the link is found down it starts the pause,
    and otherwise it changes nothing; it never touches a per-fact flag, a
    status value or the trace. *)
Theorem wifiSupervise_follows_link (status1 status2 wifiConnected : bool) (w : World) :
  let r := Twilio.wifiSupervise status1 status2 wifiConnected w in
  fst r = (if wifiConnected then status2 else status1)
  /\ (fst r = wifiConnected -> snd r = w)
  /\ (wifiConnected = false -> fst r = true ->
      pauseStatus (dsc (snd r)) = false /\ statusChanged (dsc (snd r)) = true)
  /\ (wifiConnected = true -> fst r = false ->
      pauseStatus (dsc (snd r)) = true
      /\ statusChanged (dsc (snd r)) = statusChanged (dsc w))
  /\ (forall f, changed f (dsc (snd r)) = changed f (dsc w))
  /\ values (dsc (snd r)) = values (dsc w)
  /\ trace (snd r) = trace w.
Proof.
  intros r. unfold r, Twilio.wifiSupervise.
  destruct wifiConnected, status1, status2; cbn [negb andb fst snd];
    (split; [reflexivity|]);
    (split; [try reflexivity; intros; discriminate|]);
    (split; [intros; try discriminate; split; reflexivity|]);
    (split; [intros; try discriminate; split; reflexivity|]);
    (split; [intros f; destruct f; reflexivity|]);
    split; reflexivity.
Qed.

(** ** Message arrays of the Twilio sketch *)

Section TwilioArrays.
Import OpenHAB.Buffers TwilioBuffers.

Lemma itoa_digits_grows (fuel : nat) (n : Z) (acc : string) :
  strlen acc + 1 <= strlen (itoa_digits fuel n acc).
Proof.
  revert n acc. induction fuel as [|fuel IH]; intros n acc; simpl.
  - unfold strlen. simpl String.length. lia.
  - destruct (n / 10 =? 0).
    + unfold strlen. simpl String.length. lia.
    + specialize (IH (n / 10) (String (digit_char (n mod 10)) acc)).
      unfold strlen in *. simpl String.length in IH. lia.
Qed.

Lemma itoa_two_digits (value : Z) : 10 <= value -> 2 <= strlen (itoa value).
Proof.
  intros H. unfold itoa. destruct (Z.ltb_spec value 0); [lia|].
  simpl. destruct (Z.eqb_spec (value / 10) 0) as [E|_].
  - apply Z.div_small_iff in E; lia.
  - pose proof (itoa_digits_grows 8 (value / 10)
                  (String (digit_char (value mod 10)) "")) as Hg.
    unfold strlen in *. simpl String.length in Hg. lia.
Qed.

Lemma appendPartition_digit (p : nat) (pushMessage : cbuf) :
  (p < dscPartitions)%nat ->
  appendPartition p pushMessage
  = if strlen (text pushMessage) + 2 <=? capacity pushMessage
    then Some (mkBuf (capacity pushMessage)
                 (Twilio.appendPartition p (text pushMessage)))
    else None.
Proof.
  intros Hp. unfold appendPartition, Twilio.appendPartition, itoa_into, strcat_into.
  rewrite (itoa_partition_digit p Hp).
  unfold fill, alloc, footprint, strcat. cbn [capacity text mbind option_bind].
  change (strlen (String (digit_char (Z.of_nat p + 1)) "") + 1 <=? 2) with true.
  cbn [mbind option_bind text]. rewrite strlen_app.
  change (strlen (String (digit_char (Z.of_nat p + 1)) "")) with 1.
  replace (strlen (text pushMessage) + 1 + 1) with (strlen (text pushMessage) + 2) by lia.
  reflexivity.
Qed.

(** X16: for the partitions 1 to 8 and the zones 1 to 64 the messages of
    sketch 1.2 fit the character arrays they are assembled in, and the array
    then holds the text the sketch means to send, wherever the array is
    written before it is appended to.  In the branch of a partition armed
    with neither mode the append goes to the unset [pushMessage[24]]: it
    stays inside the array only if what the array holds is a text of at
    most 22 characters, and overflows otherwise.  A partition number of two
    digits would not fit [partitionNumber]. *)
Theorem twilio_message_arrays_fit
    (p g b : nat) (armedStay : bool) (content : string) (pushMessage : cbuf) :
  (p < dscPartitions)%nat -> (g < dscZones)%nat -> (b < 8)%nat ->
  let zoneNumber := itoa (Z.of_nat b + 1 + Z.of_nat g * 8) in
  text <$> armedMessage true armedStay content p
    = Some (Twilio.appendPartition p "armed away: partition ")
  /\ text <$> armedMessage false true content p
     = Some (Twilio.appendPartition p "armed stay: partition ")
  /\ (strlen content <= 22 ->
      text <$> armedMessage false false content p
      = Some (Twilio.appendPartition p content))
  /\ (22 < strlen content -> armedMessage false false content p = None)
  /\ text <$> disarmedMessage p = Some (Twilio.appendPartition p "disarmed: partition ")
  /\ text <$> alarmMessage p = Some (Twilio.appendPartition p "in alarm: Partition ")
  /\ text <$> fireMessage p = Some (Twilio.appendPartition p "fire alarm: Partition ")
  /\ text <$> zoneAlarmMessage g b = Some (strcat "Security zone alarm: " zoneNumber)
  /\ text <$> zoneRestoredMessage g b
     = Some (strcat "Security zone alarm restored: " zoneNumber)
  /\ (forall q, (9 <= q)%nat -> appendPartition q pushMessage = None).
Proof.
  intros Hp Hg Hb. cbv zeta.
  assert (Hu : armedMessage false false content p
               = if strlen content + 2 <=? 24
                 then Some (mkBuf 24 (Twilio.appendPartition p content)) else None).
  { unfold armedMessage, unset. cbn [mbind option_bind].
    rewrite (appendPartition_digit p _ Hp). reflexivity. }
  unfold dscPartitions, dscZones in *.
  split; [do 8 (destruct p as [|p]; [reflexivity|]); lia|].
  split; [do 8 (destruct p as [|p]; [reflexivity|]); lia|].
  split.
  { intros Hc. rewrite Hu. destruct (Z.leb_spec (strlen content + 2) 24); [reflexivity|lia]. }
  split.
  { intros Hc. rewrite Hu. destruct (Z.leb_spec (strlen content + 2) 24); [lia|reflexivity]. }
  split; [do 8 (destruct p as [|p]; [reflexivity|]); lia|].
  split; [do 8 (destruct p as [|p]; [reflexivity|]); lia|].
  split; [do 8 (destruct p as [|p]; [reflexivity|]); lia|].
  split.
  {
    do 8 (destruct g as [|g]; [do 8 (destruct b as [|b]; [reflexivity|]); lia|]). lia. }
  split.
  {
    do 8 (destruct g as [|g]; [do 8 (destruct b as [|b]; [reflexivity|]); lia|]). lia. }
  intros q Hq. unfold appendPartition, itoa_into, fill, alloc, footprint.
  cbn [capacity].
  pose proof (itoa_two_digits (Z.of_nat q + 1) ltac:(lia)) as H2.
  destruct (Z.leb_spec (strlen (itoa (Z.of_nat q + 1)) + 1) 2); [lia|reflexivity].
Qed.

End TwilioArrays.

(** ** The status pass of sketch 1.0 in the program logic *)

Lemma modes_imply_armed_values (d d' : dscKeybusInterface) :
  values d' = values d -> modes_imply_armed d = true -> modes_imply_armed d' = true.
Proof.
  unfold values, modes_imply_armed. intros E H. injection E as E1 E2 E3 _ _ _ _.
  rewrite E1, E2, E3. exact H.
Qed.

Section Twilio10Logic.

Variable handlePanel : dscKeybusInterface -> dscKeybusInterface.
Variable handleModule : dscKeybusInterface -> dscKeybusInterface.
Variable net : nat -> Twilio.PushEnv.

Variable I : dscKeybusInterface -> Prop.
Variable A : string -> Prop.
Variable Q : list Ev -> Prop.
Hypothesis Q_nil : Q [].
Hypothesis Q_app : forall a b, Q a -> Q b -> Q (a ++ b).
Hypothesis Q_block : forall f prefix pushMessage,
  A pushMessage -> Q [EvClear f; EvPush prefix pushMessage].

Hypothesis I_handlePanel : forall d, I d -> I (handlePanel d).
Hypothesis I_values : forall d d', values d' = values d -> I d -> I d'.

(** The texts with the arming mode are accepted, or never reached. *)
Hypothesis A_texts : forall pushMessage, In pushMessage twilio10_texts -> A pushMessage.
Hypothesis A_modes :
  (forall pushMessage, In pushMessage twilio10_mode_texts -> A pushMessage)
  \/ (forall d, I d -> modes_imply_armed d = true).

Lemma pushes_push (prefix pushMessage : string) :
  A pushMessage -> pushes I A (Twilio10.push handlePanel net prefix pushMessage).
Proof.
  intros Ha w Hw. unfold Twilio10.push, Twilio.push.
  split; [apply (sendPush_keeps handlePanel net I I_handlePanel), Hw|].
  exists prefix, pushMessage. split; [exact Ha|apply sendPush_trace].
Qed.

Lemma pushes_ifelse (c : dscKeybusInterface -> bool) (s1 s2 : World -> World) :
  pushes I A s1 -> pushes I A s2 -> pushes I A (ifelse c s1 s2).
Proof.
  intros H1 H2 w Hw. unfold ifelse. destruct (c (dsc w)); [apply H1|apply H2]; exact Hw.
Qed.

Lemma hoare_text_block (f : Fact) (s : World -> World) :
  pushes I A s -> hoare I Q (when (changed f) (reset f >>> s)).
Proof.
  intros Hs. apply hoare_when; [exact Q_nil|].
  intros w Hw. unfold andThen, reset, andThen.
  set (w1 := emit (EvClear f) (store (clearFlag f) w)).
  assert (Hw1 : I (dsc w1)).
  { apply (I_values (dsc w)); [apply values_clearFlag|exact Hw]. }
  destruct (Hs w1 Hw1) as [Hi (a & b & Ha & E)].
  split; [exact Hi|]. exists [EvClear f; EvPush a b]. split; [|apply Q_block, Ha].
  rewrite E. unfold w1. simpl. rewrite <- app_assoc. reflexivity.
Qed.

Lemma partition_text (q : nat) (k : nat) (s : string) :
  (q < dscPartitions)%nat ->
  nth_error
    [Twilio10.withPartition "in alarm, partition " q;
     Twilio10.withPartition "fire alarm, partition " q;
     strcat (Twilio10.withPartition "armed, partition " q) "       ";
     Twilio10.withPartition "disarmed, partition " q] k = Some s ->
  In s twilio10_texts.
Proof.
  intros Hq Hk. unfold twilio10_texts. apply in_or_app. right.
  apply in_flat_map. exists q. split; [apply in_seq; lia|].
  apply nth_error_In in Hk. exact Hk.
Qed.

Lemma mode_text (q : nat) (k : nat) (s : string) :
  (q < dscPartitions)%nat ->
  nth_error
    [strcat (Twilio10.withPartition "armed, partition " q) " (Away)";
     strcat (Twilio10.withPartition "armed, partition " q) " (Stay)"] k = Some s ->
  In s twilio10_mode_texts.
Proof.
  intros Hq Hk. unfold twilio10_mode_texts.
  apply in_flat_map. exists q. split; [apply in_seq; lia|].
  apply nth_error_In in Hk. exact Hk.
Qed.

Lemma twilio10_armed (q : nat) :
  (q < dscPartitions)%nat -> hoare I Q (Twilio10.armedStatus handlePanel net q).
Proof.
  intros Hq. unfold Twilio10.armedStatus. apply hoare_text_block. cbv zeta.
  assert (Harmed : A (strcat (Twilio10.withPartition "armed, partition " q) "       "))
    by (apply A_texts, (partition_text q 2 _ Hq); reflexivity).
  assert (Hdis : A (Twilio10.withPartition "disarmed, partition " q))
    by (apply A_texts, (partition_text q 3 _ Hq); reflexivity).
  destruct A_modes as [Hm|Hm].
  - apply pushes_ifelse; [apply pushes_push, Harmed|].
    apply pushes_ifelse;
      [apply pushes_push, Hm, (mode_text q 0 _ Hq); reflexivity|].
    apply pushes_ifelse;
      [apply pushes_push, Hm, (mode_text q 1 _ Hq); reflexivity|].
    apply pushes_push, Hdis.
  - intros w Hw. specialize (Hm (dsc w) Hw). unfold modes_imply_armed in Hm.
    rewrite forallb_forall in Hm. specialize (Hm q ltac:(apply in_seq; lia)).
    unfold ifelse.
    destruct (armed (dsc w) !!! q : bool) eqn:Ea.
    + apply pushes_push; assumption.
    + destruct (armedAway (dsc w) !!! q : bool) eqn:Eaway; [discriminate Hm|].
      destruct (armedStay (dsc w) !!! q : bool) eqn:Estay; [discriminate Hm|].
      apply pushes_push; assumption.
Qed.

Lemma twilio10_partition (q : nat) :
  (q < dscPartitions)%nat -> hoare I Q (Twilio10.partitionStatus handlePanel net q).
Proof.
  intros Hq. unfold Twilio10.partitionStatus.
  apply hoare_seq; [exact Q_app| |].
  { unfold Twilio10.alarmStatus. apply hoare_text_block. cbv zeta.
    apply pushes_ifelse; apply pushes_push, A_texts.
    - apply (partition_text q 0 _ Hq). reflexivity.
    - unfold twilio10_texts. apply in_or_app. left. simpl. tauto. }
  apply hoare_seq; [exact Q_app| |].
  { unfold Twilio10.fireStatus. apply hoare_text_block. cbv zeta.
    apply pushes_ifelse; apply pushes_push, A_texts.
    - apply (partition_text q 1 _ Hq). reflexivity.
    - unfold twilio10_texts. apply in_or_app. left. simpl. tauto. }
  apply twilio10_armed, Hq.
Qed.

Lemma fixed_text (s : string) :
  In s ["fire alarm button pressed"; "aux alarm button pressed";
        "panic alarm button pressed"; "AC power trouble"; "AC power restored"]%string ->
  A s.
Proof.
  intros H. apply A_texts. unfold twilio10_texts. apply in_or_app. left.
  simpl in *. tauto.
Qed.

Lemma twilio10_processStatus :
  hoare I Q (Twilio10.processStatus handlePanel net).
Proof.
  unfold Twilio10.processStatus.
  apply hoare_seq; [exact Q_app| |].
  { apply hoare_store; [exact Q_nil|]. intros d. apply I_values. reflexivity. }
  apply hoare_seq; [exact Q_app| |].
  { unfold Twilio.keypadFireStatus. apply hoare_text_block.
    apply (pushes_push Twilio.PushMessagePrefix), fixed_text. simpl. tauto. }
  apply hoare_seq; [exact Q_app| |].
  { unfold Twilio.keypadAuxStatus. apply hoare_text_block.
    apply (pushes_push Twilio.PushMessagePrefix), fixed_text. simpl. tauto. }
  apply hoare_seq; [exact Q_app| |].
  { unfold Twilio.keypadPanicStatus. apply hoare_text_block.
    apply (pushes_push Twilio.PushMessagePrefix), fixed_text. simpl. tauto. }
  apply hoare_seq; [exact Q_app| |].
  { unfold Twilio.powerStatus. apply hoare_text_block.
    apply pushes_ifelse; apply (pushes_push Twilio.PushMessagePrefix), fixed_text;
      simpl; tauto. }
  apply hoare_forRange; try assumption. intros q Hq. apply twilio10_partition, Hq.
Qed.

Lemma twilio10_loopStatus (handled : bool) (w : World) :
  I (dsc w) ->
  exists evs,
    trace (Twilio10.loopStatus handlePanel handleModule net handled w) = trace w ++ evs
    /\ Q evs /\ (handled = false -> evs = []).
Proof.
  intros Hw. unfold Twilio10.loopStatus. unfold andThen at 1.
  destruct (handled && statusChanged (dsc (store handlePanel w))) eqn:E.
  - assert (H : hoare I Q (store (set_statusChanged false)
                             >>> Twilio10.processStatus handlePanel net)).
    { apply hoare_seq; [exact Q_app| |apply twilio10_processStatus].
      apply hoare_store; [exact Q_nil|]. intros d. apply I_values. reflexivity. }
    destruct (H (store handlePanel w)) as [_ (evs & Et & Hq)].
    { apply I_handlePanel, Hw. }
    exists evs. split; [rewrite Et; reflexivity|]. split; [exact Hq|].
    intros ->. discriminate E.
  - exists []. rewrite app_nil_r. split; [reflexivity|]. split; [exact Q_nil|reflexivity].
Qed.

End Twilio10Logic.

Lemma visits_twilio10 (handlePanel handleModule : dscKeybusInterface -> dscKeybusInterface)
    (net : nat -> Twilio.PushEnv) (handled : bool) :
  visits twilio10_order (Twilio10.loopStatus handlePanel handleModule net handled).
Proof.
  unfold Twilio10.loopStatus.
  apply visits_seq_quiet_l; [apply visits_store|].
  intros w. destruct (handled && statusChanged (dsc w)).
  2:{ exists []. split; [simpl; rewrite app_nil_r; reflexivity|apply sublist_nil_l]. }
  revert w. change (visits twilio10_order
                      (store (set_statusChanged false)
                         >>> Twilio10.processStatus handlePanel net)).
  apply visits_seq_quiet_l; [apply visits_store|].
  unfold Twilio10.processStatus.
  apply visits_seq_quiet_l; [apply visits_store|].
  unfold twilio10_order.
  apply (visits_seq [FKeypadFire]
           ([FKeypadAux; FKeypadPanic; FPower]
            ++ flat_map (fun p => [FAlarm p; FFire p; FArmed p]) (seq 0 dscPartitions))).
  { unfold Twilio.keypadFireStatus. apply visits_block, visits_push. }
  apply (visits_seq [FKeypadAux]
           ([FKeypadPanic; FPower]
            ++ flat_map (fun p => [FAlarm p; FFire p; FArmed p]) (seq 0 dscPartitions))).
  { unfold Twilio.keypadAuxStatus. apply visits_block, visits_push. }
  apply (visits_seq [FKeypadPanic]
           ([FPower]
            ++ flat_map (fun p => [FAlarm p; FFire p; FArmed p]) (seq 0 dscPartitions))).
  { unfold Twilio.keypadPanicStatus. apply visits_block, visits_push. }
  apply visits_seq.
  { unfold Twilio.powerStatus. apply visits_block.
    apply visits_ifelse; apply visits_push. }
  apply visits_forRange. intros p. unfold Twilio10.partitionStatus.
  apply (visits_seq [FAlarm p] [FFire p; FArmed p]).
  { unfold Twilio10.alarmStatus. apply visits_block. cbv zeta.
    apply visits_ifelse; apply visits_push. }
  apply (visits_seq [FFire p] [FArmed p]).
  { unfold Twilio10.fireStatus. apply visits_block. cbv zeta.
    apply visits_ifelse; apply visits_push. }
  unfold Twilio10.armedStatus. apply visits_block. cbv zeta.
  apply visits_ifelse; [apply visits_push|].
  apply visits_ifelse; [apply visits_push|].
  apply visits_ifelse; apply visits_push.
Qed.

Lemma twilio10_order_nodup : NoDup twilio10_order.
Proof. apply (bool_decide_unpack _). vm_compute. exact I. Qed.

(** X17: a status pass of sketch 1.0 runs only after [handlePanel] has
    reported a valid command; it then resets the flags in program order
    (keypad fire, aux, panic, power, then alarm, fire and armed of each
    partition), none twice, and every reset is directly followed by exactly
    one push. *)
Theorem twilio10_flag_bookkeeping
    (handlePanel handleModule : dscKeybusInterface -> dscKeybusInterface)
    (net : nat -> Twilio.PushEnv) (handled : bool) (w : World) :
  exists evs,
    trace (Twilio10.loopStatus handlePanel handleModule net handled w) = trace w ++ evs
    /\ disciplined always_must evs = true
    /\ resets evs `sublist_of` twilio10_order
    /\ NoDup (resets evs)
    /\ (handled = false -> evs = []).
Proof.
  destruct (twilio10_loopStatus handlePanel handleModule net
              (fun _ => True) (fun _ => True)
              (fun evs => disciplined always_must evs = true)) with (handled := handled) (w := w)
    as (evs & E & D & Hn); try (intros; exact Logic.I); try reflexivity.
  - intros a b. apply disciplined_app.
  - left. intros; exact Logic.I.
  - exists evs. split; [exact E|]. split; [exact D|].
    destruct (visits_twilio10 handlePanel handleModule net handled w) as (evs' & E' & S).
    rewrite E in E'. apply app_inv_head in E'. subst evs'.
    split; [exact S|]. split; [|exact Hn].
    apply (sublist_NoDup _ twilio10_order); [apply twilio10_order_nodup|exact S].
Qed.

Lemma push_texts_app (a b : list Ev) : push_texts (a ++ b) = push_texts a ++ push_texts b.
Proof. unfold push_texts. apply flat_map_app. Qed.

Lemma mode_texts_apart :
  forallb (fun m => negb (existsb (String.eqb m) twilio10_mode_texts)) twilio10_texts = true.
Proof. vm_compute. reflexivity. Qed.

(** X18: sketch 1.0 tests [armed] before [armedAway] and [armedStay].
    If the library sets these two only together with [armed], no push of a
    pass names the arming mode: every text is one of the fixed texts or names
    a partition as in alarm, in fire alarm, armed or disarmed. *)
Theorem twilio10_never_reports_arming_mode
    (handlePanel handleModule : dscKeybusInterface -> dscKeybusInterface)
    (net : nat -> Twilio.PushEnv) (handled : bool) (w : World) :
  (forall d, modes_imply_armed d = true -> modes_imply_armed (handlePanel d) = true) ->
  modes_imply_armed (dsc w) = true ->
  exists evs,
    trace (Twilio10.loopStatus handlePanel handleModule net handled w) = trace w ++ evs
    /\ forall pushMessage, In pushMessage (push_texts evs) ->
         In pushMessage twilio10_texts /\ ~ In pushMessage twilio10_mode_texts.
Proof.
  intros Hpanel Hw.
  destruct (twilio10_loopStatus handlePanel handleModule net
              (fun d => modes_imply_armed d = true) (fun m => In m twilio10_texts)
              (fun evs => forall m, In m (push_texts evs) -> In m twilio10_texts))
    with (handled := handled) (w := w) as (evs & E & Hq & _); try assumption.
  - intros m [].
  - intros a b Ha Hb m Hm. rewrite push_texts_app in Hm.
    apply in_app_or in Hm. destruct Hm; [apply Ha|apply Hb]; assumption.
  - intros f prefix m Hm m' Hm'. simpl in Hm'. destruct Hm' as [<-|[]]. exact Hm.
  - intros d d'. apply modes_imply_armed_values.
  - intros m Hm. exact Hm.
  - right. intros d Hd. exact Hd.
  - exists evs. split; [exact E|]. intros m Hm. split; [apply Hq, Hm|].
    intros Hmode. pose proof mode_texts_apart as Hap.
    rewrite forallb_forall in Hap. specialize (Hap m (Hq m Hm)).
    apply negb_true_iff in Hap.
    assert (Hex : existsb (String.eqb m) twilio10_mode_texts = true).
    { apply existsb_exists. exists m. split; [exact Hmode|apply String.eqb_refl]. }
    rewrite Hex in Hap. discriminate.
Qed.

(** ** Topics of the OpenHAB sketch *)

Lemma strcat_cancel (t a b : string) : strcat t a = strcat t b -> a = b.
Proof.
  unfold strcat. induction t as [|c t IH]; simpl; intros H.
  - exact H.
  - injection H as H. apply IH, H.
Qed.

Lemma itoa_apart :
  forallb (fun i => forallb (fun j =>
      (i =? j)%nat || negb (String.eqb (itoa (Z.of_nat i)) (itoa (Z.of_nat j))))
    (seq 0 65)) (seq 0 65) = true.
Proof. vm_compute. reflexivity. Qed.

Lemma itoa_inj_small (i j : nat) :
  (i < 65)%nat -> (j < 65)%nat -> itoa (Z.of_nat i) = itoa (Z.of_nat j) -> i = j.
Proof.
  intros Hi Hj E. pose proof itoa_apart as H.
  rewrite forallb_forall in H. specialize (H i ltac:(apply in_seq; lia)).
  rewrite forallb_forall in H. specialize (H j ltac:(apply in_seq; lia)).
  rewrite E, String.eqb_refl in H. simpl in H. rewrite orb_false_r in H.
  apply Nat.eqb_eq, H.
Qed.

Section OpenHABTopics.
Import OpenHAB.

(** X11: a topic names its source.  Two [publishState] calls with the
    same source topic publish to the same topic only for the same partition,
    and two zone blocks publish to the same topic only for the same zone. *)
Theorem status_topic_names_its_source
    (sourceTopic suffix suffix' : string) (p q g b g' b' : nat) (w w' : World)
    (topic payload payload' : string) (retained retained' : bool) :
  (p < dscPartitions)%nat -> (q < dscPartitions)%nat ->
  (g < dscZones)%nat -> (b < 8)%nat -> (g' < dscZones)%nat -> (b' < 8)%nat ->
  (trace (publishState sourceTopic p suffix w)
     = trace w ++ [EvPublish topic payload retained] ->
   trace (publishState sourceTopic q suffix' w')
     = trace w' ++ [EvPublish topic payload' retained'] ->
   p = q)
  /\ (trace (zoneStatus g b w)
        = trace w ++ [EvClear (FOpenZone g b); EvPublish topic payload retained] ->
      trace (zoneStatus g' b' w')
        = trace w' ++ [EvClear (FOpenZone g' b'); EvPublish topic payload' retained'] ->
      g = g' /\ b = b').
Proof.
  unfold dscPartitions, dscZones. intros Hp Hq Hg Hb Hg' Hb'. split.
  - unfold publishState, publish, emit, strcpy. cbn [trace]. intros E1 E2.
    apply app_inv_head in E1, E2.
    injection E1 as E1 _ _. injection E2 as E2 _ _. rewrite <- E2 in E1.
    apply strcat_cancel in E1.
    replace (Z.of_nat p + 1) with (Z.of_nat (p + 1)) in E1 by lia.
    replace (Z.of_nat q + 1) with (Z.of_nat (q + 1)) in E1 by lia.
    apply itoa_inj_small in E1; lia.
  - assert (Hz : forall g b w topic payload retained,
               trace (zoneStatus g b w)
               = trace w ++ [EvClear (FOpenZone g b); EvPublish topic payload retained] ->
               topic = strcat mqttZoneTopic (itoa (Z.of_nat (b + 1 + g * 8)))).
    { clear. intros g b w topic payload retained.
      replace (Z.of_nat (b + 1 + g * 8)) with (Z.of_nat b + 1 + Z.of_nat g * 8) by lia.
      unfold zoneStatus, when, ifelse, andThen, reset, andThen, publish, emit, store, strcpy.
      destruct (changed (FOpenZone g b) (dsc w)).
      - cbn [dsc trace].
        destruct (truthy _); cbn [trace]; rewrite <- app_assoc; intros E;
          apply app_inv_head in E; injection E as E _ _; symmetry; exact E.
      - unfold skip. intros E. apply (f_equal (@length Ev)) in E.
        rewrite length_app in E. simpl in E. lia. }
    intros E1 E2. apply Hz in E1. apply Hz in E2. rewrite E2 in E1.
    apply strcat_cancel, itoa_inj_small in E1; lia.
Qed.

End OpenHABTopics.

(** ** One iteration of the OpenHAB sketch *)

Section OpenHABIteration.
Import OpenHAB OpenHABBlocks.

(** X19: in one [loop()] iteration with the link up, the Keybus writes
    of the received commands come first, judged against the state before
    [dsc.loop()]; the status pass follows, and runs on the state that
    [dsc.loop()] leaves, only if [statusChanged] is set in it. *)
Theorem openhab_loop_commands_before_status
    (accessCode : string) (env : MqttEnv)
    (dscLoop : dscKeybusInterface -> dscKeybusInterface)
    (mqttPreviousTime : Z) (w : World) :
  isConnected env = true ->
  let r := loop accessCode env dscLoop mqttPreviousTime w in
  let writes := flat_map (command_events accessCode (dsc w)) (inbox env) in
  fst r = mqttPreviousTime
  /\ Forall is_write writes
  /\ exists v,
       let d1 := dscLoop (set_writePartition v (dsc w)) in
       trace (snd r)
       = trace w ++ writes
         ++ (if statusChanged d1 then status_events accessCode d1 else []).
Proof.
  intros Hc r writes. unfold r, loop, mqttHandle. rewrite Hc. cbn [negb fst snd].
  split; [reflexivity|]. split.
  { unfold writes. clear. induction (inbox env) as [|payload rest IH]; simpl.
    - constructor.
    - apply Forall_app. split; [|exact IH].
      destruct (mqttCallback_shape accessCode payload w) as (v & _ & _ & Hf). exact Hf. }
  destruct (callbacks_fold accessCode (inbox env) w) as (v & E). rewrite E.
  exists v. fold writes. cbv zeta. unfold store. cbn [dsc trace pushCalls].
  destruct (statusChanged (dscLoop (set_writePartition v (dsc w)))) eqn:Hs.
  - rewrite loopStatus_spec by exact Hs. cbn [trace].
    rewrite status_events_unflag, <- app_assoc. reflexivity.
  - unfold loopStatus, when, ifelse, skip. cbn [dsc]. rewrite Hs. cbn [trace].
    rewrite app_nil_r. reflexivity.
Qed.

End OpenHABIteration.

(** ** The further properties at concrete inputs *)

(** A failed attempt at 6000 ms; the call at 9000 ms changes nothing. *)
Lemma mqttHandle_retry_interval_witness :
  fst (OpenHAB.mqttHandle "1234" (broker_down 6000) 0 (fresh idle)) = 6000
  /\ OpenHAB.mqttHandle "1234" (broker_down 9000)
       (fst (OpenHAB.mqttHandle "1234" (broker_down 6000) 0 (fresh idle)))
       (snd (OpenHAB.mqttHandle "1234" (broker_down 6000) 0 (fresh idle)))
     = OpenHAB.mqttHandle "1234" (broker_down 6000) 0 (fresh idle).
Proof.
  apply (proj1 (proj2 (mqttHandle_retry_interval "1234" (broker_down 6000)
                         (broker_down 9000) 0 (fresh idle) eq_refl eq_refl
                         ltac:(vm_compute; discriminate))));
    [vm_compute; reflexivity|reflexivity].
Defined.

(** "2S" on a quiet panel: the stay key goes to partition 2. *)
Lemma mqttCallback_arm_commands_witness :
  trace (OpenHAB.mqttCallback "1234" [50; 83] (fresh idle)) = [EvWriteKey "s"]
  /\ writePartition (dsc (OpenHAB.mqttCallback "1234" [50; 83] (fresh idle))) = 2.
Proof.
  exact (mqttCallback_arm_commands "1234" [50; 83] (fresh idle) (or_introl eq_refl)).
Defined.

(** "9D" is dropped although partition 2 is armed. *)
Lemma mqttCallback_drops_other_commands_witness :
  OpenHAB.mqttCallback "1234" [57; 68] (fresh armed_2) = fresh armed_2.
Proof.
  apply mqttCallback_drops_other_commands; vm_compute; discriminate.
Defined.

(** Two commands in one [mqtt.loop()]. *)
Lemma mqttHandle_delivers_each_command_witness :
  trace (snd (OpenHAB.mqttHandle "1234" (broker_up [[50; 83]; [65]]) 0 (fresh idle)))
  = [EvWriteKey "s"; EvWriteKey "w"].
Proof.
  exact (eq_trans
           (proj1 (proj2 (mqttHandle_delivers_each_command "1234"
                            (broker_up [[50; 83]; [65]]) 0 (fresh idle) eq_refl)))
           eq_refl).
Defined.

Lemma openhab_pass_only_lowers_flags_witness :
  inputs (dsc (OpenHAB.loopStatus "1234" (fresh zone_5_opened))) = inputs zone_5_opened.
Proof.
  exact (proj1 (openhab_pass_only_lowers_flags "1234" (fresh zone_5_opened)
                  ltac:(repeat split))).
Defined.

Lemma openhab_second_pass_is_quiet_witness :
  trace (OpenHAB.loopStatus "1234"
           (store (set_statusChanged true)
              (OpenHAB.loopStatus "1234" (fresh zone_5_opened))))
  = trace (OpenHAB.loopStatus "1234" (fresh zone_5_opened))
    ++ [EvSubscribe OpenHAB.mqttSubscribeTopic].
Proof.
  exact (openhab_second_pass_is_quiet "1234" (fresh zone_5_opened)
           ltac:(repeat split) eq_refl).
Defined.

(** The restored fire alarm of partition 2 goes out as "20". *)
Lemma fire_state_payload_has_partition_digit_witness :
  occurs [EvClear (FFire 1); EvPublish "dsc/Get/Fire2" "20" true]
         (trace (OpenHAB.loopStatus "1234" (fresh fire_restored_2))).
Proof.
  exact (fire_state_payload_has_partition_digit "1234" (fresh fire_restored_2) 1
           ltac:(vm_compute; lia) eq_refl eq_refl).
Defined.

Lemma openhab_pass_frame_witness :
  accessCodePrompt (dsc (OpenHAB.loopStatus "1234" (fresh zone_5_opened))) = false.
Proof.
  exact (proj1 (proj2 (openhab_pass_frame "1234" (fresh zone_5_opened) eq_refl))).
Defined.

Lemma openhab_zone_scan_is_gated_witness :
  openZonesChanged (dsc (OpenHAB.loopStatus "1234" (fresh alarm_restored_1)))
  = openZonesChanged alarm_restored_1.
Proof.
  exact (proj1 (openhab_zone_scan_is_gated "1234" (fresh alarm_restored_1)
                  eq_refl eq_refl)).
Defined.

(** Two zone blocks that publish to "dsc/Get/Zone5" are both zone 5. *)
Lemma status_topic_names_its_source_witness :
  trace (OpenHAB.zoneStatus 0 4 (fresh zone_5_opened))
  = [EvClear (FOpenZone 0 4); EvPublish "dsc/Get/Zone5" "1" true]
  /\ (0 = 0 /\ 4 = 4)%nat.
Proof.
  split; [reflexivity|].
  apply (proj2 (status_topic_names_its_source "dsc/Get/Partition" "A" "D"
                  0 0 0 4 0 4 (fresh zone_5_opened) (fresh zone_5_opened)
                  "dsc/Get/Zone5" "1" "1" true true
                  ltac:(vm_compute; lia) ltac:(vm_compute; lia)
                  ltac:(vm_compute; lia) ltac:(vm_compute; lia)
                  ltac:(vm_compute; lia) ltac:(vm_compute; lia)));
    reflexivity.
Defined.

(** Started 296 ms before the wrap, read 200 ms after it: 496 ms. *)
Lemma timers_count_through_clock_wrap_witness :
  fst (Twilio.waitResponse (fun d => d) 4294967000 [200] idle) = true.
Proof.
  apply (proj2 (proj1 (timers_count_through_clock_wrap (fun d => d) "1234"
                         (broker_down 200) 4294967000 200 (fresh idle)
                         ltac:(lia) ltac:(lia)))).
  lia.
Defined.

(** The link is back: the pause ends and a status pass is requested. *)
Lemma wifiSupervise_follows_link_witness :
  pauseStatus (dsc (snd (Twilio.wifiSupervise true true false (fresh idle)))) = false
  /\ statusChanged (dsc (snd (Twilio.wifiSupervise true true false (fresh idle)))) = true.
Proof.
  apply (proj1 (proj2 (proj2 (wifiSupervise_follows_link true true false (fresh idle)))));
    reflexivity.
Defined.

(** The unset array still holds the message of partition 1, 23
    characters: the append for partition 2 writes past its end. *)
Lemma twilio_message_arrays_fit_witness :
  TwilioBuffers.armedMessage false false "armed away: partition 1" 1 = None.
Proof.
  exact (proj1 (proj2 (proj2 (proj2
           (twilio_message_arrays_fit 1 7 7 false "armed away: partition 1"
              (OpenHAB.Buffers.alloc 24)
              ltac:(vm_compute; lia) ltac:(vm_compute; lia) ltac:(lia)))))
           eq_refl).
Defined.

(** What the array holds after an append that stays inside it. *)
Example unset_array_with_short_text :
  OpenHAB.Buffers.text <$> TwilioBuffers.armedMessage false false "connected" 1
  = Some "connected2"%string.
Proof. vm_compute. reflexivity. Qed.

(** Partition 1 armed away: the text of sketch 1.0 does not say so. *)
Lemma twilio10_never_reports_arming_mode_witness :
  exists evs,
    trace (Twilio10.loopStatus (fun d => d) (fun d => d) (fun _ => offline) true
             (fresh armed_away_1))
    = trace (fresh armed_away_1) ++ evs
    /\ forall pushMessage, In pushMessage (push_texts evs) ->
         In pushMessage twilio10_texts /\ ~ In pushMessage twilio10_mode_texts.
Proof.
  apply (twilio10_never_reports_arming_mode (fun d => d) (fun d => d)
           (fun _ => offline) true (fresh armed_away_1));
    [intros d H; exact H|reflexivity].
Defined.

Example twilio10_armed_away_text :
  trace (Twilio10.loopStatus (fun d => d) (fun d => d) (fun _ => offline) true
           (fresh armed_away_1))
  = [EvClear (FArmed 0); EvPush "Security system " "armed, partition 1       "].
Proof. vm_compute. reflexivity. Qed.

Lemma openhab_loop_commands_before_status_witness :
  fst (OpenHAB.loop "1234" (broker_up [[50; 83]]) (fun d => d) 7 (fresh zone_5_opened)) = 7.
Proof.
  exact (proj1 (openhab_loop_commands_before_status "1234" (broker_up [[50; 83]])
                  (fun d => d) 7 (fresh zone_5_opened) eq_refl)).
Defined.

(** "2S" arrives while zone 5 has just opened. *)
Example command_then_zone_report :
  trace (snd (OpenHAB.loop "1234" (broker_up [[50; 83]]) (fun d => d) 7
                (fresh zone_5_opened)))
  = [EvWriteKey "s"; EvClear (FOpenZone 0 4); EvPublish "dsc/Get/Zone5" "1" true;
     EvSubscribe "dsc/Set"].
Proof. vm_compute. reflexivity. Qed.
